(** * GA4 team chat: the request pipeline, embedded and verified

    The server answers a chat message in three stages: a language model turns
    the message into GA4 query parameters ([processQuery], server/groq.js and
    its Gemini sibling), the parameters are run against the Analytics Data API
    ([queryGA4], server/ga4.js), and the model is asked again to word the
    result (the POST /api/chat handler of server/index.js).

    JavaScript values are embedded as the inductive [value]; strings are
    sequences of code units below 256; objects are finite maps from the names
    of their own properties to values.  A number is kept as the decimal numeral it was read
    from, which denotes the nearest IEEE double.  Asynchronous functions run
    to completion one after the other, so they are embedded in a monad of
    module state, a log of outbound calls and a result that is either a
    returned value or a thrown error.  The environment, [process.env], is a
    finite map from the names of the variables that are set to their
    strings.  Console output is not part of the model. *)

From stdpp Require Import gmap strings list fin_maps.
From Stdlib Require Import ZArith NArith Ascii DecimalString.
From Stdlib Require DecimalNat.

Set Warnings "-register-all,-clear-no-such-hyp".
Set Default Proof Using "Type".
Open Scope string_scope.
Open Scope list_scope.

(** ** JavaScript values *)

(** The decimal numeral [Fin neg m e] stands for the double nearest to
    [(-1)^neg * m * 10^e].  Two numerals may stand for one double, so
    equality of numerals is finer than equality of doubles; a numeral so
    small that its double is zero is outside the model. *)
Inductive number :=
| NaN
| Inf (neg : bool)
| Fin (neg : bool) (m : N) (e : Z).

Definition of_N (n : N) : number := Fin false n 0.
Definition of_nat (n : nat) : number := of_N (N.of_nat n).
Definition zero : number := of_N 0.

Inductive value :=
| VUndef
| VNull
| VBool (b : bool)
| VNum (n : number)
| VStr (s : string)
| VArr (l : list value)
| VObj (o : gmap string value).

(** ToBoolean on numbers, strings and values. *)
Definition truthy_number (n : number) : bool :=
  match n with
  | NaN => false
  | Inf _ => true
  | Fin _ m _ => negb (m =? 0)%N
  end.

Definition truthy_string (s : string) : bool :=
  match s with
  | EmptyString => false
  | String _ _ => true
  end.

Definition truthy (v : value) : bool :=
  match v with
  | VUndef | VNull => false
  | VBool b => b
  | VNum n => truthy_number n
  | VStr s => truthy_string s
  | VArr _ | VObj _ => true
  end.

(** [a || b] on an optional string: the operand when it is present and not
    empty, otherwise the fallback. *)
Definition or_string (a : option string) (b : string) : string :=
  match a with
  | Some s => if truthy_string s then s else b
  | None => b
  end.

(** ** Strings *)

Definition dquote : string := String (ascii_of_nat 34) EmptyString.
Definition open_brace : ascii := ascii_of_nat 123.
Definition close_brace : ascii := ascii_of_nat 125.

(** [String.prototype.includes]: case-sensitive substring search. *)
Fixpoint includes (s sub : string) : bool :=
  if String.prefix sub s then true
  else match s with
       | EmptyString => false
       | String _ t => includes t sub
       end.

(** [String.prototype.toLowerCase] on code units below 256: A-Z and the
    accented capitals 192-222 (215, the multiplication sign, apart) move up
    by 32. *)
Definition lower_char (c : ascii) : ascii :=
  let n := nat_of_ascii c in
  if (((65 <=? n) && (n <=? 90)) || ((192 <=? n) && (n <=? 222) && negb (n =? 215)))%nat
  then ascii_of_nat (n + 32)
  else c.

Fixpoint toLowerCase (s : string) : string :=
  match s with
  | EmptyString => EmptyString
  | String c t => String (lower_char c) (toLowerCase t)
  end.

(** [Array.prototype.slice(-n)]: the last [n] elements, all of them when the
    array is shorter. *)
Definition slice_last {A} (n : nat) (l : list A) : list A :=
  drop (length l - n) l.

(** ** Thrown errors and the effect monad *)

Record Error := mkError { message : string }.

(** [err.message], for use where a parameter is itself called [message]. *)
Definition message_of (err : Error) : string := message err.

Inductive outcome (A : Type) :=
| Ret (a : A)
| Throw (e : Error).
Arguments Ret {A} a.
Arguments Throw {A} e.

Section Monad.
Context {S E : Type}.

(** A computation reads the module state, and gives the new state, the
    calls it made, oldest first, and how it ended. *)
Definition M (A : Type) : Type := S -> S * list E * outcome A.

Definition ret {A} (a : A) : M A := fun s => (s, [], Ret a).
Definition throw {A} (e : Error) : M A := fun s => (s, [], Throw e).
Definition lift {A} (r : outcome A) : M A := fun s => (s, [], r).
Definition emit (e : E) : M unit := fun s => (s, [e], Ret tt).
Definition get : M S := fun s => (s, [], Ret s).
Definition put (s : S) : M unit := fun _ => (s, [], Ret tt).

Definition bind {A B} (c : M A) (k : A -> M B) : M B :=
  fun s =>
    match c s with
    | (s1, t1, Ret a) =>
        match k a s1 with
        | (s2, t2, r) => (s2, t1 ++ t2, r)
        end
    | (s1, t1, Throw e) => (s1, t1, Throw e)
    end.

(** [try { c } catch (err) { h err }] *)
Definition try_catch {A} (c : M A) (h : Error -> M A) : M A :=
  fun s =>
    match c s with
    | (s1, t1, Ret a) => (s1, t1, Ret a)
    | (s1, t1, Throw e) =>
        match h e s1 with
        | (s2, t2, r) => (s2, t1 ++ t2, r)
        end
    end.

(** An outbound call: logged, then answered by the remote side. *)
Definition call {A} (e : E) (answer : outcome A) : M A :=
  bind (emit e) (fun _ => lift answer).
End Monad.
Arguments M : clear implicits.

Notation "x <- c ;; k" := (bind c (fun x => k))
  (at level 100, c at next level, right associativity).
Notation "c ;;; k" := (bind c (fun _ => k))
  (at level 100, right associativity).

Definition calls {S E A} (r : S * list E * outcome A) : list E := snd (fst r).
Definition result {S E A} (r : S * list E * outcome A) : outcome A := snd r.
Definition final {S E A} (r : S * list E * outcome A) : S := fst (fst r).

(** ** Wire formats of the remote services *)

(** One entry of the conversation history the browser sends along. *)
Module Chat.
Record Message := { role : string; content : string }.
End Chat.
Abbreviation ChatMessage := Chat.Message.

(** The Groq chat-completions endpoint, as server/groq.js uses it. *)
Module GroqApi.
Record Client := { apiKey : option string }.
Record Message := { role : string; content : string }.
Record Request := {
  model : string;
  messages : list Message;
  temperature : number;
  max_tokens : number
}.
(** Of each choice only [message?.content] is read: a choice is given by
    its message, if there is one, and that message by its content, if
    there is one. *)
Definition Choice : Type := option (option string).
Record Response := { choices : list Choice }.
End GroqApi.

(** The Gemini generateContent endpoint, as the Gemini sibling of
    server/groq.js uses it. *)
Module GeminiApi.
Record Client := { apiKey : option string }.
Record Part := { text : string }.
Record Content := { role : string; parts : list Part }.
Record Config := { systemInstruction : string; maxOutputTokens : number }.
Record Request := { model : string; contents : list Content; config : Config }.
(** The response's [text] accessor; named apart from a part's [text]. *)
Record Response := { response_text : option string }.
End GeminiApi.

(** The Analytics Data API's runReport, as server/ga4.js uses it. *)
Module Ga4Api.
(** How the client was authenticated: from a key file, or from
    credentials given inline. *)
Inductive Client :=
| KeyFile (keyFilename : string)
| Credentials (credentials : value).
Record Name := { name : string }.
Record DateRange := { startDate : string; endDate : string }.
Record Request := {
  property : string;
  dateRanges : list DateRange;
  dimensions : list Name;
  metrics : list Name;
  limit : number;
  dimensionFilter : option value;
  orderBys : list value
}.
(** A dimension or metric value of a row; [value] may be missing. *)
Record Value := { value : option string }.
Record Row := { dimensionValues : list Value; metricValues : list Value }.
Record Response := {
  rows : option (list Row);
  totals : option (list Row);
  rowCount : option number
}.
End Ga4Api.

(** The module-level variables: [client] of groq.js, [client] of its Gemini
    sibling and [analyticsClient] of ga4.js, each null until first use. *)
Record Globals := {
  groq_client : option GroqApi.Client;
  gemini_client : option GeminiApi.Client;
  analyticsClient : option Ga4Api.Client
}.

Definition fresh : Globals :=
  {| groq_client := None; gemini_client := None; analyticsClient := None |}.

(** What leaves a function: requests to the three remote services, and the
    calls the chat handler makes to the functions it imports. *)
Inductive event :=
| GroqCreate (req : GroqApi.Request)
| GeminiGenerate (req : GeminiApi.Request)
| RunReport (req : Ga4Api.Request)
| CallProcessQuery (message : string) (history : list ChatMessage) (isFormatting : bool)
| CallQueryGA4 (params : value).

(** The world outside the program: the constructors of the two completion
    SDKs, [new Groq({ apiKey })] and [new GoogleGenAI({ apiKey })], each of
    which returns a client or throws (the Groq SDK refuses a key that is
    undefined); the remote services, each a function from the request to
    its answer or failure; and the two JSON built-ins. *)
Record World := {
  new_Groq : option string -> outcome GroqApi.Client;
  new_GoogleGenAI : option string -> outcome GeminiApi.Client;
  groq_create : GroqApi.Client -> GroqApi.Request -> outcome GroqApi.Response;
  gemini_generate : GeminiApi.Client -> GeminiApi.Request -> outcome GeminiApi.Response;
  runReport : Ga4Api.Client -> Ga4Api.Request -> outcome Ga4Api.Response;
  JSON_parse : string -> outcome value;
  JSON_stringify : value -> string
}.

Abbreviation Run := (M Globals event).

(** ** The interpreter's three result shapes *)

Definition text_result (text : string) : value :=
  VObj (<["type" := VStr "text"]> (<["content" := VStr text]> ∅)).

Definition error_result (msg : string) : value :=
  VObj {["error" := VStr msg]}.

(** ** Reading the model's reply *)

(** The rest of [s] after its first opening brace. *)
Fixpoint after_first_open (s : string) : option string :=
  match s with
  | EmptyString => None
  | String c t => if Ascii.eqb c open_brace then Some t else after_first_open t
  end.

(** The longest prefix of [s] that ends in a closing brace. *)
Fixpoint upto_last_close (s : string) : option string :=
  match s with
  | EmptyString => None
  | String c t =>
      match upto_last_close t with
      | Some r => Some (String c r)
      | None => if Ascii.eqb c close_brace then Some (String c EmptyString) else None
      end
  end.

(** [text.match(/\{[\s\S]*\}/)]: the match starts at the first opening brace
    and, the star being greedy over every character, runs to the last
    closing brace after it; null when no closing brace follows. *)
Definition match_braces (text : string) : option string :=
  match after_first_open text with
  | None => None
  | Some rest =>
      match upto_last_close rest with
      | None => None
      | Some r => Some (String open_brace r)
      end
  end.

(** The inner try block, the same text in both provider modules: the braces
    are matched, the match is parsed, and whatever goes wrong the reply is
    handed back as text. *)
Definition read_reply (w : World) (text : string) : Run value :=
  try_catch
    (match match_braces text with
     | None => ret (text_result text)
     | Some jsonMatch =>
         parsed <- lift (JSON_parse w jsonMatch) ;;
         ret parsed
     end)
    (fun parseErr => ret (text_result text)).

(** ** The two prompts, shared word for word by both provider modules *)

Definition SYSTEM_PROMPT : string :=
  String.concat dquote
   ["You are a Google Analytics 4 data analyst assistant for a team. Your job is to interpret natural language questions about website analytics and convert them into GA4 API query parameters.

AVAILABLE GA4 DIMENSIONS:
- date, dateHour, dateHourMinute
- country, city, region, continent
- deviceCategory, browser, operatingSystem, platform
- pagePath, pageTitle, landingPage, landingPagePlusQueryString
- source, medium, sessionDefaultChannelGroup, campaignName
- newVsReturning, userAgeBracket, userGender
- eventName, isConversionEvent

AVAILABLE GA4 METRICS:
- totalUsers, newUsers, activeUsers, active1DayUsers, active7DayUsers, active28DayUsers
- sessions, sessionsPerUser, engagedSessions, engagementRate
- screenPageViews, screenPageViewsPerSession, screenPageViewsPerUser
- bounceRate, averageSessionDuration, userEngagementDuration
- eventCount, eventsPerSession, conversions
- totalRevenue, transactions

DATE FORMATS:
- Specific dates: ";
    "YYYY-MM-DD";
    " (e.g., ";
    "2026-01-15";
    ")
- Relative dates: ";
    "today";
    ", ";
    "yesterday";
    ", ";
    "NdaysAgo";
    " (e.g., ";
    "7daysAgo";
    ", ";
    "30daysAgo";
    ")

RULES:
1. Always respond with valid JSON
2. Choose appropriate dimensions and metrics based on the question
3. Use sensible date ranges (default: last 7 days)
4. Set reasonable limits (default: 20, max: 100)
5. If the question cannot be answered with GA4 data, respond with:
   {";
    "type";
    ": ";
    "text";
    ", ";
    "content";
    ": ";
    "your explanation here";
    "}
6. For ambiguous questions, make reasonable assumptions and note them

RESPONSE FORMAT for GA4 queries:
{
  ";
    "type";
    ": ";
    "ga4_query";
    ",
  ";
    "dimensions";
    ": [";
    "dimension1";
    ", ";
    "dimension2";
    "],
  ";
    "metrics";
    ": [";
    "metric1";
    ", ";
    "metric2";
    "],
  ";
    "startDate";
    ": ";
    "7daysAgo";
    ",
  ";
    "endDate";
    ": ";
    "yesterday";
    ",
  ";
    "limit";
    ": 20,
  ";
    "orderBys";
    ": [{";
    "metric";
    ": {";
    "metricName";
    ": ";
    "metricName";
    "}, ";
    "desc";
    ": true}]
}

RESPONSE FORMAT for non-GA4 questions:
{
  ";
    "type";
    ": ";
    "text";
    ",
  ";
    "content";
    ": ";
    "Your helpful response here";
    "
}"].

Definition FORMAT_SYSTEM_PROMPT : string :=
  String.concat dquote
   ["You are a data analyst presenting Google Analytics insights to a team.
Format your responses using markdown for readability:
- Use tables for tabular data
- Use bullet points for key insights
- Bold important numbers and trends
- Include percentage changes where relevant
- Suggest 2-3 follow-up questions at the end
- Be concise but insightful
- Format numbers with commas (e.g., 1,234)
- Format percentages to 1 decimal place
- Format durations in human-readable format (e.g., ";
    "2m 34s";
    " instead of 154.23)
- If bounce rate or engagement rate is a decimal (0.45), convert to percentage (45.0%)
Keep the tone professional but friendly."].

(** ** server/groq.js *)

Module Groq.
Import GroqApi.

(** When the constructor throws, nothing is assigned to [client]. *)
Definition getClient (w : World) (env : gmap string string) : Run Client :=
  g <- get ;;
  match groq_client g with
  | Some client => ret client
  | None =>
      client <- lift (new_Groq w (env !! "GROQ_API_KEY")) ;;
      put {| groq_client := Some client;
             gemini_client := gemini_client g;
             analyticsClient := analyticsClient g |} ;;;
      ret client
  end.

(** [messages] as the function builds it: the system prompt, then one push
    per entry of the recent history, then the new message. *)
Definition build_messages (message : string) (history : list ChatMessage)
    (isFormatting : bool) : list Message :=
  let messages :=
    [ {| role := "system";
         content := if isFormatting then FORMAT_SYSTEM_PROMPT else SYSTEM_PROMPT |} ] in
  let recentHistory := slice_last 8 history in
  let messages :=
    foldl (fun messages msg =>
             messages ++
             [ {| role := if String.eqb (Chat.role msg) "user"
                          then "user" else "assistant";
                  content := Chat.content msg |} ])
          messages recentHistory in
  messages ++ [ {| role := "user"; content := message |} ].

Definition build_request (env : gmap string string) (message : string)
    (history : list ChatMessage) (isFormatting : bool) : Request :=
  {| model := or_string (env !! "GROQ_MODEL") "llama-3.3-70b-versatile";
     messages := build_messages message history isFormatting;
     temperature := Fin false 3 (-1);
     max_tokens := of_N 2048 |}.

(** [response.choices[0]?.message?.content || ""] *)
Definition reply_text (response : Response) : string :=
  match choices response with
  | Some (Some text) :: _ => text
  | _ => ""
  end.

Definition processQuery (w : World) (env : gmap string string)
    (message : string) (history : list ChatMessage) (isFormatting : bool)
    : Run value :=
  groq <- getClient w env ;;
  let request := build_request env message history isFormatting in
  try_catch
    (response <- call (GroqCreate request) (groq_create w groq request) ;;
     let text := reply_text response in
     if isFormatting then ret (text_result text)
     else read_reply w text)
    (fun err =>
       if includes (message_of err) "API" || includes (message_of err) "key"
       then ret (error_result
                   "Groq API key not configured. Please set GROQ_API_KEY in .env")
       else ret (error_result ("AI processing failed: " +:+ message_of err))).
End Groq.

(** ** The Gemini sibling of server/groq.js *)

Module Gemini.
Import GeminiApi.

Definition getClient (w : World) (env : gmap string string) : Run Client :=
  g <- get ;;
  match gemini_client g with
  | Some client => ret client
  | None =>
      client <- lift (new_GoogleGenAI w (env !! "GEMINI_API_KEY")) ;;
      put {| groq_client := groq_client g;
             gemini_client := Some client;
             analyticsClient := analyticsClient g |} ;;;
      ret client
  end.

(** [contents]: one push per entry of the recent history, then the new
    message; the system prompt travels in the request's config. *)
Definition build_contents (message : string) (history : list ChatMessage)
    : list Content :=
  let contents := [] in
  let recentHistory := slice_last 8 history in
  let contents :=
    foldl (fun contents msg =>
             contents ++
             [ {| role := if String.eqb (Chat.role msg) "user"
                          then "user" else "model";
                  parts := [ {| text := Chat.content msg |} ] |} ])
          contents recentHistory in
  contents ++ [ {| role := "user"; parts := [ {| text := message |} ] |} ].

Definition build_request (env : gmap string string) (message : string)
    (history : list ChatMessage) (isFormatting : bool) : Request :=
  {| model := or_string (env !! "GEMINI_MODEL") "gemini-2.0-flash";
     contents := build_contents message history;
     config :=
       {| systemInstruction :=
            if isFormatting then FORMAT_SYSTEM_PROMPT else SYSTEM_PROMPT;
          maxOutputTokens := of_N 2048 |} |}.

(** [response.text || ""] *)
Definition reply_text (response : Response) : string :=
  or_string (response_text response) "".

Definition processQuery (w : World) (env : gmap string string)
    (message : string) (history : list ChatMessage) (isFormatting : bool)
    : Run value :=
  ai <- getClient w env ;;
  let request := build_request env message history isFormatting in
  try_catch
    (response <- call (GeminiGenerate request) (gemini_generate w ai request) ;;
     let text := reply_text response in
     if isFormatting then ret (text_result text)
     else read_reply w text)
    (fun err =>
       if includes (message_of err) "API_KEY"
          || includes (message_of err) "api key"
       then ret (error_result
                   "Gemini API key not configured. Please set GEMINI_API_KEY in .env")
       else ret (error_result ("AI processing failed: " +:+ message_of err))).
End Gemini.

(** ** server/ai.js: the provider is chosen by AI_PROVIDER *)

Module Ai.
Inductive provider := groq | gemini.

(** The switch on [provider.toLowerCase()]; gemini is also the default. *)
Definition select (env : gmap string string) : provider :=
  let provider := or_string (env !! "AI_PROVIDER") "gemini" in
  if String.eqb (toLowerCase provider) "groq" then groq else gemini.

Definition processQuery (w : World) (env : gmap string string)
    (message : string) (history : list ChatMessage) (isFormatting : bool)
    : Run value :=
  match select env with
  | groq => Groq.processQuery w env message history isFormatting
  | gemini => Gemini.processQuery w env message history isFormatting
  end.
End Ai.

(** ** The numeric built-ins used on metric values *)

Definition is_digit (c : ascii) : bool :=
  let n := nat_of_ascii c in ((48 <=? n) && (n <=? 57))%nat.

(** White space and line terminators among the code units below 256. *)
Definition is_space (c : ascii) : bool :=
  let n := nat_of_ascii c in
  (((9 <=? n) && (n <=? 13)) || (n =? 32) || (n =? 160))%nat.

Fixpoint trim_start (s : string) : string :=
  match s with
  | String c t => if is_space c then trim_start t else s
  | EmptyString => EmptyString
  end.

Fixpoint trim_end (s : string) : string :=
  match s with
  | EmptyString => EmptyString
  | String c t =>
      match trim_end t with
      | EmptyString => if is_space c then EmptyString else String c EmptyString
      | r => String c r
      end
  end.

Definition trim (s : string) : string := trim_end (trim_start s).

(** The leading run of characters that satisfy [p], and the rest. *)
Fixpoint span (p : ascii -> bool) (s : string) : string * string :=
  match s with
  | String c t =>
      if p c then let '(a, b) := span p t in (String c a, b) else (EmptyString, s)
  | EmptyString => (EmptyString, EmptyString)
  end.

Definition digit_value (c : ascii) : N := N.of_nat (nat_of_ascii c - 48).

Fixpoint digits_value (acc : N) (s : string) : N :=
  match s with
  | EmptyString => acc
  | String c t => digits_value (acc * 10 + digit_value c) t
  end.

(** An optional sign: whether it is a minus, and the rest. *)
Definition sign (s : string) : bool * string :=
  match s with
  | String c t =>
      if Ascii.eqb c "-" then (true, t)
      else if Ascii.eqb c "+" then (false, t)
      else (false, s)
  | EmptyString => (false, s)
  end.

(** An exponent part at the head of [s]: its value and the rest.  Without a
    digit after the indicator there is no exponent part. *)
Definition exponent (s : string) : Z * string :=
  match s with
  | String c t =>
      if Ascii.eqb c "e" || Ascii.eqb c "E" then
        let '(neg, t1) := sign t in
        let '(ds, t2) := span is_digit t1 in
        match ds with
        | EmptyString => (0%Z, s)
        | _ =>
            let v := Z.of_N (digits_value 0 ds) in
            ((if neg then - v else v)%Z, t2)
        end
      else (0%Z, s)
  | EmptyString => (0%Z, s)
  end.

(** The longest prefix of [s] that is a StrDecimalLiteral, read as a number,
    and what follows it; [None] when no prefix is one. *)
Definition scan_decimal (s : string) : option (number * string) :=
  let '(neg, s1) := sign s in
  if String.prefix "Infinity" s1 then Some (Inf neg, String.substring 8 (String.length s1 - 8) s1)
  else
    let '(int_digits, s2) := span is_digit s1 in
    let '(frac_digits, s3) :=
      match s2 with
      | String c t =>
          if Ascii.eqb c "." then span is_digit t else (EmptyString, s2)
      | EmptyString => (EmptyString, s2)
      end in
    match int_digits, frac_digits with
    | EmptyString, EmptyString => None
    | _, _ =>
        let '(e, s4) := exponent s3 in
        Some (Fin neg (digits_value 0 (int_digits +:+ frac_digits))
                  (e - Z.of_nat (String.length frac_digits)),
              s4)
    end.

Definition is_hex_digit (c : ascii) : bool :=
  let n := nat_of_ascii c in
  (is_digit c || ((65 <=? n) && (n <=? 70)) || ((97 <=? n) && (n <=? 102)))%nat.
Definition is_octal_digit (c : ascii) : bool :=
  let n := nat_of_ascii c in ((48 <=? n) && (n <=? 55))%nat.
Definition is_binary_digit (c : ascii) : bool :=
  let n := nat_of_ascii c in ((48 <=? n) && (n <=? 49))%nat.

Definition all_of (p : ascii -> bool) (s : string) : bool :=
  match span p s with
  | (String _ _, EmptyString) => true
  | _ => false
  end.

(** 0x, 0o and 0b literals, which [Number] reads and [parseFloat] does not. *)
Definition non_decimal_literal (s : string) : bool :=
  match s with
  | String z (String k digits) =>
      Ascii.eqb z "0" &&
      (((Ascii.eqb k "x" || Ascii.eqb k "X") && all_of is_hex_digit digits)
       || ((Ascii.eqb k "o" || Ascii.eqb k "O") && all_of is_octal_digit digits)
       || ((Ascii.eqb k "b" || Ascii.eqb k "B") && all_of is_binary_digit digits))
  | _ => false
  end.

(** [isNaN(val)] on a string: [Number(val)] is NaN exactly when the trimmed
    string is neither empty nor a numeric literal. *)
Definition isNaN (val : string) : bool :=
  let t := trim val in
  match t with
  | EmptyString => false
  | _ =>
      if non_decimal_literal t then false
      else match scan_decimal t with
           | Some (_, EmptyString) => false
           | _ => true
           end
  end.

(** [parseFloat(val)]: the number read from the longest decimal prefix after
    leading white space, NaN when there is none. *)
Definition parseFloat (val : string) : number :=
  match scan_decimal (trim_start val) with
  | Some (n, _) => n
  | None => NaN
  end.

(** ** server/ga4.js *)

(** [array.forEach((x, i) => ...)] where the callback updates one object:
    the object is threaded through the calls, in index order. *)
Fixpoint forEach_from {A B} (f : B -> A -> nat -> B) (i : nat) (l : list A) (b : B) : B :=
  match l with
  | [] => b
  | x :: t => forEach_from f (S i) t (f b x i)
  end.

Definition forEach {A B} (f : B -> A -> nat -> B) (l : list A) (b : B) : B :=
  forEach_from f 0 l b.

(** [obj[key] = v] on an object created by [{}], whose own properties are
    the map.  The assignment makes [key] an own property, except under the
    name __proto__: there the setter inherited from Object.prototype runs,
    which ignores a string or a number and would take an object or null for
    the new prototype, so that no own property is created. *)
Definition set_property (key : string) (v : value) (obj : gmap string value)
    : gmap string value :=
  if String.eqb key "__proto__" then obj else <[key := v]> obj.

Module Ga4.

(** The parameter object, typed as the function's documentation types it;
    [None] is a property that is not there. *)
Record Params := {
  dimensions : option (list string);
  metrics : option (list string);
  startDate : option string;
  endDate : option string;
  limit : option number;
  dimensionFilter : option value;
  orderBys : option (list value)
}.

Module Result.
Record DateRange := { startDate : string; endDate : string }.
Record Metadata := {
  rowCount : number;
  dimensions : list string;
  metrics : list string;
  dateRange : DateRange;
  propertyId : string
}.
Record t := {
  rows : list (gmap string value);
  totals : gmap string value;
  metadata : Metadata
}.
End Result.

Definition remember (client : Ga4Api.Client) : Run unit :=
  g <- get ;;
  put {| groq_client := groq_client g;
         gemini_client := gemini_client g;
         analyticsClient := Some client |}.

(** [getClient] of server/ga4.js: the key file named by
    GOOGLE_APPLICATION_CREDENTIALS. *)
Definition getClient (env : gmap string string) : Run Ga4Api.Client :=
  g <- get ;;
  match analyticsClient g with
  | Some client => ret client
  | None =>
      match env !! "GOOGLE_APPLICATION_CREDENTIALS" with
      | Some (String c p as credentialsPath) =>
          remember (Ga4Api.KeyFile credentialsPath) ;;;
          ret (Ga4Api.KeyFile credentialsPath)
      | _ => throw (mkError "GOOGLE_APPLICATION_CREDENTIALS environment variable not set")
      end
  end.

(** [getClient] of the other copy of ga4.js: inline credentials from
    GA_CREDENTIALS_JSON first, the key file second. *)
Definition getClient_inline (w : World) (env : gmap string string)
    : Run Ga4Api.Client :=
  g <- get ;;
  match analyticsClient g with
  | Some client => ret client
  | None =>
      match env !! "GA_CREDENTIALS_JSON" with
      | Some (String c j as credentialsJson) =>
          try_catch
            (credentials <- lift (JSON_parse w credentialsJson) ;;
             remember (Ga4Api.Credentials credentials) ;;;
             ret (Ga4Api.Credentials credentials))
            (fun err => throw (mkError "Invalid GA_CREDENTIALS_JSON format"))
      | _ =>
          match env !! "GOOGLE_APPLICATION_CREDENTIALS" with
          | Some (String c p as credentialsPath) =>
              remember (Ga4Api.KeyFile credentialsPath) ;;;
              ret (Ga4Api.KeyFile credentialsPath)
          | _ =>
              throw (mkError
                "Neither GA_CREDENTIALS_JSON nor GOOGLE_APPLICATION_CREDENTIALS is set")
          end
      end
  end.

(** The destructuring of [params] with its defaults. *)
Definition dimensions_of (params : Params) : list string :=
  default ["date"] (dimensions params).
Definition metrics_of (params : Params) : list string :=
  default ["totalUsers"; "sessions"] (metrics params).
Definition startDate_of (params : Params) : string :=
  default "7daysAgo" (startDate params).
Definition endDate_of (params : Params) : string :=
  default "yesterday" (endDate params).
Definition limit_of (params : Params) : number :=
  default (of_N 100) (limit params).

(** [{ metric: { metricName: metrics[0] }, desc: true }]; with no metric
    at all the name is undefined. *)
Definition default_order (metrics : list string) : value :=
  VObj (<["metric" :=
            VObj {["metricName" := match metrics !! 0%nat with
                                   | Some m => VStr m
                                   | None => VUndef
                                   end]}]>
        (<["desc" := VBool true]> ∅)).

Definition build_request (propertyId : string) (params : Params) : Ga4Api.Request :=
  {| Ga4Api.property := "properties/" +:+ propertyId;
     Ga4Api.dateRanges :=
       [ {| Ga4Api.startDate := startDate_of params;
            Ga4Api.endDate := endDate_of params |} ];
     Ga4Api.dimensions := map Ga4Api.Build_Name (dimensions_of params);
     Ga4Api.metrics := map Ga4Api.Build_Name (metrics_of params);
     Ga4Api.limit := limit_of params;
     Ga4Api.dimensionFilter :=
       match dimensionFilter params with
       | Some f => if truthy f then Some f else None
       | None => None
       end;
     Ga4Api.orderBys :=
       match orderBys params with
       | Some (o :: os) => o :: os
       | _ => [ default_order (metrics_of params) ]
       end |}.

(** [values[i]?.value] *)
Definition value_at (values : list Ga4Api.Value) (i : nat) : option string :=
  match values !! i with
  | Some v => Ga4Api.value v
  | None => None
  end.

(** What is stored for the dimension at index [i]. *)
Definition dimension_cell (values : list Ga4Api.Value) (i : nat) : value :=
  VStr (or_string (value_at values i) "").

(** What is stored for the metric at index [i]. *)
Definition metric_cell (values : list Ga4Api.Value) (i : nat) : value :=
  let val := or_string (value_at values i) "0" in
  if isNaN val then VStr val else VNum (parseFloat val).

Definition parse_metrics (metrics : list string) (values : list Ga4Api.Value)
    (parsed : gmap string value) : gmap string value :=
  forEach (fun parsed met i => set_property met (metric_cell values i) parsed)
          metrics parsed.

Definition parse_row (dimensions metrics : list string) (row : Ga4Api.Row)
    : gmap string value :=
  let parsed := ∅ in
  let parsed :=
    forEach (fun parsed dim i =>
               set_property dim (dimension_cell (Ga4Api.dimensionValues row) i) parsed)
            dimensions parsed in
  parse_metrics metrics (Ga4Api.metricValues row) parsed.

Definition parse_totals (metrics : list string) (response : Ga4Api.Response)
    : gmap string value :=
  match Ga4Api.totals response with
  | Some (first :: _) => parse_metrics metrics (Ga4Api.metricValues first) ∅
  | _ => ∅
  end.

(** The object returned once the report is in. *)
Definition normalize (propertyId : string) (params : Params)
    (response : Ga4Api.Response) : Result.t :=
  let rows :=
    map (parse_row (dimensions_of params) (metrics_of params))
        (default [] (Ga4Api.rows response)) in
  {| Result.rows := rows;
     Result.totals := parse_totals (metrics_of params) response;
     Result.metadata :=
       {| Result.rowCount :=
            match Ga4Api.rowCount response with
            | Some n => if truthy_number n then n else of_nat (length rows)
            | None => of_nat (length rows)
            end;
          Result.dimensions := dimensions_of params;
          Result.metrics := metrics_of params;
          Result.dateRange :=
            {| Result.startDate := startDate_of params;
               Result.endDate := endDate_of params |};
          Result.propertyId := propertyId |} |}.

(** The catch block: the failure is classified by its message. *)
Definition classify (propertyId : string) (err : Error) : Error :=
  if includes (message err) "permission" then
    mkError "Permission denied. Check service account access in GA4."
  else if includes (message err) "not found" then
    mkError ("Property " +:+ propertyId +:+ " not found. Check your GA4_PROPERTY_ID.")
  else err.

(** [queryGA4]; the two copies of ga4.js differ only in their [getClient],
    which is therefore an argument. *)
Definition queryGA4 (getClient : Run Ga4Api.Client) (w : World)
    (env : gmap string string) (params : Params) : Run Result.t :=
  client <- getClient ;;
  match env !! "GA4_PROPERTY_ID" with
  | Some (String c p as propertyId) =>
      let request := build_request propertyId params in
      try_catch
        (response <- call (RunReport request) (runReport w client request) ;;
         ret (normalize propertyId params response))
        (fun err => throw (classify propertyId err))
  | _ => throw (mkError "GA4_PROPERTY_ID environment variable not set")
  end.
End Ga4.

(** ** Math.min, and removing a substring *)

(** The numeral [(-1)^neg * m * 10^e] as an integer multiple of [10^d], for
    [d] at most [e]. *)
Definition scaled (neg : bool) (m : N) (e d : Z) : Z :=
  ((if neg then -1 else 1) * Z.of_N m * 10 ^ (e - d))%Z.

(** How two numbers compare; nothing compares with NaN. *)
Definition num_compare (a b : number) : option comparison :=
  match a, b with
  | NaN, _ | _, NaN => None
  | Inf na, Inf nb =>
      Some (if na then (if nb then Eq else Lt) else (if nb then Gt else Eq))
  | Inf na, Fin _ _ _ => Some (if na then Lt else Gt)
  | Fin _ _ _, Inf nb => Some (if nb then Gt else Lt)
  | Fin na ma ea, Fin nb mb eb =>
      let d := Z.min ea eb in
      Some (Z.compare (scaled na ma ea d) (scaled nb mb eb d))
  end.

Definition is_negative_zero (n : number) : bool :=
  match n with
  | Fin true m _ => (m =? 0)%N
  | _ => false
  end.

(** [Math.min(a, b)]: NaN when either is NaN; of the two zeros the negative
    one is the smaller. *)
Definition Math_min (a b : number) : number :=
  match num_compare a b with
  | None => NaN
  | Some Lt => a
  | Some Gt => b
  | Some Eq => if is_negative_zero b then b else a
  end.

(** [s] without its first [n] characters. *)
Fixpoint skip (n : nat) (s : string) : string :=
  match n, s with
  | O, _ => s
  | S n, String _ t => skip n t
  | S _, EmptyString => EmptyString
  end.

(** [s.replace(pattern, "")] for a string pattern: the first occurrence of
    the pattern is taken out. *)
Fixpoint remove_first (pattern s : string) : string :=
  if String.prefix pattern s then skip (String.length pattern) s
  else match s with
       | EmptyString => EmptyString
       | String c t => String c (remove_first pattern t)
       end.

(** ** server/index.js: the POST /api/chat handler *)

Module Index.

(** [req.body], after the JSON body parser. *)
Record Body := { message : value; history : option (list ChatMessage) }.

(** What the handler sends: the status and the object given to [res.json]. *)
Record Response := { status : nat; body : value }.

(** [v.k] for the property names the handler reads (error, type, content),
    none of which a primitive or an array has: reading from null or
    undefined throws. *)
Definition get_prop (v : value) (k : string) : outcome value :=
  match v with
  | VObj o => Ret (default VUndef (o !! k))
  | VNull =>
      Throw (mkError ("Cannot read properties of null (reading '" +:+ k +:+ "')"))
  | VUndef =>
      Throw (mkError ("Cannot read properties of undefined (reading '" +:+ k +:+ "')"))
  | _ => Ret VUndef
  end.

(** [v === s] for a string literal [s]. *)
Definition is_string (v : value) (s : string) : bool :=
  match v with
  | VStr t => String.eqb t s
  | _ => false
  end.

(** The message of the formatting call. *)
Definition format_prompt (w : World) (message : string) (ga4Params ga4Data : value)
    : string :=
  "Here is the raw GA4 data for the user's question " +:+ dquote +:+ message
  +:+ dquote +:+ ". 
       Format this data as a clear, insightful answer. Use markdown tables where appropriate.
       Include key insights and trends. Keep it concise but informative.
       If relevant, suggest follow-up questions.
       
       GA4 Query params: " +:+ JSON_stringify w ga4Params +:+ "
       GA4 Data: " +:+ JSON_stringify w ga4Data.

Definition json (status : nat) (fields : list (string * value)) : Response :=
  {| status := status; body := VObj (list_to_map fields) |}.

(** What [authMiddleware] reads of a request: the Authorization header and
    the token of the query string, which is undefined, a string, or what
    the query parser made of a repeated or nested parameter. *)
Record Request := { authorization : option string; token : value }.

Definition unauthorized : Response :=
  json 401 [("error", VStr "Unauthorized. Invalid access token.")].

(** [authMiddleware]: [None] stands for the call of [next()]. *)
Definition authMiddleware (env : gmap string string) (req : Request) : option Response :=
  match env !! "TEAM_ACCESS_TOKEN" with
  | Some (String _ _ as expected) =>
      let provided :=
        match authorization req with
        | Some header =>
            let stripped := remove_first "Bearer " header in
            if truthy_string stripped then VStr stripped else token req
        | None => token req
        end in
      if is_string provided expected then None else Some unauthorized
  | _ => None
  end.

(** [req.body] of POST /api/query; [limit] is a JSON number when it is
    there (a limit of another type is outside the model). *)
Record QueryBody := {
  dimensions : value;
  metrics : value;
  startDate : value;
  endDate : value;
  limit : option number;
  dimensionFilter : value
}.

(** [v || d] *)
Definition or_value (v d : value) : value := if truthy v then v else d.

(** The object POST /api/query hands to [queryGA4]. *)
Definition query_params (req_body : QueryBody) : value :=
  VObj (list_to_map
    [("dimensions", or_value (dimensions req_body) (VArr [VStr "date"]));
     ("metrics", metrics req_body);
     ("startDate", or_value (startDate req_body) (VStr "7daysAgo"));
     ("endDate", or_value (endDate req_body) (VStr "yesterday"));
     ("limit",
      VNum (Math_min
              match limit req_body with
              | Some n => if truthy_number n then n else of_N 100
              | None => of_N 100
              end
              (of_N 1000)));
     ("dimensionFilter", dimensionFilter req_body)]).

(** The answer of GET /api/schema. *)
Definition schema : value :=
  VObj (list_to_map
    [("commonMetrics",
      VArr (map VStr
        ["totalUsers"; "newUsers"; "activeUsers"; "sessions"; "screenPageViews";
         "bounceRate"; "averageSessionDuration"; "engagedSessions";
         "engagementRate"; "eventCount"; "conversions"]));
     ("commonDimensions",
      VArr (map VStr
        ["date"; "country"; "city"; "deviceCategory"; "browser"; "operatingSystem";
         "pagePath"; "pageTitle"; "source"; "medium"; "sessionDefaultChannelGroup";
         "landingPage"]));
     ("exampleQueries",
      VArr (map VStr
        ["Show me active users for the last 7 days";
         "What are the top 10 pages by views this month?";
         "Compare traffic this week vs last week";
         "Show me users by country for the last 30 days";
         "What's the bounce rate by device category?";
         "What are the top traffic sources?";
         "Show me daily sessions trend for the past month";
         "Which pages have the highest engagement rate?"]))]).

(** The environment check at the head of the file: the variables that must
    be set, those of them that are not, and whether the process goes on or
    exits with status 1. *)
Definition requiredEnv (env : gmap string string) : list string :=
  let provider := or_string (env !! "AI_PROVIDER") "gemini" in
  ["GOOGLE_APPLICATION_CREDENTIALS"; "GA4_PROPERTY_ID"]
  ++ [ if String.eqb (toLowerCase provider) "groq" then "GROQ_API_KEY"
       else "GEMINI_API_KEY" ].

Definition missing (env : gmap string string) : list string :=
  List.filter (fun key => negb (truthy_string (default EmptyString (env !! key))))
              (requiredEnv env).

Definition startup (env : gmap string string) : option nat :=
  match missing env with
  | [] => None
  | _ :: _ => Some 1
  end.

(** The handler proper: the route's [authMiddleware] and the rate limiter
    run before it and are not part of it.  Each call to an imported function
    is logged before it is made. *)
Section Handler.
(** The two functions the file imports, and its surroundings. *)
Variable processQuery : string -> list ChatMessage -> bool -> Run value.
Variable queryGA4 : value -> Run value.
Variable w : World.
Variable env : gmap string string.

Definition chat (req_body : Body) : Run Response :=
  try_catch
    (let history := default [] (history req_body) in
     match message req_body with
     | VStr (String _ _ as message) =>
         if (2000 <? String.length message)%nat then
           ret (json 400 [("error", VStr "Message too long (max 2000 chars)")])
         else
           (* Step 1: the model interprets the message *)
           ga4Params <- (emit (CallProcessQuery message history false) ;;;
                         processQuery message history false) ;;
           error <- lift (get_prop ga4Params "error") ;;
           if truthy error then
             ret (json 200 [("type", VStr "text"); ("content", error)])
           else
             type <- lift (get_prop ga4Params "type") ;;
             if is_string type "text" then
               content <- lift (get_prop ga4Params "content") ;;
               ret (json 200 [("type", VStr "text"); ("content", content)])
             else
               (* Step 2: the query is executed *)
               ga4Data <- (emit (CallQueryGA4 ga4Params) ;;;
                           queryGA4 ga4Params) ;;
               (* Step 3: the model words the result *)
               let prompt := format_prompt w message ga4Params ga4Data in
               response <- (emit (CallProcessQuery prompt [] true) ;;;
                            processQuery prompt [] true) ;;
               content <- lift (get_prop response "content") ;;
               ret (json 200
                      [("type", VStr "analytics");
                       ("content", if truthy content then content else response);
                       ("rawData", ga4Data);
                       ("query", ga4Params)])
     | _ => ret (json 400 [("error", VStr "Message is required")])
     end)
    (fun err =>
       ret (json 500
              [("error", VStr "Failed to process your query. Please try again.");
               ("details",
                match env !! "NODE_ENV" with
                | Some mode =>
                    if String.eqb mode "development" then VStr (message_of err)
                    else VUndef
                | None => VUndef
                end)])).

(** The handler of POST /api/query. *)
Definition query (req_body : QueryBody) : Run Response :=
  try_catch
    (match metrics req_body with
     | VArr (_ :: _) =>
         let params := query_params req_body in
         data <- (emit (CallQueryGA4 params) ;;; queryGA4 params) ;;
         ret {| status := 200; body := data |}
     | _ => ret (json 400 [("error", VStr "At least one metric is required")])
     end)
    (fun err => ret (json 500 [("error", VStr "Failed to query GA4")])).

(** The four routes under /api, each behind [authMiddleware]; the time of
    the health check is read from the clock. *)
Inductive api :=
| GetHealth (timestamp : string)
| PostChat (req_body : Body)
| PostQuery (req_body : QueryBody)
| GetSchema.

Definition handle (route : api) : Run Response :=
  match route with
  | GetHealth timestamp =>
      ret (json 200
             [("status", VStr "ok");
              ("property", VStr (or_string (env !! "GA4_PROPERTY_ID") "not set"));
              ("timestamp", VStr timestamp)])
  | PostChat req_body => chat req_body
  | PostQuery req_body => query req_body
  | GetSchema => ret {| status := 200; body := schema |}
  end.

Definition serve (req : Request) (route : api) : Run Response :=
  match authMiddleware env req with
  | Some refusal => ret refusal
  | None => handle route
  end.
End Handler.
End Index.

(** * A concrete world for the examples

    The theorems below hold for every world.  Their examples run in a world
    whose JSON.parse is the following reader of JSON texts: objects, arrays,
    strings with the single-character escapes, numbers, true, false and
    null.  A unicode escape is outside the fragment and is refused. *)

Module Demo.

Definition is_json_space (c : ascii) : bool :=
  let n := nat_of_ascii c in ((n =? 32) || (n =? 9) || (n =? 10) || (n =? 13))%nat.

Fixpoint skip_space (s : string) : string :=
  match s with
  | String c t => if is_json_space c then skip_space t else s
  | EmptyString => EmptyString
  end.

(** The characters of a string literal after its opening quote, and what
    follows the closing quote. *)
Fixpoint read_string (s : string) : option (string * string) :=
  match s with
  | EmptyString => None
  | String c t =>
      let n := nat_of_ascii c in
      if (n =? 34)%nat then Some (EmptyString, t)
      else if (n <? 32)%nat then None
      else if (n =? 92)%nat then
        match t with
        | String e t' =>
            let k := nat_of_ascii e in
            let unescaped :=
              if (k =? 34)%nat || (k =? 92)%nat || (k =? 47)%nat then Some e
              else if (k =? 98)%nat then Some (ascii_of_nat 8)
              else if (k =? 102)%nat then Some (ascii_of_nat 12)
              else if (k =? 110)%nat then Some (ascii_of_nat 10)
              else if (k =? 114)%nat then Some (ascii_of_nat 13)
              else if (k =? 116)%nat then Some (ascii_of_nat 9)
              else None in
            match unescaped, read_string t' with
            | Some x, Some (r, rest) => Some (String x r, rest)
            | _, _ => None
            end
        | EmptyString => None
        end
      else
        match read_string t with
        | Some (r, rest) => Some (String c r, rest)
        | None => None
        end
  end.

(** A JSON number: an optional minus, an integer part without a leading
    zero, an optional fraction and an optional exponent. *)
Definition read_number (s : string) : option (number * string) :=
  let '(neg, s1) :=
    match s with
    | String c t => if Ascii.eqb c "-" then (true, t) else (false, s)
    | EmptyString => (false, s)
    end in
  let '(int_digits, s2) := span is_digit s1 in
  match int_digits with
  | EmptyString => None
  | String d ds =>
      if Ascii.eqb d "0" && negb (String.eqb ds EmptyString) then None
      else
        let frac :=
          match s2 with
          | String c t =>
              if Ascii.eqb c "." then
                match span is_digit t with
                | (EmptyString, _) => None
                | (f, r) => Some (f, r)
                end
              else Some (EmptyString, s2)
          | EmptyString => Some (EmptyString, s2)
          end in
        match frac with
        | None => None
        | Some (frac_digits, s3) =>
            let '(e, s4) := exponent s3 in
            Some (Fin neg (digits_value 0 (int_digits +:+ frac_digits))
                      (e - Z.of_nat (String.length frac_digits)),
                  s4)
        end
  end.

Definition read_literal (lit : string) (v : value) (s : string)
    : option (value * string) :=
  if String.prefix lit s
  then Some (v, String.substring (String.length lit) (String.length s - String.length lit) s)
  else None.

(** A value at the head of [s], and what follows it.  The members of an
    object and the elements of an array are read one by one, the object
    or array read so far being carried along. *)
Fixpoint read_value (fuel : nat) (s : string) : option (value * string) :=
  match fuel with
  | O => None
  | S fuel =>
      match skip_space s with
      | EmptyString => None
      | String c t =>
          let n := nat_of_ascii c in
          if (n =? 123)%nat then
            match skip_space t with
            | String c' t' =>
                if (nat_of_ascii c' =? 125)%nat then Some (VObj ∅, t')
                else read_members fuel ∅ (String c' t')
            | EmptyString => None
            end
          else if (n =? 91)%nat then
            match skip_space t with
            | String c' t' =>
                if (nat_of_ascii c' =? 93)%nat then Some (VArr [], t')
                else read_elements fuel [] (String c' t')
            | EmptyString => None
            end
          else if (n =? 34)%nat then
            match read_string t with
            | Some (str, rest) => Some (VStr str, rest)
            | None => None
            end
          else if (n =? 116)%nat then read_literal "true" (VBool true) (String c t)
          else if (n =? 102)%nat then read_literal "false" (VBool false) (String c t)
          else if (n =? 110)%nat then read_literal "null" VNull (String c t)
          else
            match read_number (String c t) with
            | Some (num, rest) => Some (VNum num, rest)
            | None => None
            end
      end
  end
with read_members (fuel : nat) (acc : gmap string value) (s : string)
    : option (value * string) :=
  match fuel with
  | O => None
  | S fuel =>
      match skip_space s with
      | String q t =>
          if (nat_of_ascii q =? 34)%nat then
            match read_string t with
            | Some (key, rest) =>
                match skip_space rest with
                | String colon rest' =>
                    if (nat_of_ascii colon =? 58)%nat then
                      match read_value fuel rest' with
                      | Some (v, rest'') =>
                          let acc := <[key := v]> acc in
                          match skip_space rest'' with
                          | String d u =>
                              if (nat_of_ascii d =? 44)%nat then read_members fuel acc u
                              else if (nat_of_ascii d =? 125)%nat then Some (VObj acc, u)
                              else None
                          | EmptyString => None
                          end
                      | None => None
                      end
                    else None
                | EmptyString => None
                end
            | None => None
            end
          else None
      | EmptyString => None
      end
  end
with read_elements (fuel : nat) (acc : list value) (s : string)
    : option (value * string) :=
  match fuel with
  | O => None
  | S fuel =>
      match read_value fuel s with
      | Some (v, rest) =>
          let acc := acc ++ [v] in
          match skip_space rest with
          | String d u =>
              if (nat_of_ascii d =? 44)%nat then read_elements fuel acc u
              else if (nat_of_ascii d =? 93)%nat then Some (VArr acc, u)
              else None
          | EmptyString => None
          end
      | None => None
      end
  end.

(** The whole text must be one value.  The recursion of the reader is
    bounded through the length of the text. *)
Definition parse (s : string) : outcome value :=
  match read_value (S (String.length s)) s with
  | Some (v, rest) =>
      match skip_space rest with
      | EmptyString => Ret v
      | _ => Throw (mkError "Unexpected non-whitespace character after JSON")
      end
  | None => Throw (mkError "Unexpected token in JSON")
  end.

(** The JSON text of a value, the members of an object in the order of
    their keys (the finite maps do not keep the order of insertion). *)
Definition hex_digit (n : nat) : ascii :=
  ascii_of_nat (if (n <? 10)%nat then 48 + n else 87 + n).

Definition escape (c : ascii) : string :=
  let n := nat_of_ascii c in
  let backslash := String (ascii_of_nat 92) EmptyString in
  if (n =? 34)%nat || (n =? 92)%nat then backslash +:+ String c EmptyString
  else if (n =? 8)%nat then backslash +:+ "b"
  else if (n =? 12)%nat then backslash +:+ "f"
  else if (n =? 10)%nat then backslash +:+ "n"
  else if (n =? 13)%nat then backslash +:+ "r"
  else if (n =? 9)%nat then backslash +:+ "t"
  else if (n <? 32)%nat then
    backslash +:+ "u00" +:+ String (hex_digit (n / 16)) (String (hex_digit (n mod 16)) EmptyString)
  else String c EmptyString.

Fixpoint quoted_body (s : string) : string :=
  match s with
  | EmptyString => EmptyString
  | String c t => escape c +:+ quoted_body t
  end.

Definition quoted (s : string) : string := dquote +:+ quoted_body s +:+ dquote.

Definition render_number (n : number) : string :=
  match n with
  | NaN | Inf _ => "null"
  | Fin neg m e =>
      (if neg && negb (m =? 0)%N then "-" else "")
      +:+ NilEmpty.string_of_uint (N.to_uint m)
      +:+ (if (e =? 0)%Z then "" else "e" +:+ NilEmpty.string_of_int (Z.to_int e))
  end.

Fixpoint render (v : value) : string :=
  match v with
  | VUndef | VNull => "null"
  | VBool b => if b then "true" else "false"
  | VNum n => render_number n
  | VStr s => quoted s
  | VArr l => "[" +:+ String.concat "," (map render l) +:+ "]"
  | VObj o =>
      "{" +:+ String.concat ","
                (map_fold (fun k x members =>
                             match x with
                             | VUndef => members
                             | _ => (quoted k +:+ ":" +:+ render x) :: members
                             end) [] o)
      +:+ "}"
  end.

(** Interpolated into a template, an undefined result reads undefined. *)
Definition stringify (v : value) : string :=
  match v with
  | VUndef => "undefined"
  | _ => render v
  end.

(** The constructors of the two SDKs: Groq's throws when the key is
    undefined, Gemini's takes what it is given. *)
Definition groq_sdk (apiKey : option string) : outcome GroqApi.Client :=
  match apiKey with
  | Some key => Ret {| GroqApi.apiKey := Some key |}
  | None =>
      Throw (mkError "The GROQ_API_KEY environment variable is missing or empty; either provide it, or instantiate the Groq client with an apiKey option, like new Groq({ apiKey: 'My API Key' }).")
  end.

Definition gemini_sdk (apiKey : option string) : outcome GeminiApi.Client :=
  Ret {| GeminiApi.apiKey := apiKey |}.

(** The world in which the completion API answers every request with
    [reply] and the Analytics Data API every report with [report]. *)
Definition world (reply : outcome string) (report : outcome Ga4Api.Response) : World :=
  {| new_Groq := groq_sdk;
     new_GoogleGenAI := gemini_sdk;
     groq_create := fun _ _ =>
       match reply with
       | Ret text => Ret {| GroqApi.choices := [Some (Some text)] |}
       | Throw err => Throw err
       end;
     gemini_generate := fun _ _ =>
       match reply with
       | Ret text => Ret {| GeminiApi.response_text := Some text |}
       | Throw err => Throw err
       end;
     runReport := fun _ _ => report;
     JSON_parse := parse;
     JSON_stringify := stringify |}.

Definition no_report : outcome Ga4Api.Response :=
  Throw (mkError "UNAVAILABLE: No connection established").

(** An environment as server/index.js requires it at start-up. *)
Definition env_with (provider : string) : gmap string string :=
  <["AI_PROVIDER" := provider]>
    (<["GOOGLE_APPLICATION_CREDENTIALS" := "/secrets/ga4-key.json"]>
       (<["GA4_PROPERTY_ID" := "314159265"]>
          (<["GROQ_API_KEY" := "gsk-demo"]>
             (<["GEMINI_API_KEY" := "gm-demo"]> ∅)))).

Definition cell (text : string) : Ga4Api.Value := {| Ga4Api.value := Some text |}.

(** The executor as the handler of the examples imports it: the
    parameter object is read where its properties have the documented
    types, and the result is handed back as a value.  Other parameter
    objects are outside the examples. *)
Definition strings_of (v : value) : option (list string) :=
  match v with
  | VArr l => mapM (fun x => match x with VStr s => Some s | _ => None end) l
  | _ => None
  end.

Definition optional {A} (read : value -> option A) (v : option value)
    : option (option A) :=
  match v with
  | None | Some VUndef => Some None
  | Some x => Some <$> read x
  end.

Definition params_of (v : value) : option Ga4.Params :=
  match v with
  | VObj o =>
      dimensions ← optional strings_of (o !! "dimensions");
      metrics ← optional strings_of (o !! "metrics");
      startDate ← optional (fun x => match x with VStr s => Some s | _ => None end)
                           (o !! "startDate");
      endDate ← optional (fun x => match x with VStr s => Some s | _ => None end)
                         (o !! "endDate");
      limit ← optional (fun x => match x with VNum n => Some n | _ => None end)
                       (o !! "limit");
      orderBys ← optional (fun x => match x with VArr l => Some l | _ => None end)
                          (o !! "orderBys");
      Some {| Ga4.dimensions := dimensions;
              Ga4.metrics := metrics;
              Ga4.startDate := startDate;
              Ga4.endDate := endDate;
              Ga4.limit := limit;
              Ga4.dimensionFilter := o !! "dimensionFilter";
              Ga4.orderBys := orderBys |}
  | _ => None
  end.

Definition value_of (res : Ga4.Result.t) : value :=
  let metadata := Ga4.Result.metadata res in
  let dateRange := Ga4.Result.dateRange metadata in
  VObj (list_to_map
    [("rows", VArr (map VObj (Ga4.Result.rows res)));
     ("totals", VObj (Ga4.Result.totals res));
     ("metadata", VObj (list_to_map
        [("rowCount", VNum (Ga4.Result.rowCount metadata));
         ("dimensions", VArr (map VStr (Ga4.Result.dimensions metadata)));
         ("metrics", VArr (map VStr (Ga4.Result.metrics metadata)));
         ("dateRange", VObj (list_to_map
            [("startDate", VStr (Ga4.Result.startDate dateRange));
             ("endDate", VStr (Ga4.Result.endDate dateRange))]));
         ("propertyId", VStr (Ga4.Result.propertyId metadata))]))]).

Definition queryGA4 (w : World) (env : gmap string string) (v : value) : Run value :=
  match params_of v with
  | Some params =>
      res <- Ga4.queryGA4 (Ga4.getClient env) w env params ;;
      ret (value_of res)
  | None => throw (mkError "parameters outside the examples")
  end.
End Demo.

(** * The vocabulary of the properties *)

(** ** The completion call of one run *)

(** The client a provider module gets hold of: the one in its module
    variable, else the one the SDK's constructor returns for the key of the
    environment; the constructor may throw instead. *)
Definition groq_client_for (w : World) (env : gmap string string) (g : Globals)
    : outcome GroqApi.Client :=
  match groq_client g with
  | Some client => Ret client
  | None => new_Groq w (env !! "GROQ_API_KEY")
  end.

Definition gemini_client_for (w : World) (env : gmap string string) (g : Globals)
    : outcome GeminiApi.Client :=
  match gemini_client g with
  | Some client => Ret client
  | None => new_GoogleGenAI w (env !! "GEMINI_API_KEY")
  end.

(** What the constructor of the selected provider threw, when the module
    has no client and cannot build one. *)
Definition client_failure (w : World) (env : gmap string string) (g : Globals)
    : option Error :=
  match Ai.select env with
  | Ai.groq =>
      match groq_client_for w env g with Ret _ => None | Throw err => Some err end
  | Ai.gemini =>
      match gemini_client_for w env g with Ret _ => None | Throw err => Some err end
  end.

(** The module has a client, and the completion API answers the request of
    this call with [text]. *)
Definition model_replies (w : World) (env : gmap string string) (g : Globals)
    (message : string) (history : list ChatMessage) (isFormatting : bool)
    (text : string) : Prop :=
  match Ai.select env with
  | Ai.groq =>
      exists client response,
        groq_client_for w env g = Ret client
        /\ groq_create w client
             (Groq.build_request env message history isFormatting) = Ret response
        /\ Groq.reply_text response = text
  | Ai.gemini =>
      exists client response,
        gemini_client_for w env g = Ret client
        /\ gemini_generate w client
             (Gemini.build_request env message history isFormatting) = Ret response
        /\ Gemini.reply_text response = text
  end.

(** The module has a client, and the completion API fails the request of
    this call with [err]. *)
Definition model_fails (w : World) (env : gmap string string) (g : Globals)
    (message : string) (history : list ChatMessage) (isFormatting : bool)
    (err : Error) : Prop :=
  match Ai.select env with
  | Ai.groq =>
      exists client,
        groq_client_for w env g = Ret client
        /\ groq_create w client
             (Groq.build_request env message history isFormatting) = Throw err
  | Ai.gemini =>
      exists client,
        gemini_client_for w env g = Ret client
        /\ gemini_generate w client
             (Gemini.build_request env message history isFormatting) = Throw err
  end.

(** Whether the selected provider's catch block takes the failure for a
    problem with the API key, and what it answers then. *)
Definition looks_like_key_problem (env : gmap string string) (err : Error) : bool :=
  match Ai.select env with
  | Ai.groq => includes (message err) "API" || includes (message err) "key"
  | Ai.gemini => includes (message err) "API_KEY" || includes (message err) "api key"
  end.

Definition key_message (env : gmap string string) : string :=
  match Ai.select env with
  | Ai.groq => "Groq API key not configured. Please set GROQ_API_KEY in .env"
  | Ai.gemini => "Gemini API key not configured. Please set GEMINI_API_KEY in .env"
  end.

(** The value the inner try block comes to. *)
Definition reply_value (w : World) (text : string) : value :=
  match match_braces text with
  | None => text_result text
  | Some jsonMatch =>
      match JSON_parse w jsonMatch with
      | Ret parsed => parsed
      | Throw _ => text_result text
      end
  end.

(** The history entries as the two providers are sent them. *)
Definition groq_turn (msg : ChatMessage) : GroqApi.Message :=
  {| GroqApi.role := if String.eqb (Chat.role msg) "user" then "user" else "assistant";
     GroqApi.content := Chat.content msg |}.

Definition gemini_turn (msg : ChatMessage) : GeminiApi.Content :=
  {| GeminiApi.role := if String.eqb (Chat.role msg) "user" then "user" else "model";
     GeminiApi.parts := [ {| GeminiApi.text := Chat.content msg |} ] |}.

(** ** Braces *)

(** The nesting depth after [s], starting from depth [d]; [None] when a
    closing brace has no partner. *)
Fixpoint brace_depth (d : nat) (s : string) : option nat :=
  match s with
  | EmptyString => Some d
  | String c t =>
      if Ascii.eqb c open_brace then brace_depth (S d) t
      else if Ascii.eqb c close_brace then
        match d with
        | O => None
        | S d' => brace_depth d' t
        end
      else brace_depth d t
  end.

Definition balanced (s : string) : bool :=
  match brace_depth 0 s with
  | Some O => true
  | _ => false
  end.

(** A balanced block: it opens with a brace, closes with a brace, and its
    braces pair up. *)
Definition balanced_block (b : string) : Prop :=
  exists mid, b = String open_brace (mid +:+ String close_brace EmptyString)
              /\ balanced b = true.

Definition has_balanced_block (text : string) : Prop :=
  exists pre b post, text = pre +:+ b +:+ post /\ balanced_block b.

(** No brace at all. *)
Fixpoint plain (s : string) : bool :=
  match s with
  | EmptyString => true
  | String c t =>
      negb (Ascii.eqb c open_brace) && negb (Ascii.eqb c close_brace) && plain t
  end.

(** The character [c] does not occur in [s]. *)
Fixpoint lacks (c : ascii) (s : string) : bool :=
  match s with
  | EmptyString => true
  | String x t => negb (Ascii.eqb x c) && lacks c t
  end.

(** ** What the handler looks at in the interpreter's result *)

(** [r.k] where reading cannot throw. *)
Definition field (r : value) (k : string) : value :=
  match r with
  | VObj o => default VUndef (o !! k)
  | _ => VUndef
  end.

(** The Error shape: an object whose [error] is set.  The Text shape: an
    object whose [type] is the string text. *)
Definition Error_shaped (r : value) : Prop := truthy (field r "error") = true.
Definition Text_shaped (r : value) : Prop := Index.is_string (field r "type") "text" = true.

(** The content of the short-circuit answer. *)
Definition short_content (r : value) : value :=
  if truthy (field r "error") then field r "error" else field r "content".

(** ** Metric keys of a row *)

(** The keys of [parsed] that are metric names. *)
Definition metric_keys (metrics : list string) (parsed : gmap string value) : gset string :=
  dom parsed ∩ list_to_set metrics.


(** What is stored for a metric value: zero when the value is missing or
    empty, the number it reads as when it reads as one, and otherwise the
    value itself, a string. *)
Definition stored_metric (v : option string) : value :=
  match v with
  | None | Some EmptyString => VNum zero
  | Some val => if isNaN val then VStr val else VNum (parseFloat val)
  end.


(** The parameter object with only [metrics] set, to sessions. *)
Definition sessions_only : Ga4.Params :=
  {| Ga4.dimensions := None;
     Ga4.metrics := Some ["sessions"];
     Ga4.startDate := None;
     Ga4.endDate := None;
     Ga4.limit := None;
     Ga4.dimensionFilter := None;
     Ga4.orderBys := None |}.

(** The key [k] is not written again after index [i]. *)
Definition last_at (names : list string) (i : nat) (k : string) : Prop :=
  names !! i = Some k /\ forall j, i < j -> names !! j <> Some k.

(** ** The rest of the code: further vocabulary *)

(** The environment variable [key] is set to a string that is not empty. *)
Definition is_set (env : gmap string string) (key : string) : Prop :=
  exists c s, env !! key = Some (String c s).

(** Every character of [s] is a decimal digit. *)
Fixpoint all_digits (s : string) : bool :=
  match s with
  | EmptyString => true
  | String c t => is_digit c && all_digits t
  end.

(** [a] is at most [b]; false when either is NaN. *)
Definition num_le (a b : number) : bool :=
  match num_compare a b with
  | Some Lt | Some Eq => true
  | _ => false
  end.

(** The answer of the chat handler when a stage throws. *)
Definition chat_failure (env : gmap string string) (err : Error) : Index.Response :=
  Index.json 500
    [("error", VStr "Failed to process your query. Please try again.");
     ("details",
      if bool_decide (env !! "NODE_ENV" = Some "development")
      then VStr (message err) else VUndef)].

(** A report with no rows, no totals and no count. *)
Definition empty_report : Ga4Api.Response :=
  {| Ga4Api.rows := None; Ga4Api.totals := None; Ga4Api.rowCount := None |}.

(** The state in which only the analytics client has been built. *)
Definition with_analytics (client : Ga4Api.Client) : Globals :=
  {| groq_client := None; gemini_client := None; analyticsClient := Some client |}.

(** A world whose completion API answers an interpreting request with
    [reply] and fails a formatting request with [err]; the two are told
    apart by the system prompt. *)
Definition formatting_fails (reply : string) (err : Error)
    (report : outcome Ga4Api.Response) : World :=
  {| new_Groq := Demo.groq_sdk;
     new_GoogleGenAI := Demo.gemini_sdk;
     groq_create := fun _ request =>
       match GroqApi.messages request with
       | system :: _ =>
           if String.eqb (GroqApi.content system) FORMAT_SYSTEM_PROMPT then Throw err
           else Ret {| GroqApi.choices := [Some (Some reply)] |}
       | [] => Throw err
       end;
     gemini_generate := fun _ request =>
       if String.eqb (GeminiApi.systemInstruction (GeminiApi.config request))
            FORMAT_SYSTEM_PROMPT
       then Throw err
       else Ret {| GeminiApi.response_text := Some reply |};
     runReport := fun _ _ => report;
     JSON_parse := Demo.parse;
     JSON_stringify := Demo.stringify |}.

(** The interpreter's result is an object that is neither an Error nor a
    Text: what the chat handler runs as a query. *)
Definition query_shaped (r : value) : Prop :=
  exists o, r = VObj o
            /\ truthy (field r "error") = false
            /\ Index.is_string (field r "type") "text" = false.

(** * Lemmas and theorems *)

(** ** The effect monad *)

Ltac step_run :=
  unfold try_catch, call, bind, emit, lift, throw, ret, get, put; simpl.

Section MonadLaws.
Context {S E A B C : Type}.

Lemma bind_ret_l (a : A) (k : A -> M S E B) s : bind (ret a) k s = k a s.
Proof. step_run. by destruct (k a s) as [[s2 t2] r]. Qed.

Lemma bind_ret_r (c : M S E A) s : bind c ret s = c s.
Proof. step_run. destruct (c s) as [[s1 t1] [a|e]]; by rewrite ?app_nil_r. Qed.

Lemma bind_assoc (c : M S E A) (k : A -> M S E B) (h : B -> M S E C) s :
  bind (bind c k) h s = bind c (fun a => bind (k a) h) s.
Proof.
  step_run. destruct (c s) as [[s1 t1] [a|e]]; [|done].
  destruct (k a s1) as [[s2 t2] [b|e]]; [|done].
  destruct (h b s2) as [[s3 t3] r]. by rewrite app_assoc.
Qed.

(** A handler is not run when nothing is thrown, and what was logged
    before a throw stays logged. *)
Lemma try_catch_ret (a : A) (h : Error -> M S E A) s : try_catch (ret a) h s = ret a s.
Proof. done. Qed.

Lemma try_catch_throw (e : Error) (h : Error -> M S E A) s :
  try_catch (throw e) h s = h e s.
Proof. step_run. by destruct (h e s) as [[s2 t2] r]. Qed.
End MonadLaws.

(** ** How the interpreter runs *)

Lemma read_reply_run w text g :
  read_reply w text g = (g, [], Ret (reply_value w text)).
Proof.
  unfold read_reply, reply_value. step_run.
  destruct (match_braces text) as [m|]; [|done].
  by destruct (JSON_parse w m).
Qed.

(** A provider module takes the client of its module variable, or builds
    one and keeps it; when the constructor throws, nothing is kept. *)
Lemma groq_getClient_run w env g :
  match groq_client_for w env g with
  | Ret client =>
      exists g', Groq.getClient w env g = (g', [], Ret client)
                 /\ groq_client g' = Some client
  | Throw err => Groq.getClient w env g = (g, [], Throw err)
  end.
Proof.
  unfold Groq.getClient, groq_client_for. step_run.
  destruct (groq_client g) eqn:Hg; simpl; [eauto|].
  destruct (new_Groq w (env !! "GROQ_API_KEY")); simpl; eauto.
Qed.

Lemma gemini_getClient_run w env g :
  match gemini_client_for w env g with
  | Ret client =>
      exists g', Gemini.getClient w env g = (g', [], Ret client)
                 /\ gemini_client g' = Some client
  | Throw err => Gemini.getClient w env g = (g, [], Throw err)
  end.
Proof.
  unfold Gemini.getClient, gemini_client_for. step_run.
  destruct (gemini_client g) eqn:Hg; simpl; [eauto|].
  destruct (new_GoogleGenAI w (env !! "GEMINI_API_KEY")); simpl; eauto.
Qed.

(** With a client, one call goes out and the answer decides the result;
    without one, what the constructor threw leaves [processQuery], which
    has called nothing. *)
Lemma groq_processQuery_run w env message history isFormatting g :
  let request := Groq.build_request env message history isFormatting in
  match groq_client_for w env g with
  | Ret client =>
      exists g',
        groq_client g' = Some client
        /\ Groq.processQuery w env message history isFormatting g =
           (g', [GroqCreate request],
            Ret match groq_create w client request with
                | Ret response =>
                    if isFormatting then text_result (Groq.reply_text response)
                    else reply_value w (Groq.reply_text response)
                | Throw err =>
                    error_result
                      (if includes (message_of err) "API" || includes (message_of err) "key"
                       then "Groq API key not configured. Please set GROQ_API_KEY in .env"
                       else "AI processing failed: " +:+ message_of err)
                end)
  | Throw err =>
      Groq.processQuery w env message history isFormatting g = (g, [], Throw err)
  end.
Proof.
  intros request.
  pose proof (groq_getClient_run w env g) as Hc.
  destruct (groq_client_for w env g) as [client|err].
  - destruct Hc as (g' & Hc & Hg'). exists g'. split; [done|].
    unfold Groq.processQuery, bind at 1. rewrite Hc.
    fold request.
    step_run.
    destruct (groq_create w client request) as [response|err]; simpl.
    + destruct isFormatting; [done|]. by rewrite read_reply_run.
    + by destruct (includes (message_of err) "API" || includes (message_of err) "key").
  - unfold Groq.processQuery, bind at 1. by rewrite Hc.
Qed.

Lemma gemini_processQuery_run w env message history isFormatting g :
  let request := Gemini.build_request env message history isFormatting in
  match gemini_client_for w env g with
  | Ret client =>
      exists g',
        gemini_client g' = Some client
        /\ Gemini.processQuery w env message history isFormatting g =
           (g', [GeminiGenerate request],
            Ret match gemini_generate w client request with
                | Ret response =>
                    if isFormatting then text_result (Gemini.reply_text response)
                    else reply_value w (Gemini.reply_text response)
                | Throw err =>
                    error_result
                      (if includes (message_of err) "API_KEY"
                          || includes (message_of err) "api key"
                       then "Gemini API key not configured. Please set GEMINI_API_KEY in .env"
                       else "AI processing failed: " +:+ message_of err)
                end)
  | Throw err =>
      Gemini.processQuery w env message history isFormatting g = (g, [], Throw err)
  end.
Proof.
  intros request.
  pose proof (gemini_getClient_run w env g) as Hc.
  destruct (gemini_client_for w env g) as [client|err].
  - destruct Hc as (g' & Hc & Hg'). exists g'. split; [done|].
    unfold Gemini.processQuery, bind at 1. rewrite Hc.
    fold request.
    step_run.
    destruct (gemini_generate w client request) as [response|err]; simpl.
    + destruct isFormatting; [done|]. by rewrite read_reply_run.
    + by destruct (includes (message_of err) "API_KEY" || includes (message_of err) "api key").
  - unfold Gemini.processQuery, bind at 1. by rewrite Hc.
Qed.

(** In interpreting mode a reply is read by the inner try block. *)
Lemma processQuery_replied w env g message history text :
  model_replies w env g message history false text ->
  result (Ai.processQuery w env message history false g) = Ret (reply_value w text).
Proof.
  unfold model_replies, Ai.processQuery.
  destruct (Ai.select env); intros (client & response & Hc & Hr & <-).
  - pose proof (groq_processQuery_run w env message history false g) as Hrun.
    rewrite Hc in Hrun. destruct Hrun as (g' & _ & ->).
    simpl in *. by rewrite Hr.
  - pose proof (gemini_processQuery_run w env message history false g) as Hrun.
    rewrite Hc in Hrun. destruct Hrun as (g' & _ & ->).
    simpl in *. by rewrite Hr.
Qed.

Lemma processQuery_failed w env g message history isFormatting err :
  model_fails w env g message history isFormatting err ->
  result (Ai.processQuery w env message history isFormatting g)
  = Ret (error_result (if looks_like_key_problem env err then key_message env
                       else "AI processing failed: " +:+ message_of err)).
Proof.
  unfold model_fails, Ai.processQuery, looks_like_key_problem, key_message.
  destruct (Ai.select env); intros (client & Hc & Hf).
  - pose proof (groq_processQuery_run w env message history isFormatting g) as Hrun.
    rewrite Hc in Hrun. destruct Hrun as (g' & _ & ->).
    simpl in *. by rewrite Hf.
  - pose proof (gemini_processQuery_run w env message history isFormatting g) as Hrun.
    rewrite Hc in Hrun. destruct Hrun as (g' & _ & ->).
    simpl in *. by rewrite Hf.
Qed.

(** ** Braces *)

Lemma app_cons c s t : String c s +:+ t = String c (s +:+ t).
Proof. reflexivity. Qed.

Lemma app_nil_l_string s : EmptyString +:+ s = s.
Proof. reflexivity. Qed.

Lemma app_assoc_string s t u : (s +:+ t) +:+ u = s +:+ (t +:+ u).
Proof. induction s as [|c s IH]; [done|]. by rewrite !app_cons, IH. Qed.

Lemma brace_depth_plain d s t : plain s = true -> brace_depth d (s +:+ t) = brace_depth d t.
Proof.
  induction s as [|c s IH]; [done|]. rewrite app_cons. simpl.
  intros [[Ho Hc]%andb_prop Hp]%andb_prop.
  apply negb_true_iff in Ho, Hc. rewrite Ho, Hc. auto.
Qed.

Lemma plain_block_balanced mid :
  plain mid = true ->
  balanced_block (String open_brace (mid +:+ String close_brace EmptyString)).
Proof.
  intros Hp. exists mid. split; [done|].
  unfold balanced. simpl. by rewrite brace_depth_plain.
Qed.

Lemma after_first_open_lacks s rest :
  after_first_open s = Some rest ->
  exists pre, s = pre +:+ String open_brace rest /\ lacks open_brace pre = true.
Proof.
  revert rest. induction s as [|c s IH]; intros rest; simpl; [done|].
  destruct (Ascii.eqb c open_brace) eqn:E.
  - intros [= ->]. apply Ascii.eqb_eq in E as ->. by exists EmptyString.
  - intros (pre & -> & Hpre)%IH. exists (String c pre). split; [done|].
    simpl. by rewrite E.
Qed.

Lemma upto_last_close_lacks s :
  upto_last_close s = None -> lacks close_brace s = true.
Proof.
  induction s as [|c s IH]; simpl; [done|].
  destruct (upto_last_close s); [done|].
  destruct (Ascii.eqb c close_brace); [done|]. auto.
Qed.

Lemma upto_last_close_split s r :
  upto_last_close s = Some r ->
  exists mid post,
    r = mid +:+ String close_brace EmptyString
    /\ s = r +:+ post
    /\ lacks close_brace post = true.
Proof.
  revert r. induction s as [|c s IH]; intros r; simpl; [done|].
  destruct (upto_last_close s) as [r'|] eqn:Hs.
  - intros [= <-]. destruct (IH r' eq_refl) as (mid & post & -> & Heq & Hpost).
    exists (String c mid), post. by rewrite !app_cons, <- Heq.
  - destruct (Ascii.eqb c close_brace) eqn:E; [|done].
    intros [= <-]. apply Ascii.eqb_eq in E as ->.
    exists EmptyString, s. auto using upto_last_close_lacks.
Qed.

(** The match runs from the first opening brace of the text to its last
    closing brace. *)
Lemma match_braces_extent text jsonMatch :
  match_braces text = Some jsonMatch ->
  exists pre mid post,
    text = pre +:+ jsonMatch +:+ post
    /\ jsonMatch = String open_brace (mid +:+ String close_brace EmptyString)
    /\ lacks open_brace pre = true
    /\ lacks close_brace post = true.
Proof.
  unfold match_braces.
  destruct (after_first_open text) as [rest|] eqn:Hopen; [|done].
  destruct (upto_last_close rest) as [r|] eqn:Hclose; [|done].
  intros [= <-].
  apply after_first_open_lacks in Hopen as (pre & -> & Hpre).
  apply upto_last_close_split in Hclose as (mid & post & -> & -> & Hpost).
  exists pre, mid, post. by rewrite !app_cons.
Qed.

Lemma plain_snoc acc c :
  plain acc = true -> Ascii.eqb c open_brace = false -> Ascii.eqb c close_brace = false ->
  plain (acc +:+ String c EmptyString) = true.
Proof.
  intros Hp Ho Hc. induction acc as [|x acc IH]; simpl in *.
  - by rewrite Ho, Hc.
  - apply andb_prop in Hp as [-> Hp]. simpl. auto.
Qed.

Lemma upto_last_close_tail c t :
  Ascii.eqb c close_brace = false ->
  is_Some (upto_last_close (String c t)) -> is_Some (upto_last_close t).
Proof.
  simpl. intros ->. destruct (upto_last_close t); [eauto|]. by intros [? ?].
Qed.

(** Where a closing brace follows an opening one, some opening brace is
    followed by a brace-free stretch and a closing brace. *)
Lemma innermost_block s :
  is_Some (upto_last_close s) ->
  forall pre acc, plain acc = true ->
    exists p mid post,
      pre +:+ String open_brace (acc +:+ s)
      = p +:+ String open_brace (mid +:+ String close_brace post)
      /\ plain mid = true.
Proof.
  induction s as [|c t IH]; intros Hs pre acc Hacc.
  { by destruct Hs. }
  destruct (Ascii.eqb c close_brace) eqn:Hc.
  { apply Ascii.eqb_eq in Hc as ->. by exists pre, acc, t. }
  apply upto_last_close_tail in Hs; [|done].
  destruct (Ascii.eqb c open_brace) eqn:Ho.
  - apply Ascii.eqb_eq in Ho as ->.
    destruct (IH Hs (pre +:+ String open_brace acc) EmptyString eq_refl)
      as (p & mid & post & Heq & Hmid).
    exists p, mid, post. split; [|done].
    rewrite <- Heq. by rewrite app_assoc_string, app_cons.
  - destruct (IH Hs pre (acc +:+ String c EmptyString)) as (p & mid & post & Heq & Hmid).
    { by apply plain_snoc. }
    exists p, mid, post. split; [|done].
    rewrite <- Heq. by rewrite app_assoc_string.
Qed.

Lemma match_braces_block text m :
  match_braces text = Some m -> has_balanced_block text.
Proof.
  unfold match_braces.
  destruct (after_first_open text) as [rest|] eqn:Hopen; [|done].
  destruct (upto_last_close rest) as [r|] eqn:Hclose; [|done]. intros _.
  apply after_first_open_lacks in Hopen as (pre & -> & _).
  destruct (innermost_block rest (mk_is_Some _ _ Hclose) pre EmptyString eq_refl)
    as (p & mid & post & Heq & Hmid).
  exists p, (String open_brace (mid +:+ String close_brace EmptyString)), post.
  split; [|by apply plain_block_balanced].
  change (EmptyString +:+ rest) with rest in Heq. rewrite Heq.
  by rewrite app_cons, app_assoc_string.
Qed.

Lemma after_first_open_app pre x :
  exists q, after_first_open (pre +:+ String open_brace x) = Some (q +:+ x).
Proof.
  induction pre as [|c pre [q IH]].
  - exists EmptyString. rewrite !app_nil_l_string. simpl. by rewrite ?Ascii.eqb_refl.
  - rewrite app_cons. simpl. destruct (Ascii.eqb c open_brace).
    + exists (pre +:+ String open_brace EmptyString). by rewrite app_assoc_string.
    + eauto.
Qed.

Lemma upto_last_close_app a b :
  is_Some (upto_last_close (a +:+ String close_brace b)).
Proof.
  induction a as [|c a [r IH]].
  - rewrite app_nil_l_string. simpl.
    destruct (upto_last_close b); [eauto|]. rewrite ?Ascii.eqb_refl. eauto.
  - rewrite app_cons. simpl. rewrite IH. eauto.
Qed.

Lemma block_match_braces text :
  has_balanced_block text -> is_Some (match_braces text).
Proof.
  intros (pre & b & post & -> & mid & -> & _).
  unfold match_braces.
  destruct (after_first_open_app pre ((mid +:+ String close_brace EmptyString) +:+ post))
    as [q Hq].
  rewrite app_cons, Hq.
  replace (q +:+ (mid +:+ String close_brace EmptyString) +:+ post)
    with ((q +:+ mid) +:+ String close_brace post)
    by (by rewrite !app_assoc_string).
  destruct (upto_last_close_app (q +:+ mid) post) as [r ->]. eauto.
Qed.

(** The regular expression finds a match exactly in the texts that hold a
    balanced block. *)
Lemma match_braces_None text :
  match_braces text = None <-> ~ has_balanced_block text.
Proof.
  split.
  - intros Hn [m Hm]%block_match_braces. congruence.
  - intros Hn. destruct (match_braces text) eqn:Hm; [|done].
    destruct Hn. eauto using match_braces_block.
Qed.

(** ** The interpreter *)

(** C2, as the code has it.  When the completion API fails the call,
    [processQuery] does not throw: it returns an object whose only property
    is [error], a string that is not empty.  That string is the fixed
    API-key message of the selected provider when the failure text contains
    API or key (Groq), API_KEY or api key (Gemini); for every other failure
    it is the words AI processing failed followed by the provider's own
    failure text.  A failure of the call presupposes a client: what the
    SDK's constructor throws is not caught. *)
Theorem completion_failure_is_returned w env g message history isFormatting err :
  model_fails w env g message history isFormatting err ->
  exists msg,
    result (Ai.processQuery w env message history isFormatting g)
    = Ret (VObj (list_to_map [("error", VStr msg)]))
    /\ msg = (if looks_like_key_problem env err then key_message env
              else "AI processing failed: " +:+ message_of err)
    /\ msg <> EmptyString.
Proof.
  intros Hf. eexists. split; [by apply processQuery_failed|]. split; [done|].
  destruct (looks_like_key_problem env err); [|done].
  unfold key_message. by destruct (Ai.select env).
Qed.

Lemma completion_failure_is_returned_witness :
  let w := Demo.world (Throw (mkError "401 Invalid API key")) Demo.no_report in
  let env := Demo.env_with "groq" in
  exists msg,
    result (Ai.processQuery w env "How many users last week?" [] false fresh)
    = Ret (VObj (list_to_map [("error", VStr msg)]))
    /\ msg = "Groq API key not configured. Please set GROQ_API_KEY in .env"
    /\ msg <> EmptyString.
Proof.
  intros w env.
  apply (completion_failure_is_returned w env fresh "How many users last week?" []
           false (mkError "401 Invalid API key")).
  exists {| GroqApi.apiKey := Some "gsk-demo" |}. split; reflexivity.
Defined.

(** C2 as stated fails: a refused connection is neither an API nor a key
    matter, and the returned message carries the provider's failure text
    word for word. *)
Lemma completion_failure_text_leaks :
  let raw := "connect ECONNREFUSED 10.0.0.7:443" in
  let w := Demo.world (Throw (mkError raw)) Demo.no_report in
  result (Ai.processQuery w (Demo.env_with "groq") "How many users last week?" []
            false fresh)
  = Ret (VObj (list_to_map
                 [("error",
                   VStr "AI processing failed: connect ECONNREFUSED 10.0.0.7:443")]))
  /\ includes "AI processing failed: connect ECONNREFUSED 10.0.0.7:443" raw = true.
Proof. split; vm_compute; reflexivity. Qed.

(** C4.  When the model's reply holds no balanced block of braces,
    [processQuery] in interpreting mode returns the Text shape: the object
    whose properties are [type], the string text, and [content], the whole
    reply as it came. *)
Theorem reply_without_block_is_text w env g message history text :
  model_replies w env g message history false text ->
  ~ has_balanced_block text ->
  result (Ai.processQuery w env message history false g)
  = Ret (VObj (list_to_map [("type", VStr "text"); ("content", VStr text)])).
Proof.
  intros Hr Hn%match_braces_None.
  rewrite (processQuery_replied _ _ _ _ _ _ Hr).
  unfold reply_value. by rewrite Hn.
Qed.

Lemma reply_without_block_is_text_witness :
  let text := "I can only answer questions about this site's analytics } {" in
  let w := Demo.world (Ret text) Demo.no_report in
  result (Ai.processQuery w (Demo.env_with "gemini") "What is the weather?" [] false fresh)
  = Ret (VObj (list_to_map [("type", VStr "text"); ("content", VStr text)])).
Proof.
  intros text w.
  apply (reply_without_block_is_text w (Demo.env_with "gemini") fresh
           "What is the weather?" [] text).
  - exists {| GeminiApi.apiKey := Some "gm-demo" |},
           {| GeminiApi.response_text := Some text |}.
    split; [reflexivity|]. split; reflexivity.
  - apply match_braces_None. vm_compute. reflexivity.
Defined.

(** C5.  When the braces of the reply enclose something that JSON.parse
    rejects, [processQuery] in interpreting mode does not throw: it returns
    the Text shape, the object whose properties are [type], the string
    text, and [content], the whole reply as it came. *)
Theorem invalid_json_is_text w env g message history text jsonMatch parseErr :
  model_replies w env g message history false text ->
  match_braces text = Some jsonMatch ->
  JSON_parse w jsonMatch = Throw parseErr ->
  result (Ai.processQuery w env message history false g)
  = Ret (VObj (list_to_map [("type", VStr "text"); ("content", VStr text)])).
Proof.
  intros Hr Hm Hp.
  rewrite (processQuery_replied _ _ _ _ _ _ Hr).
  unfold reply_value. by rewrite Hm, Hp.
Qed.

Lemma invalid_json_is_text_witness :
  let text := "Here you go: {type: ga4_query, metrics: [sessions]} - enjoy {}" in
  let w := Demo.world (Ret text) Demo.no_report in
  result (Ai.processQuery w (Demo.env_with "groq") "Sessions last week" [] false fresh)
  = Ret (VObj (list_to_map [("type", VStr "text"); ("content", VStr text)])).
Proof.
  intros text w.
  apply (invalid_json_is_text w (Demo.env_with "groq") fresh "Sessions last week" []
           text "{type: ga4_query, metrics: [sessions]} - enjoy {}"
           (mkError "Unexpected token in JSON")).
  - exists {| GroqApi.apiKey := Some "gsk-demo" |},
           {| GroqApi.choices := [Some (Some text)] |}.
    split; [reflexivity|]. split; reflexivity.
  - vm_compute. reflexivity.
  - vm_compute. reflexivity.
Defined.

(** ** The history window *)

Lemma foldl_push {A B} (f : A -> B) (l : list A) (init : list B) :
  foldl (fun acc x => acc ++ [f x]) init l = init ++ map f l.
Proof.
  revert init. induction l as [|x l IH]; intros init; simpl.
  - by rewrite app_nil_r.
  - by rewrite IH, <- app_assoc.
Qed.

Lemma slice_last_split {A} (n : nat) (l : list A) :
  l = take (length l - n) l ++ slice_last n l
  /\ length (slice_last n l) = min n (length l).
Proof.
  unfold slice_last. split.
  - by rewrite take_drop.
  - rewrite length_drop. lia.
Qed.

Lemma groq_messages message history isFormatting :
  Groq.build_messages message history isFormatting
  = {| GroqApi.role := "system";
       GroqApi.content := if isFormatting then FORMAT_SYSTEM_PROMPT else SYSTEM_PROMPT |}
    :: map groq_turn (slice_last 8 history)
    ++ [ {| GroqApi.role := "user"; GroqApi.content := message |} ].
Proof.
  unfold Groq.build_messages.
  by rewrite (foldl_push groq_turn).
Qed.

Lemma gemini_contents message history :
  Gemini.build_contents message history
  = map gemini_turn (slice_last 8 history)
    ++ [ {| GeminiApi.role := "user";
            GeminiApi.parts := [ {| GeminiApi.text := message |} ] |} ].
Proof.
  unfold Gemini.build_contents.
  by rewrite (foldl_push gemini_turn).
Qed.

(** C7.  Whatever the history, [processQuery] makes one call to the
    completion API, and the turns of that call are: the entries of the
    history from the eighth-last on (all of them when there are eight or
    fewer), in their order, and then the new message as a user turn.  Groq
    is sent the system prompt as a first message; Gemini is sent it in the
    request's config.  The one case without that call is a module that has
    no client and whose SDK refuses to build one: then what the constructor
    threw leaves [processQuery] and nothing is forwarded at all. *)
Theorem history_window w env message history isFormatting g :
  exists older recent,
    history = older ++ recent
    /\ length recent = min 8 (length history)
    /\ match client_failure w env g with
       | Some err =>
           Ai.processQuery w env message history isFormatting g = (g, [], Throw err)
       | None =>
           match Ai.select env with
           | Ai.groq =>
               exists request system,
                 calls (Ai.processQuery w env message history isFormatting g)
                 = [GroqCreate request]
                 /\ GroqApi.messages request
                    = system :: map groq_turn recent
                      ++ [ {| GroqApi.role := "user"; GroqApi.content := message |} ]
                 /\ GroqApi.role system = "system"
           | Ai.gemini =>
               exists request,
                 calls (Ai.processQuery w env message history isFormatting g)
                 = [GeminiGenerate request]
                 /\ GeminiApi.contents request
                    = map gemini_turn recent
                      ++ [ {| GeminiApi.role := "user";
                              GeminiApi.parts := [ {| GeminiApi.text := message |} ] |} ]
           end
       end.
Proof.
  destruct (slice_last_split 8 history) as [Hsplit Hlen].
  exists (take (length history - 8) history), (slice_last 8 history).
  split; [done|]. split; [done|].
  unfold client_failure, Ai.processQuery. destruct (Ai.select env).
  - pose proof (groq_processQuery_run w env message history isFormatting g) as Hrun.
    destruct (groq_client_for w env g); [|done].
    destruct Hrun as (g' & _ & ->).
    eexists _, _. split; [reflexivity|]. split; [apply groq_messages|reflexivity].
  - pose proof (gemini_processQuery_run w env message history isFormatting g) as Hrun.
    destruct (gemini_client_for w env g); [|done].
    destruct Hrun as (g' & _ & ->).
    eexists. split; [reflexivity|]. apply gemini_contents.
Qed.

(** Of ten messages, the first two stay behind. *)
Example history_of_ten :
  let turn (n : string) := {| Chat.role := "user"; Chat.content := n |} in
  let history := map turn ["1"; "2"; "3"; "4"; "5"; "6"; "7"; "8"; "9"; "10"] in
  map GroqApi.content (Groq.build_messages "now" history false)
  = [SYSTEM_PROMPT; "3"; "4"; "5"; "6"; "7"; "8"; "9"; "10"; "now"].
Proof. reflexivity. Qed.

(** ** The executor *)

Lemma queryGA4_run getClient w env params g g1 t1 client propertyId :
  getClient g = (g1, t1, Ret client) ->
  env !! "GA4_PROPERTY_ID" = Some propertyId ->
  propertyId <> EmptyString ->
  let request := Ga4.build_request propertyId params in
  Ga4.queryGA4 getClient w env params g
  = (g1, t1 ++ [RunReport request],
     match runReport w client request with
     | Ret response => Ret (Ga4.normalize propertyId params response)
     | Throw err => Throw (Ga4.classify propertyId err)
     end).
Proof.
  intros Hc Hp Hne request.
  unfold Ga4.queryGA4, bind at 1. rewrite Hc, Hp.
  destruct propertyId as [|c p]; [done|].
  fold request. step_run.
  by destruct (runReport w client request).
Qed.

(** What a run of assigning callbacks leaves under a key. *)
Lemma set_property_proto v (obj : gmap string value) :
  set_property "__proto__" v obj = obj.
Proof. reflexivity. Qed.

Lemma set_property_insert k v (obj : gmap string value) :
  k <> "__proto__" -> set_property k v obj = <[k := v]> obj.
Proof.
  intros Hk. unfold set_property.
  destruct (String.eqb k "__proto__") eqn:Heq; [|done].
  by apply String.eqb_eq in Heq.
Qed.

Lemma set_property_other k k' v (obj : gmap string value) :
  k' <> k -> set_property k' v obj !! k = obj !! k.
Proof.
  intros Hk. unfold set_property.
  destruct (String.eqb k' "__proto__"); [done|]. by rewrite lookup_insert_ne.
Qed.

Section ForEachAssign.
Context (f : nat -> value).

Let write (acc : gmap string value) (k : string) (i : nat) := set_property k (f i) acc.

Lemma forEach_assign_other (names : list string) i0 acc k :
  k ∉ names -> forEach_from write i0 names acc !! k = acc !! k.
Proof.
  revert i0 acc. induction names as [|x names IH]; intros i0 acc Hk; [done|].
  apply not_elem_of_cons in Hk as [Hx Hk]. simpl.
  rewrite IH by done. unfold write. by apply set_property_other.
Qed.


(** The last write under a key stands. *)
Lemma forEach_assign_last (names : list string) i0 acc i k :
  k <> "__proto__" ->
  names !! i = Some k ->
  (forall j, i < j -> names !! j <> Some k) ->
  forEach_from write i0 names acc !! k = Some (f (i0 + i)).
Proof.
  intros Hproto.
  revert i0 acc i. induction names as [|x names IH]; intros i0 acc i Hi Hlast; [done|].
  destruct i as [|i]; simpl in *.
  - simplify_eq. rewrite forEach_assign_other.
    + unfold write. rewrite set_property_insert by done.
      rewrite lookup_insert_eq. do 2 f_equal. lia.
    + intros [j Hj]%list_elem_of_lookup. by apply (Hlast (S j)); [lia|].
  - rewrite (IH _ _ i Hi).
    + do 2 f_equal. lia.
    + intros j Hj. apply (Hlast (S j)). lia.
Qed.

Lemma forEach_assign_dom (names : list string) i0 acc :
  dom (forEach_from write i0 names acc)
  = dom acc ∪ (list_to_set names ∖ {["__proto__"]}).
Proof.
  revert i0 acc. induction names as [|x names IH]; intros i0 acc; simpl.
  - set_solver.
  - rewrite IH. unfold write, set_property.
    destruct (String.eqb x "__proto__") eqn:Heq.
    + apply String.eqb_eq in Heq as ->. set_solver.
    + assert (x <> "__proto__") by (intros ->; by rewrite String.eqb_refl in Heq).
      rewrite dom_insert_L. set_solver.
Qed.
End ForEachAssign.

Lemma NoDup_last_at (names : list string) i k :
  NoDup names -> names !! i = Some k -> last_at names i k.
Proof.
  intros Hnd Hi. split; [done|]. intros j Hlt Hj.
  pose proof (NoDup_lookup _ _ _ _ Hnd Hi Hj). lia.
Qed.

Lemma metric_cell_stored values i :
  Ga4.metric_cell values i = stored_metric (Ga4.value_at values i).
Proof.
  unfold Ga4.metric_cell. by destruct (Ga4.value_at values i) as [[|c s]|].
Qed.


(** The metrics of a row or of the totals, key by key. *)
Lemma parse_metrics_last metrics values parsed i met :
  last_at metrics i met ->
  met <> "__proto__" ->
  Ga4.parse_metrics metrics values parsed !! met
  = Some (stored_metric (Ga4.value_at values i)).
Proof.
  intros [Hi Hlast] Hproto. unfold Ga4.parse_metrics, forEach.
  rewrite (forEach_assign_last (Ga4.metric_cell values) metrics 0 parsed i met) by done.
  by rewrite metric_cell_stored.
Qed.



Lemma parse_metrics_dom metrics values parsed :
  dom (Ga4.parse_metrics metrics values parsed)
  = dom parsed ∪ (list_to_set metrics ∖ {["__proto__"]}).
Proof.
  unfold Ga4.parse_metrics, forEach.
  by rewrite (forEach_assign_dom (Ga4.metric_cell values)).
Qed.

Lemma parse_row_dom dimensions metrics row :
  dom (Ga4.parse_row dimensions metrics row)
  = (list_to_set dimensions ∪ list_to_set metrics) ∖ {["__proto__"]}.
Proof.
  unfold Ga4.parse_row, forEach. rewrite parse_metrics_dom.
  rewrite (forEach_assign_dom (Ga4.dimension_cell (Ga4Api.dimensionValues row))).
  rewrite dom_empty_L. set_solver.
Qed.




Lemma metric_keys_size metrics (parsed : gmap string value) (others : gset string) :
  NoDup metrics ->
  "__proto__" ∉ metrics ->
  dom parsed = others ∪ (list_to_set metrics ∖ {["__proto__"]}) ->
  size (metric_keys metrics parsed) = length metrics.
Proof.
  intros Hnd Hproto Hdom. unfold metric_keys. rewrite Hdom.
  replace ((others ∪ (list_to_set metrics ∖ {["__proto__"]})) ∩ list_to_set metrics)
    with (list_to_set metrics : gset string) by set_solver.
  by apply size_list_to_set.
Qed.

(** C6.  [queryGA4] sends one report request, built from the parameters
    with every property that is not there replaced by its default: date for
    the dimensions, totalUsers and sessions for the metrics, 7daysAgo and
    yesterday for the date range, 100 for the limit, no filter, and, where
    no ordering is given or an empty list of them, one ordering: by the
    first of the metrics, descending, which is totalUsers when the metrics
    are not there either.  For the parameters with only the sessions metric
    set, the request is the one written out below. *)
Theorem defaults_are_filled getClient w env params g g1 t1 client propertyId :
  getClient g = (g1, t1, Ret client) ->
  env !! "GA4_PROPERTY_ID" = Some propertyId ->
  propertyId <> EmptyString ->
  let request := Ga4.build_request propertyId params in
  calls (Ga4.queryGA4 getClient w env params g) = t1 ++ [RunReport request]
  /\ Ga4Api.dateRanges request
     = [ {| Ga4Api.startDate := default "7daysAgo" (Ga4.startDate params);
            Ga4Api.endDate := default "yesterday" (Ga4.endDate params) |} ]
  /\ Ga4Api.dimensions request
     = map Ga4Api.Build_Name (default ["date"] (Ga4.dimensions params))
  /\ Ga4Api.metrics request
     = map Ga4Api.Build_Name (default ["totalUsers"; "sessions"] (Ga4.metrics params))
  /\ Ga4Api.limit request = default (of_N 100) (Ga4.limit params)
  /\ (Ga4.dimensionFilter params = None -> Ga4Api.dimensionFilter request = None)
  /\ (default [] (Ga4.orderBys params) = [] ->
      Ga4Api.orderBys request
      = [ VObj (<["metric" :=
                    VObj {["metricName" :=
                             match default ["totalUsers"; "sessions"] (Ga4.metrics params)
                             with
                             | first :: _ => VStr first
                             | [] => VUndef
                             end]}]>
                  (<["desc" := VBool true]> ∅)) ])
  /\ (default [] (Ga4.orderBys params) = [] ->
      Ga4.metrics params = None ->
      Ga4Api.orderBys request
      = [ VObj (<["metric" := VObj {["metricName" := VStr "totalUsers"]}]>
                  (<["desc" := VBool true]> ∅)) ])
  /\ (params = sessions_only ->
      request
      = {| Ga4Api.property := "properties/" +:+ propertyId;
           Ga4Api.dateRanges :=
             [ {| Ga4Api.startDate := "7daysAgo"; Ga4Api.endDate := "yesterday" |} ];
           Ga4Api.dimensions := [ {| Ga4Api.name := "date" |} ];
           Ga4Api.metrics := [ {| Ga4Api.name := "sessions" |} ];
           Ga4Api.limit := of_N 100;
           Ga4Api.dimensionFilter := None;
           Ga4Api.orderBys :=
             [ VObj (<["metric" := VObj {["metricName" := VStr "sessions"]}]>
                       (<["desc" := VBool true]> ∅)) ] |}).
Proof.
  intros Hc Hp Hne request.
  rewrite (queryGA4_run _ w _ params _ _ _ _ _ Hc Hp Hne).
  repeat split; try done.
  - unfold request, Ga4.build_request. simpl. by intros ->.
  - unfold request, Ga4.build_request, Ga4.default_order, Ga4.metrics_of. simpl.
    destruct (Ga4.orderBys params) as [[|o os]|]; try done.
    + intros _. by destruct (default ["totalUsers"; "sessions"] (Ga4.metrics params)).
    + intros _. by destruct (default ["totalUsers"; "sessions"] (Ga4.metrics params)).
  - unfold request, Ga4.build_request, Ga4.default_order, Ga4.metrics_of. simpl.
    intros Ho ->. by destruct (Ga4.orderBys params) as [[|o os]|].
  - by intros ->.
Qed.

Lemma defaults_are_filled_witness :
  let env := Demo.env_with "gemini" in
  let w := Demo.world (Ret "") Demo.no_report in
  calls (Ga4.queryGA4 (Ga4.getClient env) w env sessions_only fresh)
  = [ RunReport
        {| Ga4Api.property := "properties/314159265";
           Ga4Api.dateRanges :=
             [ {| Ga4Api.startDate := "7daysAgo"; Ga4Api.endDate := "yesterday" |} ];
           Ga4Api.dimensions := [ {| Ga4Api.name := "date" |} ];
           Ga4Api.metrics := [ {| Ga4Api.name := "sessions" |} ];
           Ga4Api.limit := of_N 100;
           Ga4Api.dimensionFilter := None;
           Ga4Api.orderBys :=
             [ VObj (<["metric" := VObj {["metricName" := VStr "sessions"]}]>
                       (<["desc" := VBool true]> ∅)) ] |} ].
Proof.
  intros env w.
  destruct (defaults_are_filled (Ga4.getClient env) w env sessions_only fresh
              {| groq_client := None; gemini_client := None;
                 analyticsClient := Some (Ga4Api.KeyFile "/secrets/ga4-key.json") |}
              [] (Ga4Api.KeyFile "/secrets/ga4-key.json") "314159265")
    as (Hcalls & _ & _ & _ & _ & _ & _ & _ & Hrequest).
  - reflexivity.
  - reflexivity.
  - discriminate.
  - rewrite Hcalls, (Hrequest eq_refl). reflexivity.
Defined.

(** C1, as the code has it.  When the report fails with a message that
    contains permission in lower case, [queryGA4] fails with the message
    Permission denied. Check service account access in GA4.  The search is
    [includes], which tells cases apart. *)
Theorem permission_failure_is_classified
    getClient w env params g g1 t1 client propertyId err :
  getClient g = (g1, t1, Ret client) ->
  env !! "GA4_PROPERTY_ID" = Some propertyId ->
  propertyId <> EmptyString ->
  runReport w client (Ga4.build_request propertyId params) = Throw err ->
  includes (message err) "permission" = true ->
  result (Ga4.queryGA4 getClient w env params g)
  = Throw (mkError "Permission denied. Check service account access in GA4.").
Proof.
  intros Hc Hp Hne Hr Hi.
  rewrite (queryGA4_run _ w _ params _ _ _ _ _ Hc Hp Hne).
  unfold result. simpl. rewrite Hr. unfold Ga4.classify. by rewrite Hi.
Qed.

Lemma permission_failure_is_classified_witness :
  let env := Demo.env_with "gemini" in
  let raw := "7 PERMISSION_DENIED: User does not have sufficient permissions" in
  let w := Demo.world (Ret "") (Throw (mkError raw)) in
  result (Ga4.queryGA4 (Ga4.getClient env) w env sessions_only fresh)
  = Throw (mkError "Permission denied. Check service account access in GA4.").
Proof.
  intros env raw w.
  apply (permission_failure_is_classified (Ga4.getClient env) w env sessions_only fresh
           {| groq_client := None; gemini_client := None;
              analyticsClient := Some (Ga4Api.KeyFile "/secrets/ga4-key.json") |}
           [] (Ga4Api.KeyFile "/secrets/ga4-key.json") "314159265" (mkError raw)).
  - reflexivity.
  - reflexivity.
  - discriminate.
  - reflexivity.
  - vm_compute. reflexivity.
Defined.

(** C1 as stated fails: PERMISSION DENIED in capitals contains the word
    when case is ignored, and [queryGA4] throws the original error on. *)
Lemma permission_in_capitals_is_not_classified :
  let env := Demo.env_with "gemini" in
  let raw := "PERMISSION DENIED" in
  let w := Demo.world (Ret "") (Throw (mkError raw)) in
  includes (toLowerCase raw) "permission" = true
  /\ result (Ga4.queryGA4 (Ga4.getClient env) w env sessions_only fresh)
     = Throw (mkError "PERMISSION DENIED")
  /\ result (Ga4.queryGA4 (Ga4.getClient env) w env sessions_only fresh)
     <> Throw (mkError "Permission denied. Check service account access in GA4.").
Proof.
  intros env raw w.
  assert (result (Ga4.queryGA4 (Ga4.getClient env) w env sessions_only fresh)
          = Throw (mkError "PERMISSION DENIED")) as Hrun
    by (vm_compute; reflexivity).
  split; [vm_compute; reflexivity|]. split; [done|].
  rewrite Hrun. discriminate.
Qed.

(** C3, as the code has it.  Let the metric names of the query be pairwise
    different, [N] of them, and none of them __proto__.  Then every row of
    the result has exactly [N] metric keys, and under the name at index [i]
    stands what the row's metric value at index [i] reads as; the totals
    are paired in the same way with the first totals row.  The pairing goes
    by index alone. *)
Theorem metrics_zip_by_position
    getClient w env params g g1 t1 client propertyId response :
  getClient g = (g1, t1, Ret client) ->
  env !! "GA4_PROPERTY_ID" = Some propertyId ->
  propertyId <> EmptyString ->
  runReport w client (Ga4.build_request propertyId params) = Ret response ->
  NoDup (Ga4.metrics_of params) ->
  "__proto__" ∉ Ga4.metrics_of params ->
  exists res,
    result (Ga4.queryGA4 getClient w env params g) = Ret res
    /\ (forall k row,
          default [] (Ga4Api.rows response) !! k = Some row ->
          exists parsed,
            Ga4.Result.rows res !! k = Some parsed
            /\ size (metric_keys (Ga4.metrics_of params) parsed)
               = length (Ga4.metrics_of params)
            /\ forall i met v,
                 Ga4.metrics_of params !! i = Some met ->
                 Ga4Api.metricValues row !! i = Some v ->
                 parsed !! met = Some (stored_metric (Ga4Api.value v)))
    /\ (forall first others,
          Ga4Api.totals response = Some (first :: others) ->
          size (metric_keys (Ga4.metrics_of params) (Ga4.Result.totals res))
          = length (Ga4.metrics_of params)
          /\ forall i met v,
               Ga4.metrics_of params !! i = Some met ->
               Ga4Api.metricValues first !! i = Some v ->
               Ga4.Result.totals res !! met = Some (stored_metric (Ga4Api.value v))).
Proof.
  intros Hc Hp Hne Hr Hnd Hproto.
  assert (forall i met, Ga4.metrics_of params !! i = Some met -> met <> "__proto__")
    as Hnames.
  { intros i met Hi ->. apply Hproto. by apply list_elem_of_lookup_2 in Hi. }
  exists (Ga4.normalize propertyId params response). split.
  { rewrite (queryGA4_run _ w _ params _ _ _ _ _ Hc Hp Hne).
    unfold result. simpl. by rewrite Hr. }
  split.
  - intros k row Hrow. eexists. split.
    { simpl. rewrite list_lookup_fmap, Hrow. reflexivity. }
    split.
    { unfold Ga4.parse_row.
      by apply (metric_keys_size _ _ _ Hnd Hproto (parse_metrics_dom _ _ _)). }
    intros i met v Hi Hv. unfold Ga4.parse_row.
    rewrite (parse_metrics_last _ _ _ i) by eauto using NoDup_last_at.
    unfold Ga4.value_at. by rewrite Hv.
  - intros first others Ht. simpl. unfold Ga4.parse_totals. rewrite Ht.
    split; [by apply (metric_keys_size _ _ _ Hnd Hproto (parse_metrics_dom _ _ _))|].
    intros i met v Hi Hv.
    rewrite (parse_metrics_last _ _ _ i) by eauto using NoDup_last_at.
    unfold Ga4.value_at. by rewrite Hv.
Qed.

Lemma metrics_zip_by_position_witness :
  let env := Demo.env_with "gemini" in
  let row := {| Ga4Api.dimensionValues := [Demo.cell "20240101"];
                Ga4Api.metricValues := [Demo.cell "12"; Demo.cell "34.5"] |} in
  let response := {| Ga4Api.rows := Some [row];
                     Ga4Api.totals := Some [row];
                     Ga4Api.rowCount := Some (of_N 1) |} in
  let w := Demo.world (Ret "") (Ret response) in
  let params := {| Ga4.dimensions := None;
                   Ga4.metrics := Some ["sessions"; "bounceRate"];
                   Ga4.startDate := None; Ga4.endDate := None; Ga4.limit := None;
                   Ga4.dimensionFilter := None; Ga4.orderBys := None |} in
  exists res parsed,
    result (Ga4.queryGA4 (Ga4.getClient env) w env params fresh) = Ret res
    /\ Ga4.Result.rows res !! 0%nat = Some parsed
    /\ size (metric_keys ["sessions"; "bounceRate"] parsed) = 2
    /\ parsed !! "sessions" = Some (VNum (Fin false 12 0))
    /\ parsed !! "bounceRate" = Some (VNum (Fin false 345 (-1)))
    /\ Ga4.Result.totals res !! "bounceRate" = Some (VNum (Fin false 345 (-1))).
Proof.
  intros env row response w params.
  destruct (metrics_zip_by_position (Ga4.getClient env) w env params fresh
              {| groq_client := None; gemini_client := None;
                 analyticsClient := Some (Ga4Api.KeyFile "/secrets/ga4-key.json") |}
              [] (Ga4Api.KeyFile "/secrets/ga4-key.json") "314159265" response)
    as (res & Hres & Hrows & Htotals).
  - reflexivity.
  - reflexivity.
  - discriminate.
  - reflexivity.
  - change (NoDup ["sessions"; "bounceRate"]). compute_done.
  - change ("__proto__" ∉ ["sessions"; "bounceRate"]). compute_done.
  - destruct (Hrows 0%nat row eq_refl) as (parsed & Hparsed & Hsize & Hcells).
    destruct (Htotals row [] eq_refl) as [_ Htot].
    exists res, parsed. split; [done|]. split; [done|]. split; [exact Hsize|].
    split; [exact (Hcells 0%nat "sessions" (Demo.cell "12") eq_refl eq_refl)|].
    split; [exact (Hcells 1%nat "bounceRate" (Demo.cell "34.5") eq_refl eq_refl)|].
    exact (Htot 1%nat "bounceRate" (Demo.cell "34.5") eq_refl eq_refl).
Defined.

(** C3 as stated fails for a query that names a metric twice: the row has
    one metric key for two metrics, and under the name of the first metric
    stands the second value. *)
Lemma repeated_metric_overwrites :
  let env := Demo.env_with "gemini" in
  let row := {| Ga4Api.dimensionValues := [Demo.cell "20240101"];
                Ga4Api.metricValues := [Demo.cell "1"; Demo.cell "2"] |} in
  let response := {| Ga4Api.rows := Some [row];
                     Ga4Api.totals := None;
                     Ga4Api.rowCount := Some (of_N 1) |} in
  let w := Demo.world (Ret "") (Ret response) in
  let params := {| Ga4.dimensions := None;
                   Ga4.metrics := Some ["sessions"; "sessions"];
                   Ga4.startDate := None; Ga4.endDate := None; Ga4.limit := None;
                   Ga4.dimensionFilter := None; Ga4.orderBys := None |} in
  exists res parsed,
    result (Ga4.queryGA4 (Ga4.getClient env) w env params fresh) = Ret res
    /\ Ga4.Result.rows res = [parsed]
    /\ length (Ga4.metrics_of params) = 2
    /\ length (Ga4Api.metricValues row) = 2
    /\ size (metric_keys (Ga4.metrics_of params) parsed) = 1
    /\ Ga4.metrics_of params !! 0%nat = Some "sessions"
    /\ parsed !! "sessions" = Some (VNum (Fin false 2 0))
    /\ stored_metric (Some "1") = VNum (Fin false 1 0).
Proof.
  intros env row response w params.
  exists (Ga4.normalize "314159265" params response),
         (Ga4.parse_row ["date"] ["sessions"; "sessions"] row).
  repeat split; vm_compute; reflexivity.
Qed.



(** A metric called __proto__ leaves no trace in the row: the assignment
    under that name creates no key, and the other names are written as
    usual. *)
Example proto_metric_is_not_stored :
  let row := {| Ga4Api.dimensionValues := [Demo.cell "20240101"];
                Ga4Api.metricValues := [Demo.cell "7"; Demo.cell "8"] |} in
  Ga4.parse_row ["date"] ["__proto__"; "sessions"] row
  = {[ "date" := VStr "20240101"; "sessions" := VNum (of_N 8) ]}.
Proof. vm_compute. reflexivity. Qed.

(** ** The chat handler *)

Lemma Error_shaped_object r : Error_shaped r -> exists o, r = VObj o.
Proof. unfold Error_shaped. destruct r; try done. eauto. Qed.

Lemma Text_shaped_object r : Text_shaped r -> exists o, r = VObj o.
Proof. unfold Text_shaped. destruct r; try done. eauto. Qed.

Lemma text_result_shaped text : Text_shaped (text_result text).
Proof. reflexivity. Qed.

Lemma error_result_shaped msg : msg <> EmptyString -> Error_shaped (error_result msg).
Proof. by destruct msg. Qed.

(** The handler up to the interpreter's result. *)
Lemma chat_interpreted processQuery queryGA4 w env req_body message g g1 t1 o :
  Index.message req_body = VStr message ->
  message <> EmptyString ->
  String.length message <= 2000 ->
  processQuery message (default [] (Index.history req_body)) false g
  = (g1, t1, Ret (VObj o)) ->
  let history := default [] (Index.history req_body) in
  let r := VObj o in
  Index.chat processQuery queryGA4 w env req_body g
  = if truthy (field r "error") || Index.is_string (field r "type") "text" then
      (g1, CallProcessQuery message history false :: t1,
       Ret (Index.json 200 [("type", VStr "text"); ("content", short_content r)]))
    else
      match queryGA4 r g1 with
      | (g2, t2, Ret ga4Data) =>
          let prompt := Index.format_prompt w message r ga4Data in
          match processQuery prompt [] true g2 with
          | (g3, t3, Ret response) =>
              match Index.get_prop response "content" with
              | Ret content =>
                  (g3,
                   CallProcessQuery message history false :: t1
                   ++ CallQueryGA4 r :: t2 ++ CallProcessQuery prompt [] true :: t3,
                   Ret (Index.json 200
                          [("type", VStr "analytics");
                           ("content", if truthy content then content else response);
                           ("rawData", ga4Data);
                           ("query", r)]))
              | Throw err =>
                  (g3,
                   CallProcessQuery message history false :: t1
                   ++ CallQueryGA4 r :: t2 ++ CallProcessQuery prompt [] true :: t3,
                   Ret (Index.json 500
                          [("error", VStr "Failed to process your query. Please try again.");
                           ("details",
                            match env !! "NODE_ENV" with
                            | Some mode =>
                                if String.eqb mode "development"
                                then VStr (message_of err) else VUndef
                            | None => VUndef
                            end)]))
              end
          | (g3, t3, Throw err) =>
              (g3,
               CallProcessQuery message history false :: t1
               ++ CallQueryGA4 r :: t2 ++ CallProcessQuery prompt [] true :: t3,
               Ret (Index.json 500
                      [("error", VStr "Failed to process your query. Please try again.");
                       ("details",
                        match env !! "NODE_ENV" with
                        | Some mode =>
                            if String.eqb mode "development"
                            then VStr (message_of err) else VUndef
                        | None => VUndef
                        end)]))
          end
      | (g2, t2, Throw err) =>
          (g2, CallProcessQuery message history false :: t1 ++ CallQueryGA4 r :: t2,
           Ret (Index.json 500
                  [("error", VStr "Failed to process your query. Please try again.");
                   ("details",
                    match env !! "NODE_ENV" with
                    | Some mode =>
                        if String.eqb mode "development"
                        then VStr (message_of err) else VUndef
                    | None => VUndef
                    end)]))
      end.
Proof.
  intros Hm Hne Hlen Hpq history r.
  unfold Index.chat. rewrite Hm. destruct message as [|c m]; [done|].
  apply Nat.ltb_ge in Hlen. rewrite Hlen.
  fold history. fold history in Hpq.
  step_run. rewrite Hpq.
  unfold short_content. subst r. simpl.
  destruct (truthy (default VUndef (o !! "error"))); simpl.
  { by rewrite app_nil_r. }
  destruct (Index.is_string (default VUndef (o !! "type")) "text"); simpl.
  { by rewrite app_nil_r. }
  destruct (queryGA4 (VObj o) g1) as [[g2 t2] [ga4Data|err]]; simpl.
  - destruct (processQuery _ [] true g2) as [[g3 t3] [response|err]]; simpl.
    + destruct (Index.get_prop response "content") as [content|err]; simpl;
        by rewrite ?app_nil_r.
    + by rewrite ?app_nil_r.
  - by rewrite ?app_nil_r.
Qed.

(** A failure of the completion API reaches the handler in the Error
    shape. *)
Lemma failure_is_Error_shaped w env g message history err :
  model_fails w env g message history false err ->
  exists r,
    result (Ai.processQuery w env message history false g) = Ret r /\ Error_shaped r.
Proof.
  intros Hf. eexists. split; [by apply processQuery_failed|].
  apply error_result_shaped.
  destruct (looks_like_key_problem env err); [|done].
  unfold key_message. by destruct (Ai.select env).
Qed.

(** C8.  When the interpreter's result has the Error shape or the Text
    shape, the handler answers at once, with status 200, type text and as
    content the error or the text; apart from the one call to the interpreter
    and what that call itself did, the handler makes no call: neither
    [queryGA4] nor the formatting [processQuery] is invoked. *)
Theorem short_circuit processQuery queryGA4 w env req_body message g g1 t1 r :
  Index.message req_body = VStr message ->
  message <> EmptyString ->
  String.length message <= 2000 ->
  processQuery message (default [] (Index.history req_body)) false g = (g1, t1, Ret r) ->
  Error_shaped r \/ Text_shaped r ->
  Index.chat processQuery queryGA4 w env req_body g
  = (g1,
     CallProcessQuery message (default [] (Index.history req_body)) false :: t1,
     Ret (Index.json 200 [("type", VStr "text"); ("content", short_content r)])).
Proof.
  intros Hm Hne Hlen Hpq Hshape.
  assert (exists o, r = VObj o) as [o ->].
  { destruct Hshape; eauto using Error_shaped_object, Text_shaped_object. }
  rewrite (chat_interpreted _ queryGA4 w env _ _ _ _ _ _ Hm Hne Hlen Hpq).
  unfold Error_shaped, Text_shaped in Hshape.
  by destruct Hshape as [-> | ->]; rewrite ?orb_true_r.
Qed.

Lemma short_circuit_witness :
  let reply :=
    String.concat dquote
      ["{"; "type"; ": "; "text"; ", "; "content"; ": "; "I can't answer that"; "}"] in
  let env := Demo.env_with "groq" in
  let w := Demo.world (Ret reply) Demo.no_report in
  let req_body := {| Index.message := VStr "What's for lunch?"; Index.history := None |} in
  exists request,
    Index.chat (Ai.processQuery w env) (Demo.queryGA4 w env) w env req_body fresh
    = ({| groq_client := Some {| GroqApi.apiKey := Some "gsk-demo" |};
          gemini_client := None;
          analyticsClient := None |},
       [CallProcessQuery "What's for lunch?" [] false; GroqCreate request],
       Ret (Index.json 200
              [("type", VStr "text"); ("content", VStr "I can't answer that")])).
Proof.
  intros reply env w req_body.
  exists (Groq.build_request env "What's for lunch?" [] false).
  apply (short_circuit (Ai.processQuery w env) (Demo.queryGA4 w env) w env req_body
           "What's for lunch?" fresh
           {| groq_client := Some {| GroqApi.apiKey := Some "gsk-demo" |};
              gemini_client := None;
              analyticsClient := None |}
           [GroqCreate (Groq.build_request env "What's for lunch?" [] false)]
           (text_result "I can't answer that")).
  - reflexivity.
  - discriminate.
  - vm_compute. lia.
  - vm_compute. reflexivity.
  - right. apply text_result_shaped.
Defined.

Lemma lookup_type_not_text (o : gmap string value) :
  o !! "type" <> Some (VStr "text") ->
  Index.is_string (default VUndef (o !! "type")) "text" = false.
Proof.
  intros Hne. destruct (o !! "type") as [[]|]; try done. simpl.
  apply String.eqb_neq. congruence.
Qed.

(** C9.  When the braces of the reply enclose valid JSON, [processQuery] in
    interpreting mode returns the parsed value as it is: nothing is checked
    about its properties.  If that value is an object without an [error]
    property and without the type text, the handler goes on to call
    [queryGA4] with it. *)
Theorem parsed_reply_is_not_validated
    w env g message history text jsonMatch parsed queryGA4 req_body :
  model_replies w env g message history false text ->
  match_braces text = Some jsonMatch ->
  JSON_parse w jsonMatch = Ret parsed ->
  result (Ai.processQuery w env message history false g) = Ret parsed
  /\ forall o,
       parsed = VObj o ->
       o !! "error" = None ->
       o !! "type" <> Some (VStr "text") ->
       Index.message req_body = VStr message ->
       message <> EmptyString ->
       String.length message <= 2000 ->
       default [] (Index.history req_body) = history ->
       exists before after,
         calls (Index.chat (Ai.processQuery w env) queryGA4 w env req_body g)
         = before ++ CallQueryGA4 parsed :: after.
Proof.
  intros Hr Hm Hp.
  assert (result (Ai.processQuery w env message history false g) = Ret parsed) as Hres.
  { rewrite (processQuery_replied _ _ _ _ _ _ Hr). unfold reply_value. by rewrite Hm, Hp. }
  split; [done|].
  intros o -> Herr Hty Hmsg Hne Hlen Hhist.
  destruct (Ai.processQuery w env message history false g) as [[g1 t1] r] eqn:Hpq.
  unfold result in Hres. simpl in Hres. subst r. rewrite <- Hhist in Hpq.
  rewrite (chat_interpreted _ queryGA4 w env _ _ _ _ _ _ Hmsg Hne Hlen Hpq).
  simpl. rewrite Herr. simpl. rewrite (lookup_type_not_text _ Hty).
  exists (CallProcessQuery message (default [] (Index.history req_body)) false :: t1).
  destruct (queryGA4 (VObj o) g1) as [[g2 t2] [ga4Data|err]]; [|by eexists].
  destruct (Ai.processQuery w env _ [] true g2) as [[g3 t3] [response|err]]; [|by eexists].
  destruct (Index.get_prop response "content"); by eexists.
Qed.

Lemma parsed_reply_is_not_validated_witness :
  let reply := "Sure: {" +:+ dquote +:+ "foo" +:+ dquote +:+ ":1}" in
  let foo := VObj {["foo" := VNum (of_N 1)]} in
  let env := Demo.env_with "gemini" in
  let w := Demo.world (Ret reply)
             (Ret {| Ga4Api.rows := None; Ga4Api.totals := None;
                     Ga4Api.rowCount := None |}) in
  let req_body := {| Index.message := VStr "foo?"; Index.history := Some [] |} in
  result (Ai.processQuery w env "foo?" [] false fresh) = Ret foo
  /\ field foo "type" = VUndef
  /\ exists before after,
       calls (Index.chat (Ai.processQuery w env) (Demo.queryGA4 w env) w env req_body fresh)
       = before ++ CallQueryGA4 foo :: after.
Proof.
  intros reply foo env w req_body.
  destruct (parsed_reply_is_not_validated w env fresh "foo?" [] reply
              ("{" +:+ dquote +:+ "foo" +:+ dquote +:+ ":1}") foo
              (Demo.queryGA4 w env) req_body) as [Hres Hcalls].
  - exists {| GeminiApi.apiKey := Some "gm-demo" |},
           {| GeminiApi.response_text := Some reply |}.
    split; [reflexivity|]. split; reflexivity.
  - vm_compute. reflexivity.
  - vm_compute. reflexivity.
  - split; [exact Hres|]. split; [reflexivity|].
    apply (Hcalls {["foo" := VNum (of_N 1)]}).
    + reflexivity.
    + reflexivity.
    + discriminate.
    + reflexivity.
    + discriminate.
    + vm_compute. lia.
    + reflexivity.
Defined.

(** The object with the one property foo is run as a query: with every
    parameter at its default. *)
Example foo_is_run_as_a_query :
  let reply := "Sure: {" +:+ dquote +:+ "foo" +:+ dquote +:+ ":1}" in
  let foo := VObj {["foo" := VNum (of_N 1)]} in
  let env := Demo.env_with "gemini" in
  let report := {| Ga4Api.rows := None; Ga4Api.totals := None; Ga4Api.rowCount := None |} in
  let w := Demo.world (Ret reply) (Ret report) in
  let req_body := {| Index.message := VStr "foo?"; Index.history := Some [] |} in
  let defaults :=
    {| Ga4.dimensions := None; Ga4.metrics := None; Ga4.startDate := None;
       Ga4.endDate := None; Ga4.limit := None; Ga4.dimensionFilter := None;
       Ga4.orderBys := None |} in
  let prompt :=
    Index.format_prompt w "foo?" foo
      (Demo.value_of (Ga4.normalize "314159265" defaults report)) in
  calls (Index.chat (Ai.processQuery w env) (Demo.queryGA4 w env) w env req_body fresh)
  = [ CallProcessQuery "foo?" [] false;
      GeminiGenerate (Gemini.build_request env "foo?" [] false);
      CallQueryGA4 foo;
      RunReport (Ga4.build_request "314159265" defaults);
      CallProcessQuery prompt [] true;
      GeminiGenerate (Gemini.build_request env prompt [] true) ].
Proof. vm_compute. reflexivity. Qed.

(** * The rest of the code *)

(** ** The executor: configuration and failures *)

Lemma missing_property_id_aux getClient w env params g g1 t1 client :
  getClient g = (g1, t1, Ret client) ->
  default EmptyString (env !! "GA4_PROPERTY_ID") = EmptyString ->
  Ga4.queryGA4 getClient w env params g
  = (g1, t1, Throw (mkError "GA4_PROPERTY_ID environment variable not set")).
Proof.
  intros Hc Hp. unfold Ga4.queryGA4, bind at 1. rewrite Hc.
  destruct (env !! "GA4_PROPERTY_ID") as [[|c p]|]; simplify_eq/=;
    step_run; by rewrite app_nil_r.
Qed.

(** X1.  Without GA4_PROPERTY_ID (unset or empty) [queryGA4] throws the
    configuration error, once the client is there, and sends no report
    request. *)
Theorem missing_property_id getClient w env params g g1 t1 client :
  getClient g = (g1, t1, Ret client) ->
  default EmptyString (env !! "GA4_PROPERTY_ID") = EmptyString ->
  Ga4.queryGA4 getClient w env params g
  = (g1, t1, Throw (mkError "GA4_PROPERTY_ID environment variable not set")).
Proof. apply missing_property_id_aux. Qed.

Lemma missing_property_id_witness :
  let env := delete "GA4_PROPERTY_ID" (Demo.env_with "gemini") in
  let w := Demo.world (Ret "") (Ret empty_report) in
  Ga4.queryGA4 (Ga4.getClient env) w env sessions_only fresh
  = (with_analytics (Ga4Api.KeyFile "/secrets/ga4-key.json"), [],
     Throw (mkError "GA4_PROPERTY_ID environment variable not set")).
Proof.
  intros env w.
  apply (missing_property_id (Ga4.getClient env) w env sessions_only fresh
           (with_analytics (Ga4Api.KeyFile "/secrets/ga4-key.json")) []
           (Ga4Api.KeyFile "/secrets/ga4-key.json")).
  - reflexivity.
  - reflexivity.
Defined.

Lemma missing_credentials_aux w env params g :
  analyticsClient g = None ->
  default EmptyString (env !! "GOOGLE_APPLICATION_CREDENTIALS") = EmptyString ->
  Ga4.queryGA4 (Ga4.getClient env) w env params g
  = (g, [],
     Throw (mkError "GOOGLE_APPLICATION_CREDENTIALS environment variable not set")).
Proof.
  intros Hg Hp. unfold Ga4.queryGA4, Ga4.getClient. step_run. rewrite Hg.
  by destruct (env !! "GOOGLE_APPLICATION_CREDENTIALS") as [[|c p]|]; simplify_eq/=.
Qed.

(** X2.  In a process that has built no analytics client, and without
    GOOGLE_APPLICATION_CREDENTIALS (unset or empty), [queryGA4] of
    server/ga4.js throws the credentials error before it looks at anything
    else: no request is sent and no client is kept. *)
Theorem missing_credentials w env params g :
  analyticsClient g = None ->
  default EmptyString (env !! "GOOGLE_APPLICATION_CREDENTIALS") = EmptyString ->
  Ga4.queryGA4 (Ga4.getClient env) w env params g
  = (g, [],
     Throw (mkError "GOOGLE_APPLICATION_CREDENTIALS environment variable not set")).
Proof. apply missing_credentials_aux. Qed.

Lemma missing_credentials_witness :
  let env := delete "GOOGLE_APPLICATION_CREDENTIALS" (Demo.env_with "gemini") in
  let w := Demo.world (Ret "") (Ret empty_report) in
  Ga4.queryGA4 (Ga4.getClient env) w env sessions_only fresh
  = (fresh, [],
     Throw (mkError "GOOGLE_APPLICATION_CREDENTIALS environment variable not set")).
Proof.
  intros env w.
  apply (missing_credentials w env sessions_only fresh); reflexivity.
Defined.

(** X3.  When the report fails with a message that contains not found and
    does not contain permission, [queryGA4] fails with a message that names
    the property; the permission test comes first. *)
Theorem not_found_failure_names_the_property
    getClient w env params g g1 t1 client propertyId err :
  getClient g = (g1, t1, Ret client) ->
  env !! "GA4_PROPERTY_ID" = Some propertyId ->
  propertyId <> EmptyString ->
  runReport w client (Ga4.build_request propertyId params) = Throw err ->
  includes (message err) "permission" = false ->
  includes (message err) "not found" = true ->
  result (Ga4.queryGA4 getClient w env params g)
  = Throw (mkError ("Property " +:+ propertyId
                    +:+ " not found. Check your GA4_PROPERTY_ID.")).
Proof.
  intros Hc Hp Hne Hr Hperm Hnf.
  rewrite (queryGA4_run _ w _ params _ _ _ _ _ Hc Hp Hne).
  unfold result. simpl. rewrite Hr. unfold Ga4.classify. by rewrite Hperm, Hnf.
Qed.

Lemma not_found_failure_names_the_property_witness :
  let env := Demo.env_with "gemini" in
  let raw := "5 NOT_FOUND: Requested entity was not found." in
  let w := Demo.world (Ret "") (Throw (mkError raw)) in
  result (Ga4.queryGA4 (Ga4.getClient env) w env sessions_only fresh)
  = Throw (mkError "Property 314159265 not found. Check your GA4_PROPERTY_ID.").
Proof.
  intros env raw w.
  apply (not_found_failure_names_the_property (Ga4.getClient env) w env sessions_only
           fresh (with_analytics (Ga4Api.KeyFile "/secrets/ga4-key.json")) []
           (Ga4Api.KeyFile "/secrets/ga4-key.json") "314159265" (mkError raw)).
  - reflexivity.
  - reflexivity.
  - discriminate.
  - reflexivity.
  - vm_compute. reflexivity.
  - vm_compute. reflexivity.
Defined.

(** X4.  Every other failure of the report is thrown on as it is: the same
    error, with its message untouched. *)
Theorem other_failure_is_rethrown
    getClient w env params g g1 t1 client propertyId err :
  getClient g = (g1, t1, Ret client) ->
  env !! "GA4_PROPERTY_ID" = Some propertyId ->
  propertyId <> EmptyString ->
  runReport w client (Ga4.build_request propertyId params) = Throw err ->
  includes (message err) "permission" = false ->
  includes (message err) "not found" = false ->
  Ga4.queryGA4 getClient w env params g
  = (g1, t1 ++ [RunReport (Ga4.build_request propertyId params)], Throw err).
Proof.
  intros Hc Hp Hne Hr Hperm Hnf.
  rewrite (queryGA4_run _ w _ params _ _ _ _ _ Hc Hp Hne).
  simpl. rewrite Hr. unfold Ga4.classify. by rewrite Hperm, Hnf.
Qed.

Lemma other_failure_is_rethrown_witness :
  let env := Demo.env_with "gemini" in
  let raw := "14 UNAVAILABLE: No connection established" in
  let w := Demo.world (Ret "") (Throw (mkError raw)) in
  result (Ga4.queryGA4 (Ga4.getClient env) w env sessions_only fresh)
  = Throw (mkError "14 UNAVAILABLE: No connection established").
Proof.
  intros env raw w.
  rewrite (other_failure_is_rethrown (Ga4.getClient env) w env sessions_only
             fresh (with_analytics (Ga4Api.KeyFile "/secrets/ga4-key.json")) []
             (Ga4Api.KeyFile "/secrets/ga4-key.json") "314159265" (mkError raw)).
  - reflexivity.
  - reflexivity.
  - reflexivity.
  - discriminate.
  - reflexivity.
  - vm_compute. reflexivity.
  - vm_compute. reflexivity.
Defined.

(** ** The executor: the client, the request and the rows *)

Lemma ga4_getClient_cases env g :
  match analyticsClient g with
  | Some client => Ga4.getClient env g = (g, [], Ret client)
  | None =>
      match env !! "GOOGLE_APPLICATION_CREDENTIALS" with
      | Some (String c p as path) =>
          Ga4.getClient env g
          = ({| groq_client := groq_client g;
                gemini_client := gemini_client g;
                analyticsClient := Some (Ga4Api.KeyFile path) |}, [],
             Ret (Ga4Api.KeyFile path))
      | _ =>
          Ga4.getClient env g
          = (g, [],
             Throw (mkError "GOOGLE_APPLICATION_CREDENTIALS environment variable not set"))
      end
  end.
Proof.
  unfold Ga4.getClient, Ga4.remember. step_run.
  destruct (analyticsClient g); [done|].
  by destruct (env !! "GOOGLE_APPLICATION_CREDENTIALS") as [[|c p]|].
Qed.

(** What [queryGA4] does once the client is known. *)
Lemma queryGA4_with_client getClient w env params g g1 t1 client :
  getClient g = (g1, t1, Ret client) ->
  Ga4.queryGA4 getClient w env params g
  = match env !! "GA4_PROPERTY_ID" with
    | Some (String c p as propertyId) =>
        (g1, t1 ++ [RunReport (Ga4.build_request propertyId params)],
         match runReport w client (Ga4.build_request propertyId params) with
         | Ret response => Ret (Ga4.normalize propertyId params response)
         | Throw err => Throw (Ga4.classify propertyId err)
         end)
    | _ => (g1, t1, Throw (mkError "GA4_PROPERTY_ID environment variable not set"))
    end.
Proof.
  intros Hc.
  destruct (env !! "GA4_PROPERTY_ID") as [[|c p]|] eqn:Hp.
  - eapply missing_property_id_aux; [done|]. by rewrite Hp.
  - by apply queryGA4_run.
  - eapply missing_property_id_aux; [done|]. by rewrite Hp.
Qed.

(** X5.  The analytics client is built once.  After a run that got hold of
    a client, that client stays in place, and a later run uses it whatever
    has become of GOOGLE_APPLICATION_CREDENTIALS: it sends the same request
    to the same client and ends the same way. *)
Theorem analytics_client_is_kept w env env' params params' g g1 t1 r1 :
  Ga4.queryGA4 (Ga4.getClient env) w env params g = (g1, t1, r1) ->
  is_Some (analyticsClient g1) ->
  env' !! "GA4_PROPERTY_ID" = env !! "GA4_PROPERTY_ID" ->
  exists client,
    analyticsClient g1 = Some client
    /\ Ga4.queryGA4 (Ga4.getClient env') w env' params' g1
       = Ga4.queryGA4 (fun s => (s, [], Ret client)) w env params' g1
    /\ final (Ga4.queryGA4 (Ga4.getClient env') w env' params' g1) = g1.
Proof.
  intros Hrun [client Hclient] Henv. exists client. split; [done|].
  pose proof (ga4_getClient_cases env' g1) as Hget. rewrite Hclient in Hget.
  rewrite (queryGA4_with_client _ w env' params' _ _ _ _ Hget).
  rewrite (queryGA4_with_client (fun s => (s, [], Ret client)) w env params' g1 g1 []
             client eq_refl).
  rewrite Henv. split; [done|].
  by destruct (env !! "GA4_PROPERTY_ID") as [[|c p]|].
Qed.

Lemma analytics_client_is_kept_witness :
  let env := Demo.env_with "gemini" in
  let env' := delete "GOOGLE_APPLICATION_CREDENTIALS" env in
  let w := Demo.world (Ret "") (Ret empty_report) in
  let g1 := with_analytics (Ga4Api.KeyFile "/secrets/ga4-key.json") in
  calls (Ga4.queryGA4 (Ga4.getClient env') w env' sessions_only g1)
  = [RunReport (Ga4.build_request "314159265" sessions_only)]
  /\ final (Ga4.queryGA4 (Ga4.getClient env') w env' sessions_only g1) = g1.
Proof.
  intros env env' w g1.
  destruct (analytics_client_is_kept w env env' sessions_only sessions_only fresh g1
              [RunReport (Ga4.build_request "314159265" sessions_only)]
              (Ret (Ga4.normalize "314159265" sessions_only empty_report)))
    as (client & Hclient & Hsame & Hfinal).
  - reflexivity.
  - by eexists.
  - reflexivity.
  - split; [|exact Hfinal]. rewrite Hsame.
    injection Hclient as <-. reflexivity.
Defined.

(** X6.  Calling [queryGA4] twice with the same parameters against the same
    remote side ends the same way and sends the same request both times:
    the only thing a run leaves behind is the client. *)
Theorem queryGA4_is_idempotent w env params g :
  let first := Ga4.queryGA4 (Ga4.getClient env) w env params g in
  let second := Ga4.queryGA4 (Ga4.getClient env) w env params (final first) in
  result second = result first
  /\ calls second = calls first
  /\ final second = final first.
Proof.
  intros first second.
  assert (forall g1 client,
            Ga4.getClient env g = (g1, [], Ret client) ->
            Ga4.getClient env g1 = (g1, [], Ret client) ->
            second = first /\ final first = g1) as Hkept.
  { intros g1 client Hget Hget1. subst second first.
    rewrite (queryGA4_with_client _ w env params _ _ _ _ Hget).
    destruct (env !! "GA4_PROPERTY_ID") as [[|c p]|] eqn:Hp; unfold final; simpl;
      rewrite (queryGA4_with_client _ w env params _ _ _ _ Hget1), Hp; done. }
  assert (second = first) as ->; [|done].
  pose proof (ga4_getClient_cases env g) as Hget.
  destruct (analyticsClient g) as [client|] eqn:Hg.
  { by apply (Hkept g client). }
  destruct (env !! "GOOGLE_APPLICATION_CREDENTIALS") as [[|c p]|] eqn:Hcred.
  - subst second first.
    rewrite (missing_credentials_aux w env params g Hg) by by rewrite Hcred.
    unfold final. simpl.
    by rewrite (missing_credentials_aux w env params g Hg) by by rewrite Hcred.
  - eapply Hkept; [exact Hget|].
    exact (ga4_getClient_cases env
             {| groq_client := groq_client g; gemini_client := gemini_client g;
                analyticsClient := Some (Ga4Api.KeyFile (String c p)) |}).
  - subst second first.
    rewrite (missing_credentials_aux w env params g Hg) by by rewrite Hcred.
    unfold final. simpl.
    by rewrite (missing_credentials_aux w env params g Hg) by by rewrite Hcred.
Qed.

(** X7.  The report request always carries an ordering and exactly one date
    range: orderings supplied with the parameters go out as they are, and
    where none is supplied, or an empty list of them, the request has the
    one ordering whose metric name is the first of the metrics and whose
    direction is descending; with an empty list of metrics that name is
    undefined. *)
Theorem request_is_always_ordered getClient w env params g g1 t1 client propertyId :
  getClient g = (g1, t1, Ret client) ->
  env !! "GA4_PROPERTY_ID" = Some propertyId ->
  propertyId <> EmptyString ->
  exists request,
    calls (Ga4.queryGA4 getClient w env params g) = t1 ++ [RunReport request]
    /\ Ga4Api.orderBys request <> []
    /\ length (Ga4Api.dateRanges request) = 1
    /\ (forall supplied,
          Ga4.orderBys params = Some supplied ->
          supplied <> [] ->
          Ga4Api.orderBys request = supplied)
    /\ (default [] (Ga4.orderBys params) = [] ->
        Ga4Api.orderBys request
        = [ VObj (<["metric" :=
                      VObj {["metricName" :=
                               match default ["totalUsers"; "sessions"]
                                       (Ga4.metrics params) with
                               | first :: _ => VStr first
                               | [] => VUndef
                               end]}]>
                    (<["desc" := VBool true]> ∅)) ]).
Proof.
  intros Hc Hp Hne. eexists.
  rewrite (queryGA4_run _ w _ params _ _ _ _ _ Hc Hp Hne).
  split; [reflexivity|]. simpl.
  unfold Ga4.default_order, Ga4.metrics_of.
  destruct (Ga4.orderBys params) as [[|o os]|]; repeat split; try done;
    try (by intros supplied [= <-]);
    intros _; by destruct (default ["totalUsers"; "sessions"] (Ga4.metrics params)).
Qed.

Lemma request_is_always_ordered_witness :
  let env := Demo.env_with "gemini" in
  let w := Demo.world (Ret "") (Ret empty_report) in
  let params := {| Ga4.dimensions := None;
                   Ga4.metrics := Some ["bounceRate"; "sessions"];
                   Ga4.startDate := None; Ga4.endDate := None; Ga4.limit := None;
                   Ga4.dimensionFilter := None; Ga4.orderBys := Some [] |} in
  exists request,
    calls (Ga4.queryGA4 (Ga4.getClient env) w env params fresh) = [RunReport request]
    /\ Ga4Api.orderBys request
       = [ VObj (<["metric" := VObj {["metricName" := VStr "bounceRate"]}]>
                   (<["desc" := VBool true]> ∅)) ].
Proof.
  intros env w params.
  destruct (request_is_always_ordered (Ga4.getClient env) w env params fresh
              (with_analytics (Ga4Api.KeyFile "/secrets/ga4-key.json")) []
              (Ga4Api.KeyFile "/secrets/ga4-key.json") "314159265")
    as (request & Hcalls & _ & _ & _ & Hdefault).
  - reflexivity.
  - reflexivity.
  - discriminate.
  - exists request. split; [exact Hcalls|]. exact (Hdefault eq_refl).
Defined.

(** X8.  Whatever the report holds, the result has one row for each row of
    the report, in order, and the keys of every row are exactly the
    dimension and metric names of the query other than __proto__, under
    which an assignment creates no key: values beyond the names are dropped
    and values that are missing are filled in.  The keys of the totals are
    the metric names other than __proto__ when the report has a totals row,
    and there are none when it has not. *)
Theorem row_keys_are_the_query_names
    getClient w env params g g1 t1 client propertyId response :
  getClient g = (g1, t1, Ret client) ->
  env !! "GA4_PROPERTY_ID" = Some propertyId ->
  propertyId <> EmptyString ->
  runReport w client (Ga4.build_request propertyId params) = Ret response ->
  exists res,
    result (Ga4.queryGA4 getClient w env params g) = Ret res
    /\ length (Ga4.Result.rows res) = length (default [] (Ga4Api.rows response))
    /\ (forall k parsed,
          Ga4.Result.rows res !! k = Some parsed ->
          dom parsed
          = (list_to_set (Ga4.dimensions_of params)
             ∪ list_to_set (Ga4.metrics_of params)) ∖ {["__proto__"]})
    /\ dom (Ga4.Result.totals res)
       = match Ga4Api.totals response with
         | Some (_ :: _) => list_to_set (Ga4.metrics_of params) ∖ {["__proto__"]}
         | _ => ∅
         end.
Proof.
  intros Hc Hp Hne Hr.
  exists (Ga4.normalize propertyId params response). split.
  { rewrite (queryGA4_run _ w _ params _ _ _ _ _ Hc Hp Hne).
    unfold result. simpl. by rewrite Hr. }
  split; [simpl; by rewrite length_map|]. split.
  - simpl. intros k parsed Hk. rewrite list_lookup_fmap in Hk.
    destruct (default [] (Ga4Api.rows response) !! k) as [row|]; simplify_eq/=.
    apply parse_row_dom.
  - simpl. unfold Ga4.parse_totals.
    destruct (Ga4Api.totals response) as [[|first others]|]; try apply dom_empty_L.
    rewrite parse_metrics_dom, dom_empty_L. set_solver.
Qed.

Lemma row_keys_are_the_query_names_witness :
  let env := Demo.env_with "gemini" in
  let row := {| Ga4Api.dimensionValues := [Demo.cell "DE"; Demo.cell "Berlin"];
                Ga4Api.metricValues := [Demo.cell "7"; Demo.cell "8"; Demo.cell "9"] |} in
  let response := {| Ga4Api.rows := Some [row; row];
                     Ga4Api.totals := Some [];
                     Ga4Api.rowCount := None |} in
  let w := Demo.world (Ret "") (Ret response) in
  let params := {| Ga4.dimensions := Some ["__proto__"];
                   Ga4.metrics := Some ["sessions"];
                   Ga4.startDate := None; Ga4.endDate := None; Ga4.limit := None;
                   Ga4.dimensionFilter := None; Ga4.orderBys := None |} in
  exists res,
    result (Ga4.queryGA4 (Ga4.getClient env) w env params fresh) = Ret res
    /\ length (Ga4.Result.rows res) = 2
    /\ (forall k parsed,
          Ga4.Result.rows res !! k = Some parsed ->
          dom parsed = ({["sessions"]} : gset string))
    /\ dom (Ga4.Result.totals res) = ∅.
Proof.
  intros env row response w params.
  destruct (row_keys_are_the_query_names (Ga4.getClient env) w env params fresh
              (with_analytics (Ga4Api.KeyFile "/secrets/ga4-key.json")) []
              (Ga4Api.KeyFile "/secrets/ga4-key.json") "314159265" response)
    as (res & Hres & Hlen & Hkeys & Htotals).
  - reflexivity.
  - reflexivity.
  - discriminate.
  - reflexivity.
  - exists res. split; [exact Hres|]. split; [exact Hlen|]. split; [|exact Htotals].
    intros k parsed Hk. rewrite (Hkeys k parsed Hk). simpl. set_solver.
Defined.

(** X9.  The row count of the metadata is the count the report gives, and
    the number of rows when the report gives none or gives zero: a result
    with rows never has a row count of zero. *)
Theorem row_count_is_zero_only_without_rows
    getClient w env params g g1 t1 client propertyId response :
  getClient g = (g1, t1, Ret client) ->
  env !! "GA4_PROPERTY_ID" = Some propertyId ->
  propertyId <> EmptyString ->
  runReport w client (Ga4.build_request propertyId params) = Ret response ->
  exists res,
    result (Ga4.queryGA4 getClient w env params g) = Ret res
    /\ (truthy_number (Ga4.Result.rowCount (Ga4.Result.metadata res)) = false ->
        Ga4.Result.rows res = [])
    /\ (forall n,
          Ga4Api.rowCount response = Some n ->
          truthy_number n = true ->
          Ga4.Result.rowCount (Ga4.Result.metadata res) = n)
    /\ (truthy_number (default zero (Ga4Api.rowCount response)) = false ->
        Ga4.Result.rowCount (Ga4.Result.metadata res)
        = of_nat (length (default [] (Ga4Api.rows response)))).
Proof.
  intros Hc Hp Hne Hr.
  exists (Ga4.normalize propertyId params response). split.
  { rewrite (queryGA4_run _ w _ params _ _ _ _ _ Hc Hp Hne).
    unfold result. simpl. by rewrite Hr. }
  simpl. rewrite length_map.
  assert (forall rows : list Ga4Api.Row,
            truthy_number (of_nat (length rows)) = false -> rows = []) as Hnil.
  { intros [|row rows]; [done|]. unfold of_nat, of_N, truthy_number. simpl.
    by destruct (length rows). }
  destruct (Ga4Api.rowCount response) as [n|]; simpl;
    [destruct (truthy_number n) eqn:Hn|];
    repeat split; simpl; try done; try congruence;
    try (intros Hz; by rewrite (Hnil _ Hz));
    try (intros m [= <-]; congruence).
Qed.

Lemma row_count_is_zero_only_without_rows_witness :
  let env := Demo.env_with "gemini" in
  let row := {| Ga4Api.dimensionValues := []; Ga4Api.metricValues := [] |} in
  let response := {| Ga4Api.rows := Some [row; row; row];
                     Ga4Api.totals := None;
                     Ga4Api.rowCount := Some zero |} in
  let w := Demo.world (Ret "") (Ret response) in
  exists res,
    result (Ga4.queryGA4 (Ga4.getClient env) w env sessions_only fresh) = Ret res
    /\ Ga4.Result.rowCount (Ga4.Result.metadata res) = of_N 3.
Proof.
  intros env row response w.
  destruct (row_count_is_zero_only_without_rows (Ga4.getClient env) w env sessions_only
              fresh (with_analytics (Ga4Api.KeyFile "/secrets/ga4-key.json")) []
              (Ga4Api.KeyFile "/secrets/ga4-key.json") "314159265" response)
    as (res & Hres & _ & _ & Hfallback).
  - reflexivity.
  - reflexivity.
  - discriminate.
  - reflexivity.
  - exists res. split; [exact Hres|]. exact (Hfallback eq_refl).
Defined.

(** ** The executor: whole numbers *)

Lemma digit_is_plain c :
  is_digit c = true ->
  is_space c = false
  /\ Ascii.eqb c "-" = false /\ Ascii.eqb c "+" = false
  /\ Ascii.eqb c "I" = false
  /\ Ascii.eqb c "x" = false /\ Ascii.eqb c "X" = false
  /\ Ascii.eqb c "o" = false /\ Ascii.eqb c "O" = false
  /\ Ascii.eqb c "b" = false /\ Ascii.eqb c "B" = false.
Proof.
  destruct c as [[] [] [] [] [] [] [] []]; try discriminate; intros _; repeat split.
Qed.

Lemma prefix_Infinity c ds :
  Ascii.eqb c "I" = false -> String.prefix "Infinity" (String c ds) = false.
Proof.
  intros HI.
  change (String.prefix "Infinity" (String c ds))
    with (if ascii_dec "I" c then String.prefix "nfinity" ds else false).
  destruct (ascii_dec "I" c) as [E|E]; [|done].
  subst c. by rewrite Ascii.eqb_refl in HI.
Qed.

Lemma app_empty_r_string s : s +:+ EmptyString = s.
Proof. induction s as [|c s IH]; [done|]. by rewrite app_cons, IH. Qed.

Lemma span_all_digits ds :
  all_digits ds = true -> span is_digit ds = (ds, EmptyString).
Proof.
  induction ds as [|c ds IH]; [done|]. simpl.
  intros [-> Hds]%andb_prop. by rewrite IH.
Qed.

Lemma trim_end_all_digits c ds :
  all_digits (String c ds) = true -> trim_end (String c ds) = String c ds.
Proof.
  revert c. induction ds as [|d ds IH]; intros c [Hc Hds]%andb_prop.
  - simpl. by destruct (digit_is_plain c Hc) as [-> _].
  - change (trim_end (String c (String d ds)))
      with (match trim_end (String d ds) with
            | EmptyString => if is_space c then EmptyString else String c EmptyString
            | r => String c r
            end).
    by rewrite IH.
Qed.

(** A string of digits reads as a number, and as the number that its digits
    spell. *)
Lemma digits_read_as_a_number ds :
  ds <> EmptyString ->
  all_digits ds = true ->
  isNaN ds = false /\ parseFloat ds = of_N (digits_value 0 ds).
Proof.
  destruct ds as [|c ds]; [done|]. intros _ Hall.
  pose proof Hall as [Hc Hds]%andb_prop.
  destruct (digit_is_plain c Hc) as (Hsp & Hm & Hp & HI & Hx & HX & Ho & HO & Hb & HB).
  assert (trim_start (String c ds) = String c ds) as Hts by (simpl; by rewrite Hsp).
  assert (scan_decimal (String c ds)
          = Some (of_N (digits_value 0 (String c ds)), EmptyString)) as Hscan.
  { unfold scan_decimal, sign. rewrite Hm, Hp.
    rewrite (prefix_Infinity _ _ HI).
    rewrite (span_all_digits _ Hall). simpl.
    by rewrite app_empty_r_string. }
  assert (non_decimal_literal (String c ds) = false) as Hnd.
  { destruct ds as [|k ds']; [done|]. simpl in Hds.
    apply andb_prop in Hds as [Hk _].
    destruct (digit_is_plain k Hk) as (_ & _ & _ & _ & Hkx & HkX & Hko & HkO & Hkb & HkB).
    simpl. rewrite Hkx, HkX, Hko, HkO, Hkb, HkB. simpl. apply andb_false_r. }
  split.
  - unfold isNaN, trim. rewrite Hts, (trim_end_all_digits _ _ Hall), Hnd.
    by rewrite Hscan.
  - unfold parseFloat. by rewrite Hts, Hscan.
Qed.

Lemma digits_value_of_uint d acc :
  N.to_nat (digits_value acc (NilEmpty.string_of_uint d))
  = Nat.of_uint_acc d (N.to_nat acc).
Proof.
  revert acc. induction d; intros acc; simpl; [done|..];
    rewrite IHd, Nat.tail_mul_spec; f_equal;
    unfold digit_value; simpl; lia.
Qed.

Lemma all_digits_of_uint d : all_digits (NilEmpty.string_of_uint d) = true.
Proof. induction d; simpl; auto. Qed.

Lemma decimal_of_nat_spells n :
  let ds := NilEmpty.string_of_uint (Nat.to_uint n) in
  ds <> EmptyString /\ all_digits ds = true /\ digits_value 0 ds = N.of_nat n.
Proof.
  intros ds.
  assert (digits_value 0 ds = N.of_nat n) as Hval.
  { apply N2Nat.inj. rewrite Nat2N.id. unfold ds.
    rewrite digits_value_of_uint. apply DecimalNat.Unsigned.of_to. }
  split; [|split; [apply all_digits_of_uint|done]].
  intros Hempty. unfold ds in *.
  destruct (Nat.to_uint n) eqn:Hd; try discriminate.
  pose proof (DecimalNat.Unsigned.of_to n) as Hn. rewrite Hd in Hn. simpl in Hn.
  subst n. discriminate.
Qed.

(** X10.  A metric value that is a string of decimal digits spelling a
    whole number up to 2^53 is stored as that number: up to there every
    whole number is a double, so that [parseFloat] reads it without
    rounding.  In particular the decimal writing of such a number comes
    back as the number. *)
Theorem digit_strings_are_stored_as_numbers values i ds :
  Ga4.value_at values i = Some ds ->
  ds <> EmptyString ->
  all_digits ds = true ->
  (digits_value 0 ds <= 2 ^ 53)%N ->
  Ga4.metric_cell values i = VNum (of_N (digits_value 0 ds))
  /\ forall n : nat,
       ds = NilEmpty.string_of_uint (Nat.to_uint n) ->
       Ga4.metric_cell values i = VNum (of_nat n).
Proof.
  intros Hv Hne Hall Hsmall.
  assert (Ga4.metric_cell values i = VNum (of_N (digits_value 0 ds))) as Hcell.
  { unfold Ga4.metric_cell. rewrite Hv.
    destruct ds as [|c ds]; [done|]. simpl.
    destruct (digits_read_as_a_number (String c ds) Hne Hall) as [-> ->]. done. }
  split; [done|]. intros n ->. rewrite Hcell. unfold of_nat.
  by destruct (decimal_of_nat_spells n) as (_ & _ & ->).
Qed.

Lemma digit_strings_are_stored_as_numbers_witness :
  Ga4.metric_cell [Demo.cell "x"; Demo.cell "2048"] 1 = VNum (of_nat 2048).
Proof.
  destruct (digit_strings_are_stored_as_numbers
              [Demo.cell "x"; Demo.cell "2048"] 1 "2048") as [_ Hnat].
  - reflexivity.
  - discriminate.
  - reflexivity.
  - vm_compute. discriminate.
  - apply (Hnat 2048%nat). reflexivity.
Defined.

(** ** The executor: credentials given inline *)

(** X11.  In the copy of ga4.js that reads GA_CREDENTIALS_JSON, inline
    credentials come before the key file.  When they are set and are not
    valid JSON, [queryGA4] throws Invalid GA_CREDENTIALS_JSON format without
    falling back on GOOGLE_APPLICATION_CREDENTIALS, sends nothing and keeps
    no client; when they parse, the client is built from them. *)
Theorem inline_credentials_come_first w env params g json :
  analyticsClient g = None ->
  env !! "GA_CREDENTIALS_JSON" = Some json ->
  json <> EmptyString ->
  (forall err,
     JSON_parse w json = Throw err ->
     Ga4.queryGA4 (Ga4.getClient_inline w env) w env params g
     = (g, [], Throw (mkError "Invalid GA_CREDENTIALS_JSON format")))
  /\ (forall credentials,
        JSON_parse w json = Ret credentials ->
        result (Ga4.getClient_inline w env g) = Ret (Ga4Api.Credentials credentials)
        /\ analyticsClient (final (Ga4.getClient_inline w env g))
           = Some (Ga4Api.Credentials credentials)).
Proof.
  intros Hg Hj Hne. destruct json as [|c j]; [done|]. split.
  - intros err Hp. unfold Ga4.queryGA4, Ga4.getClient_inline. step_run.
    by rewrite Hg, Hj, Hp.
  - intros credentials Hp. unfold Ga4.getClient_inline, Ga4.remember. step_run.
    by rewrite Hg, Hj, Hp.
Qed.

Lemma inline_credentials_come_first_witness :
  let env := <["GA_CREDENTIALS_JSON" := "{client_email: ga4@example}"]>
               (Demo.env_with "gemini") in
  let w := Demo.world (Ret "") (Ret empty_report) in
  Ga4.queryGA4 (Ga4.getClient_inline w env) w env sessions_only fresh
  = (fresh, [], Throw (mkError "Invalid GA_CREDENTIALS_JSON format")).
Proof.
  intros env w.
  destruct (inline_credentials_come_first w env sessions_only fresh
              "{client_email: ga4@example}") as [Hinvalid _].
  - reflexivity.
  - reflexivity.
  - discriminate.
  - apply (Hinvalid (mkError "Unexpected token in JSON")). reflexivity.
Defined.

(** ** The interpreter: the match, the two modes and the client *)

Lemma after_first_open_found pre rest :
  lacks open_brace pre = true ->
  after_first_open (pre +:+ String open_brace rest) = Some rest.
Proof.
  induction pre as [|c pre IH].
  - intros _. change (after_first_open (String open_brace rest) = Some rest).
    simpl. by rewrite ?Ascii.eqb_refl.
  - simpl. intros [Hc Hpre]%andb_prop.
    apply negb_true_iff in Hc. rewrite Hc. auto.
Qed.

Lemma upto_last_close_none post :
  lacks close_brace post = true -> upto_last_close post = None.
Proof.
  induction post as [|c post IH]; simpl; [done|].
  intros [Hc Hpost]%andb_prop. apply negb_true_iff in Hc. by rewrite IH, Hc.
Qed.

Lemma upto_last_close_found mid post :
  lacks close_brace post = true ->
  upto_last_close (mid +:+ String close_brace post)
  = Some (mid +:+ String close_brace EmptyString).
Proof.
  intros Hpost. induction mid as [|c mid IH].
  - change (upto_last_close (String close_brace post)
            = Some (String close_brace EmptyString)).
    simpl. by rewrite (upto_last_close_none _ Hpost), ?Ascii.eqb_refl.
  - rewrite !app_cons. simpl. by rewrite IH.
Qed.

(** X12.  The regular expression of [processQuery] matches from the first
    opening brace of the reply to its last closing brace, and matches
    nothing else: what stands before the first opening brace and after the
    last closing brace is left out, and all that lies between them is taken,
    further braces included. *)
Theorem match_is_first_open_to_last_close text jsonMatch :
  match_braces text = Some jsonMatch
  <-> exists pre mid post,
        text = pre +:+ jsonMatch +:+ post
        /\ jsonMatch = String open_brace (mid +:+ String close_brace EmptyString)
        /\ lacks open_brace pre = true
        /\ lacks close_brace post = true.
Proof.
  split; [apply match_braces_extent|].
  intros (pre & mid & post & -> & -> & Hpre & Hpost).
  unfold match_braces. rewrite app_cons, (after_first_open_found _ _ Hpre).
  rewrite app_assoc_string, app_cons, app_nil_l_string.
  by rewrite (upto_last_close_found _ _ Hpost).
Qed.

(** Two objects in one reply are matched as one text. *)
Example two_objects_are_one_match :
  match_braces "first {a} then {b}." = Some "{a} then {b}".
Proof. reflexivity. Qed.

Lemma processQuery_formatted w env g message history text :
  model_replies w env g message history true text ->
  result (Ai.processQuery w env message history true g) = Ret (text_result text).
Proof.
  unfold model_replies, Ai.processQuery.
  destruct (Ai.select env); intros (client & response & Hc & Hr & <-).
  - pose proof (groq_processQuery_run w env message history true g) as Hrun.
    rewrite Hc in Hrun. destruct Hrun as (g' & _ & ->).
    simpl in *. by rewrite Hr.
  - pose proof (gemini_processQuery_run w env message history true g) as Hrun.
    rewrite Hc in Hrun. destruct Hrun as (g' & _ & ->).
    simpl in *. by rewrite Hr.
Qed.

(** X13.  In formatting mode [processQuery] hands the model's reply back
    word for word: the result is the object whose properties are [type],
    the string text, and [content], the reply.  Braces in the reply are not
    looked for and JSON.parse is not consulted, so the result is the same
    whatever JSON.parse would do. *)
Theorem formatting_returns_the_reply w w' env g message history text :
  model_replies w env g message history true text ->
  new_Groq w' = new_Groq w ->
  new_GoogleGenAI w' = new_GoogleGenAI w ->
  groq_create w' = groq_create w ->
  gemini_generate w' = gemini_generate w ->
  result (Ai.processQuery w env message history true g)
  = Ret (VObj (list_to_map [("type", VStr "text"); ("content", VStr text)]))
  /\ result (Ai.processQuery w' env message history true g)
     = Ret (VObj (list_to_map [("type", VStr "text"); ("content", VStr text)])).
Proof.
  intros Hr Hn Hn' Hg Hm. split; [by apply processQuery_formatted|].
  apply processQuery_formatted. unfold model_replies, groq_client_for, gemini_client_for in *.
  destruct (Ai.select env); by rewrite ?Hn, ?Hn', ?Hg, ?Hm.
Qed.

Lemma formatting_returns_the_reply_witness :
  let text := "| sessions |" +:+ String.concat dquote [" {"; "type"; ":"; "text"; "}"] in
  let w := Demo.world (Ret text) Demo.no_report in
  let w' := {| new_Groq := new_Groq w;
               new_GoogleGenAI := new_GoogleGenAI w;
               groq_create := groq_create w;
               gemini_generate := gemini_generate w;
               runReport := runReport w;
               JSON_parse := fun _ => Ret VNull;
               JSON_stringify := JSON_stringify w |} in
  result (Ai.processQuery w' (Demo.env_with "groq") "Format this" [] true fresh)
  = Ret (VObj (list_to_map [("type", VStr "text"); ("content", VStr text)])).
Proof.
  intros text w w'.
  destruct (formatting_returns_the_reply w w' (Demo.env_with "groq") fresh
              "Format this" [] text) as [_ Hres].
  - exists {| GroqApi.apiKey := Some "gsk-demo" |},
           {| GroqApi.choices := [Some (Some text)] |}.
    split; [reflexivity|]. split; reflexivity.
  - reflexivity.
  - reflexivity.
  - reflexivity.
  - reflexivity.
  - exact Hres.
Defined.

(** X14.  For a history that is an array of messages, [processQuery]
    throws in one case only: the module has no client yet and the SDK's
    constructor, which runs before the try block, throws; then nothing is
    called and no client is kept.  In every other case it returns and has
    called the completion API exactly once, whatever the API answers and
    whatever JSON.parse does with the reply. *)
Theorem processQuery_throws_only_without_a_client
    w env message history isFormatting g :
  match client_failure w env g with
  | Some err =>
      Ai.processQuery w env message history isFormatting g = (g, [], Throw err)
  | None =>
      exists g' request returned,
        Ai.processQuery w env message history isFormatting g
        = (g', [request], Ret returned)
        /\ match request with
           | GroqCreate _ => Ai.select env = Ai.groq
           | GeminiGenerate _ => Ai.select env = Ai.gemini
           | _ => False
           end
  end.
Proof.
  unfold client_failure, Ai.processQuery. destruct (Ai.select env) eqn:Hsel.
  - pose proof (groq_processQuery_run w env message history isFormatting g) as Hrun.
    destruct (groq_client_for w env g); [|done].
    destruct Hrun as (g' & _ & ->). by eexists _, _, _.
  - pose proof (gemini_processQuery_run w env message history isFormatting g) as Hrun.
    destruct (gemini_client_for w env g); [|done].
    destruct Hrun as (g' & _ & ->). by eexists _, _, _.
Qed.

(** Without GROQ_API_KEY the Groq SDK refuses to build a client, and the
    error leaves [processQuery]; the chat handler turns it into its 500. *)
Example unset_key_is_thrown :
  let env := delete "GROQ_API_KEY" (Demo.env_with "groq") in
  let w := Demo.world (Ret "hello") Demo.no_report in
  let req_body := {| Index.message := VStr "Sessions?"; Index.history := None |} in
  let run := Ai.processQuery w env "Sessions?" [] false fresh in
  let answer := Index.chat (Ai.processQuery w env) (Demo.queryGA4 w env) w env req_body fresh in
  final run = fresh
  /\ calls run = []
  /\ (forall returned, result run <> Ret returned)
  /\ calls answer = [CallProcessQuery "Sessions?" [] false]
  /\ match result answer with
     | Ret response => Index.status response = 500
     | Throw _ => False
     end.
Proof.
  intros env w req_body run answer.
  split; [vm_compute; reflexivity|]. split; [vm_compute; reflexivity|].
  split; [intros returned; vm_compute; discriminate|].
  split; vm_compute; reflexivity.
Qed.

Lemma length_slice_last {A} (n : nat) (l : list A) : length (slice_last n l) <= n.
Proof. unfold slice_last. rewrite length_drop. lia. Qed.

(** X15.  Whatever roles the history entries carry, the turns sent to the
    completion API carry only roles the API knows: an entry whose role is
    not user goes out as the assistant's (Groq) or the model's (Gemini).
    The new message is always the last turn, and a request has at most ten
    messages (Groq, the system prompt included) or nine contents (Gemini). *)
Theorem request_turns_are_normalized env message history isFormatting :
  let messages := GroqApi.messages (Groq.build_request env message history isFormatting) in
  let contents := GeminiApi.contents (Gemini.build_request env message history isFormatting) in
  (length messages <= 10
   /\ Forall (fun m => GroqApi.role m ∈ ["system"; "user"; "assistant"]) messages
   /\ last messages = Some {| GroqApi.role := "user"; GroqApi.content := message |})
  /\ (length contents <= 9
      /\ Forall (fun c => GeminiApi.role c ∈ ["user"; "model"]) contents
      /\ last contents
         = Some {| GeminiApi.role := "user";
                   GeminiApi.parts := [ {| GeminiApi.text := message |} ] |}).
Proof.
  intros messages contents. subst messages contents. simpl.
  rewrite groq_messages, gemini_contents.
  pose proof (length_slice_last 8 history) as Hlen.
  split; (split; [|split]).
  - simpl. rewrite length_app, length_map. simpl. lia.
  - apply Forall_cons. split; [set_solver|].
    apply Forall_app. split; [|apply Forall_singleton; set_solver].
    apply Forall_fmap, Forall_true. intros msg. unfold groq_turn. simpl.
    destruct (String.eqb (Chat.role msg) "user"); set_solver.
  - by rewrite app_comm_cons, last_snoc.
  - rewrite length_app, length_map. simpl. lia.
  - apply Forall_app. split; [|apply Forall_singleton; set_solver].
    apply Forall_fmap, Forall_true. intros msg. unfold gemini_turn. simpl.
    destruct (String.eqb (Chat.role msg) "user"); set_solver.
  - by rewrite last_snoc.
Qed.

(** X16.  The completion client is built once.  When the module of the
    selected provider has a client or its SDK builds one, that client is in
    the module variable after the run and is the one every later run uses,
    whatever the key variable holds by then.  When the constructor throws,
    nothing is kept: the state is as before, and the next run tries again
    with the key of its own time. *)
Theorem completion_client_is_kept w env env' message history isFormatting g :
  let first := Ai.processQuery w env message history isFormatting g in
  match Ai.select env with
  | Ai.groq =>
      match groq_client_for w env g with
      | Ret client =>
          groq_client (final first) = Some client
          /\ groq_client_for w env' (final first) = Ret client
      | Throw err =>
          final first = g
          /\ groq_client g = None
          /\ groq_client_for w env' (final first) = new_Groq w (env' !! "GROQ_API_KEY")
      end
  | Ai.gemini =>
      match gemini_client_for w env g with
      | Ret client =>
          gemini_client (final first) = Some client
          /\ gemini_client_for w env' (final first) = Ret client
      | Throw err =>
          final first = g
          /\ gemini_client g = None
          /\ gemini_client_for w env' (final first)
             = new_GoogleGenAI w (env' !! "GEMINI_API_KEY")
      end
  end.
Proof.
  intros first. subst first. unfold Ai.processQuery.
  destruct (Ai.select env).
  - pose proof (groq_processQuery_run w env message history isFormatting g) as Hrun.
    destruct (groq_client_for w env g) as [client|err] eqn:Hc.
    + destruct Hrun as (g' & Hg' & ->). unfold final, groq_client_for. simpl.
      by rewrite Hg'.
    + rewrite Hrun. unfold final. simpl.
      unfold groq_client_for in *. by destruct (groq_client g).
  - pose proof (gemini_processQuery_run w env message history isFormatting g) as Hrun.
    destruct (gemini_client_for w env g) as [client|err] eqn:Hc.
    + destruct Hrun as (g' & Hg' & ->). unfold final, gemini_client_for. simpl.
      by rewrite Hg'.
    + rewrite Hrun. unfold final. simpl.
      unfold gemini_client_for in *. by destruct (gemini_client g).
Qed.

(** ** server/index.js: start-up, access control and the routes *)

Lemma truthy_env_is_set env key :
  truthy_string (default EmptyString (env !! key)) = true <-> is_set env key.
Proof.
  unfold is_set. destruct (env !! key) as [[|c s]|]; simpl; split; try done.
  - intros (c & s & Heq). done.
  - eauto.
  - intros (c & s & Heq). done.
Qed.

(** X17.  The start-up check lets the process go on exactly when the
    credentials path, the property id and the API key of the provider that
    server/ai.js selects are all set to non-empty strings: the key it asks
    for is always the one of the module that will be loaded. *)
Theorem startup_checks_the_selected_provider env :
  Index.startup env = None
  <-> is_set env "GOOGLE_APPLICATION_CREDENTIALS"
      /\ is_set env "GA4_PROPERTY_ID"
      /\ is_set env match Ai.select env with
                    | Ai.groq => "GROQ_API_KEY"
                    | Ai.gemini => "GEMINI_API_KEY"
                    end.
Proof.
  rewrite <- !truthy_env_is_set.
  unfold Index.startup, Index.missing, Index.requiredEnv, Ai.select.
  set (key := if String.eqb _ "groq" then "GROQ_API_KEY" else "GEMINI_API_KEY").
  replace (match (if String.eqb (toLowerCase (or_string (env !! "AI_PROVIDER") "gemini")) "groq"
                  then Ai.groq else Ai.gemini) with
           | Ai.groq => "GROQ_API_KEY"
           | Ai.gemini => "GEMINI_API_KEY"
           end) with key
    by (subst key; by destruct (String.eqb _ "groq")).
  simpl.
  destruct (truthy_string (default EmptyString (env !! "GOOGLE_APPLICATION_CREDENTIALS")));
    destruct (truthy_string (default EmptyString (env !! "GA4_PROPERTY_ID")));
    destruct (truthy_string (default EmptyString (env !! key)));
    simpl; split; try done; intros (? & ? & ?); done.
Qed.

Lemma startup_is_set env key :
  Index.startup env = None -> key ∈ Index.requiredEnv env -> is_set env key.
Proof.
  unfold Index.startup, Index.missing. intros Hs Hin.
  apply truthy_env_is_set.
  destruct (truthy_string (default EmptyString (env !! key))) eqn:Ht; [done|].
  assert (key ∈ List.filter
            (fun key => negb (truthy_string (default EmptyString (env !! key))))
            (Index.requiredEnv env)) as Hm.
  { apply list_elem_of_In, filter_In. split; [by apply list_elem_of_In|by rewrite Ht]. }
  destruct (List.filter _ _); [by apply elem_of_nil in Hm|done].
Qed.

(** X18.  Once the start-up check has passed, the executor's two
    configuration errors cannot occur: the first query builds the
    analytics client from the credentials path and sends its report request
    for the configured property. *)
Theorem startup_rules_out_configuration_errors w env params :
  Index.startup env = None ->
  exists credentialsPath propertyId,
    env !! "GOOGLE_APPLICATION_CREDENTIALS" = Some credentialsPath
    /\ env !! "GA4_PROPERTY_ID" = Some propertyId
    /\ let run := Ga4.queryGA4 (Ga4.getClient env) w env params fresh in
       calls run = [RunReport (Ga4.build_request propertyId params)]
       /\ analyticsClient (final run) = Some (Ga4Api.KeyFile credentialsPath).
Proof.
  intros Hs.
  destruct (startup_is_set env "GOOGLE_APPLICATION_CREDENTIALS" Hs) as (c & s & Hc);
    [unfold Index.requiredEnv; set_solver|].
  destruct (startup_is_set env "GA4_PROPERTY_ID" Hs) as (c' & s' & Hp);
    [unfold Index.requiredEnv; set_solver|].
  exists (String c s), (String c' s'). split; [done|]. split; [done|].
  pose proof (ga4_getClient_cases env fresh) as Hg. simpl in Hg. rewrite Hc in Hg.
  rewrite (queryGA4_run _ w env params _ _ _ _ _ Hg Hp); [|done].
  done.
Qed.

Lemma startup_rules_out_configuration_errors_witness :
  exists credentialsPath propertyId,
    Demo.env_with "groq" !! "GOOGLE_APPLICATION_CREDENTIALS" = Some credentialsPath
    /\ Demo.env_with "groq" !! "GA4_PROPERTY_ID" = Some propertyId
    /\ let run := Ga4.queryGA4 (Ga4.getClient (Demo.env_with "groq"))
                    (Demo.world (Ret "hello") Demo.no_report)
                    (Demo.env_with "groq") sessions_only fresh in
       calls run = [RunReport (Ga4.build_request propertyId sessions_only)]
       /\ analyticsClient (final run) = Some (Ga4Api.KeyFile credentialsPath).
Proof.
  apply (startup_rules_out_configuration_errors
           (Demo.world (Ret "hello") Demo.no_report) (Demo.env_with "groq") sessions_only).
  vm_compute. reflexivity.
Defined.

(** ** Access control *)

Lemma remove_first_prefix pattern s : remove_first pattern (pattern +:+ s) = s.
Proof.
  assert (String.prefix pattern (pattern +:+ s) = true) as Hp.
  { induction pattern as [|c p IH]; [by destruct s|].
    rewrite app_cons. simpl. by destruct (ascii_dec c c). }
  assert (skip (String.length pattern) (pattern +:+ s) = s) as Hs.
  { clear Hp. induction pattern as [|c p IH]; [done|]. rewrite app_cons. simpl. exact IH. }
  destruct pattern as [|c p]; [by destruct s|].
  rewrite app_cons in *. unfold remove_first; fold remove_first.
  by rewrite Hp, Hs.
Qed.

(** X19.  Without a team token, or with an empty one, every route is
    open: whatever the request carries, the route's handler runs. *)
Theorem no_team_token_is_open_access processQuery queryGA4 w env req route :
  default EmptyString (env !! "TEAM_ACCESS_TOKEN") = EmptyString ->
  Index.serve processQuery queryGA4 w env req route
  = Index.handle processQuery queryGA4 w env route.
Proof.
  unfold Index.serve, Index.authMiddleware.
  by destruct (env !! "TEAM_ACCESS_TOKEN") as [[|c s]|].
Qed.

Lemma no_team_token_is_open_access_witness :
  let env := <["TEAM_ACCESS_TOKEN" := EmptyString]> (Demo.env_with "groq") in
  let w := Demo.world (Ret "hello") Demo.no_report in
  let req := {| Index.authorization := Some "Bearer guess"; Index.token := VUndef |} in
  Index.serve (Ai.processQuery w env) (Demo.queryGA4 w env) w env req Index.GetSchema
  = Index.handle (Ai.processQuery w env) (Demo.queryGA4 w env) w env Index.GetSchema.
Proof.
  intros env w req.
  apply (no_team_token_is_open_access (Ai.processQuery w env) (Demo.queryGA4 w env)
           w env req Index.GetSchema).
  reflexivity.
Defined.

(** X20.  With a team token configured, a request passes when its
    Authorization header is Bearer followed by the token, and also when it
    has no header, or a header that is empty or only the Bearer prefix, and
    the token is the query parameter. *)
Theorem team_token_is_accepted processQuery queryGA4 w env req route expected :
  env !! "TEAM_ACCESS_TOKEN" = Some expected ->
  expected <> EmptyString ->
  Index.authorization req = Some ("Bearer " +:+ expected)
  \/ (Index.authorization req ∈ [None; Some EmptyString; Some "Bearer "]
      /\ Index.token req = VStr expected) ->
  Index.serve processQuery queryGA4 w env req route
  = Index.handle processQuery queryGA4 w env route.
Proof.
  intros He Hne Hreq. unfold Index.serve, Index.authMiddleware. rewrite He.
  destruct expected as [|c s]; [done|].
  destruct Hreq as [->|[Hh ->]].
  - rewrite remove_first_prefix. simpl. by rewrite Ascii.eqb_refl, String.eqb_refl.
  - apply elem_of_cons in Hh as [->|Hh];
      [simpl; by rewrite Ascii.eqb_refl, String.eqb_refl|].
    apply elem_of_cons in Hh as [->|Hh];
      [simpl; by rewrite Ascii.eqb_refl, String.eqb_refl|].
    apply list_elem_of_singleton in Hh as ->.
    change (remove_first "Bearer " "Bearer ") with EmptyString.
    simpl. by rewrite Ascii.eqb_refl, String.eqb_refl.
Qed.

Lemma team_token_is_accepted_witness :
  let env := <["TEAM_ACCESS_TOKEN" := "s3cret"]> (Demo.env_with "groq") in
  let w := Demo.world (Ret "hello") Demo.no_report in
  let req := {| Index.authorization := Some "Bearer s3cret"; Index.token := VUndef |} in
  Index.serve (Ai.processQuery w env) (Demo.queryGA4 w env) w env req Index.GetSchema
  = Index.handle (Ai.processQuery w env) (Demo.queryGA4 w env) w env Index.GetSchema.
Proof.
  intros env w req.
  apply (team_token_is_accepted (Ai.processQuery w env) (Demo.queryGA4 w env)
           w env req Index.GetSchema "s3cret").
  - reflexivity.
  - discriminate.
  - left. reflexivity.
Defined.

(** X21.  With a team token configured, a header that still holds
    something after the Bearer prefix is taken out decides alone: when that
    is not the token the request is refused with status 401 on every route,
    also when the query parameter carries the right token, and the handler
    does not run: no call is made and no client is built. *)
Theorem header_decides_before_the_query_token
    processQuery queryGA4 w env req route expected header g :
  env !! "TEAM_ACCESS_TOKEN" = Some expected ->
  expected <> EmptyString ->
  Index.authorization req = Some header ->
  remove_first "Bearer " header <> EmptyString ->
  remove_first "Bearer " header <> expected ->
  Index.serve processQuery queryGA4 w env req route g
  = (g, [], Ret (Index.json 401 [("error", VStr "Unauthorized. Invalid access token.")])).
Proof.
  intros He Hne Hh Hs Hx. unfold Index.serve, Index.authMiddleware. rewrite He, Hh.
  destruct expected as [|c s]; [done|].
  destruct (remove_first "Bearer " header) as [|c' s'] eqn:Hr; [done|].
  change (truthy_string (String c' s')) with true. cbv iota.
  unfold Index.is_string.
  destruct (String.eqb (String c' s') (String c s)) eqn:Heq; [|done].
  by apply String.eqb_eq in Heq.
Qed.

Lemma header_decides_before_the_query_token_witness :
  let env := <["TEAM_ACCESS_TOKEN" := "s3cret"]> (Demo.env_with "groq") in
  let w := Demo.world (Ret "hello") Demo.no_report in
  let req := {| Index.authorization := Some "Bearer guess"; Index.token := VStr "s3cret" |} in
  let req_body := {| Index.message := VStr "Sessions?"; Index.history := None |} in
  Index.serve (Ai.processQuery w env) (Demo.queryGA4 w env) w env req
    (Index.PostChat req_body) fresh
  = (fresh, [], Ret (Index.json 401 [("error", VStr "Unauthorized. Invalid access token.")])).
Proof.
  intros env w req req_body.
  apply (header_decides_before_the_query_token
           (Ai.processQuery w env) (Demo.queryGA4 w env) w env req
           (Index.PostChat req_body) "s3cret" "Bearer guess" fresh).
  - reflexivity.
  - discriminate.
  - reflexivity.
  - vm_compute. discriminate.
  - vm_compute. discriminate.
Defined.

(** ** The chat route *)

(** X22.  A message that is missing, not a string, empty or longer than
    2000 characters is refused with status 400 before anything is called:
    neither the interpreter nor the executor runs and no client is built. *)
Theorem chat_refuses_bad_messages processQuery queryGA4 w env req_body g :
  (forall message, Index.message req_body = VStr message ->
     message = EmptyString \/ 2000 < String.length message) ->
  Index.chat processQuery queryGA4 w env req_body g
  = (g, [],
     Ret (Index.json 400
            [("error",
              VStr match Index.message req_body with
                   | VStr (String _ _) => "Message too long (max 2000 chars)"
                   | _ => "Message is required"
                   end)])).
Proof.
  intros Hbad. unfold Index.chat.
  destruct (Index.message req_body) as [| | | |[|c m]| |] eqn:Hm; try done.
  destruct (Hbad _ eq_refl) as [?|Hlong]; [done|].
  apply Nat.ltb_lt in Hlong. rewrite Hlong. by step_run.
Qed.

Lemma chat_refuses_bad_messages_witness :
  let env := Demo.env_with "groq" in
  let w := Demo.world (Ret "hello") Demo.no_report in
  let req_body := {| Index.message := VNum (of_N 7); Index.history := None |} in
  Index.chat (Ai.processQuery w env) (Demo.queryGA4 w env) w env req_body fresh
  = (fresh, [], Ret (Index.json 400 [("error", VStr "Message is required")])).
Proof.
  intros env w req_body.
  apply (chat_refuses_bad_messages (Ai.processQuery w env) (Demo.queryGA4 w env)
           w env req_body fresh).
  intros message Hm. discriminate Hm.
Defined.

(** X23.  The chat handler always answers: whatever the interpreter and
    the executor return or throw, the handler itself does not throw, and
    the status of its answer is 200, 400 or 500. *)
Theorem chat_always_answers processQuery queryGA4 w env req_body g :
  exists response,
    result (Index.chat processQuery queryGA4 w env req_body g) = Ret response
    /\ Index.status response ∈ [200; 400; 500].
Proof.
  unfold Index.chat, result.
  destruct (Index.message req_body) as [| | | |[|c m]| |];
    try (eexists; split; [reflexivity|set_solver]).
  destruct (2000 <? String.length (String c m))%nat; step_run;
    [eexists; split; [reflexivity|set_solver]|].
  destruct (processQuery _ _ false g) as [[g1 t1] [ga4Params|err]]; simpl;
    [|eexists; split; [reflexivity|set_solver]].
  destruct (Index.get_prop ga4Params "error") as [error|err] eqn:He; simpl;
    [|eexists; split; [reflexivity|set_solver]].
  destruct (truthy error); simpl; [eexists; split; [reflexivity|set_solver]|].
  destruct (Index.get_prop ga4Params "type") as [type|err]; simpl;
    [|eexists; split; [reflexivity|set_solver]].
  destruct (Index.is_string type "text"); simpl.
  { destruct (Index.get_prop ga4Params "content"); simpl;
      eexists; (split; [reflexivity|set_solver]). }
  destruct (queryGA4 ga4Params g1) as [[g2 t2] [ga4Data|err]]; simpl;
    [|eexists; split; [reflexivity|set_solver]].
  destruct (processQuery _ [] true g2) as [[g3 t3] [response|err]]; simpl;
    [|eexists; split; [reflexivity|set_solver]].
  destruct (Index.get_prop response "content"); simpl;
    eexists; (split; [reflexivity|set_solver]).
Qed.

Lemma details_only_in_development (env : gmap string string) err :
  match env !! "NODE_ENV" with
  | Some mode => if String.eqb mode "development" then VStr (message_of err) else VUndef
  | None => VUndef
  end
  = if bool_decide (env !! "NODE_ENV" = Some "development")
    then VStr (message err) else VUndef.
Proof.
  destruct (env !! "NODE_ENV") as [mode|]; [|done].
  destruct (String.eqb mode "development") eqn:Heq.
  - apply String.eqb_eq in Heq as ->. by rewrite bool_decide_eq_true_2.
  - rewrite bool_decide_eq_false_2; [done|].
    intros [= ->]. by rewrite String.eqb_refl in Heq.
Qed.

(** X24.  When the interpreter's result is run as a query and the executor
    throws, the handler answers 500 with a fixed error text; the message of
    what was thrown is added as details only when NODE_ENV is development.
    The formatting call is not made. *)
Theorem executor_failure_is_a_500
    processQuery queryGA4 w env req_body message g g1 t1 r g2 t2 err :
  Index.message req_body = VStr message ->
  message <> EmptyString ->
  String.length message <= 2000 ->
  processQuery message (default [] (Index.history req_body)) false g = (g1, t1, Ret r) ->
  query_shaped r ->
  queryGA4 r g1 = (g2, t2, Throw err) ->
  Index.chat processQuery queryGA4 w env req_body g
  = (g2,
     CallProcessQuery message (default [] (Index.history req_body)) false :: t1
     ++ CallQueryGA4 r :: t2,
     Ret (chat_failure env err)).
Proof.
  intros Hm Hne Hlen Hpq (o & -> & Herr & Hty) Hq.
  rewrite (chat_interpreted _ queryGA4 w env _ _ _ _ _ _ Hm Hne Hlen Hpq).
  cbv zeta. rewrite Herr, Hty, Hq. simpl.
  unfold chat_failure. by rewrite details_only_in_development.
Qed.

Lemma executor_failure_is_a_500_witness :
  let reply := String.concat dquote ["{"; "metrics"; ":["; "sessions"; "]}"] in
  let env := Demo.env_with "groq" in
  let w := Demo.world (Ret reply) Demo.no_report in
  let req_body := {| Index.message := VStr "Sessions?"; Index.history := None |} in
  let r := VObj {["metrics" := VArr [VStr "sessions"]]} in
  let first := Ai.processQuery w env "Sessions?" [] false fresh in
  let second := Demo.queryGA4 w env r (final first) in
  Index.chat (Ai.processQuery w env) (Demo.queryGA4 w env) w env req_body fresh
  = (final second,
     CallProcessQuery "Sessions?" [] false :: calls first
     ++ CallQueryGA4 r :: calls second,
     Ret (Index.json 500
            [("error", VStr "Failed to process your query. Please try again.");
             ("details", VUndef)])).
Proof.
  intros reply env w req_body r first second.
  apply (executor_failure_is_a_500 (Ai.processQuery w env) (Demo.queryGA4 w env) w env
           req_body "Sessions?" fresh (final first) (calls first) r
           (final second) (calls second)
           (mkError "UNAVAILABLE: No connection established")).
  - reflexivity.
  - discriminate.
  - vm_compute. lia.
  - vm_compute. reflexivity.
  - exists {["metrics" := VArr [VStr "sessions"]]}. split; [reflexivity|].
    split; reflexivity.
  - vm_compute. reflexivity.
Defined.

(** The handler past the executor, with the interpreter of server/ai.js. *)
Lemma chat_formatted queryGA4 w env req_body message g g1 t1 r g2 t2 ga4Data response :
  Index.message req_body = VStr message ->
  message <> EmptyString ->
  String.length message <= 2000 ->
  Ai.processQuery w env message (default [] (Index.history req_body)) false g
  = (g1, t1, Ret r) ->
  query_shaped r ->
  queryGA4 r g1 = (g2, t2, Ret ga4Data) ->
  result (Ai.processQuery w env (Index.format_prompt w message r ga4Data) [] true g2)
  = Ret (VObj response) ->
  result (Index.chat (Ai.processQuery w env) queryGA4 w env req_body g)
  = Ret (Index.json 200
           [("type", VStr "analytics");
            ("content",
             if truthy (default VUndef (response !! "content"))
             then default VUndef (response !! "content") else VObj response);
            ("rawData", ga4Data);
            ("query", r)]).
Proof.
  intros Hm Hne Hlen Hpq (o & -> & Herr & Hty) Hq Hf.
  rewrite (chat_interpreted _ queryGA4 w env _ _ _ _ _ _ Hm Hne Hlen Hpq).
  cbv zeta. rewrite Herr, Hty, Hq. simpl.
  destruct (Ai.processQuery w env _ [] true g2) as [[g3 t3] res].
  unfold result in Hf. simpl in Hf. subst res. done.
Qed.

(** X25.  When the interpreter's result is run as a query and the executor
    returns, the answer is the analytics payload: its content is the
    formatting model's reply word for word, and the report and the query
    are sent along unchanged.  An empty reply is the exception: the content
    is then the whole Text result, an object. *)
Theorem analytics_answer_carries_the_reply
    queryGA4 w env req_body message g g1 t1 r g2 t2 ga4Data text :
  Index.message req_body = VStr message ->
  message <> EmptyString ->
  String.length message <= 2000 ->
  Ai.processQuery w env message (default [] (Index.history req_body)) false g
  = (g1, t1, Ret r) ->
  query_shaped r ->
  queryGA4 r g1 = (g2, t2, Ret ga4Data) ->
  model_replies w env g2 (Index.format_prompt w message r ga4Data) [] true text ->
  result (Index.chat (Ai.processQuery w env) queryGA4 w env req_body g)
  = Ret (Index.json 200
           [("type", VStr "analytics");
            ("content", if truthy_string text then VStr text else text_result text);
            ("rawData", ga4Data);
            ("query", r)]).
Proof.
  intros Hm Hne Hlen Hpq Hr Hq Hf.
  apply processQuery_formatted in Hf.
  by rewrite (chat_formatted queryGA4 w env req_body _ _ _ _ _ _ _ _ _
                Hm Hne Hlen Hpq Hr Hq Hf).
Qed.

Lemma analytics_answer_carries_the_reply_witness :
  let reply := String.concat dquote ["{"; "metrics"; ":["; "sessions"; "]}"] in
  let env := Demo.env_with "groq" in
  let w := Demo.world (Ret reply) (Ret empty_report) in
  let req_body := {| Index.message := VStr "Sessions?"; Index.history := None |} in
  let r := VObj {["metrics" := VArr [VStr "sessions"]]} in
  let first := Ai.processQuery w env "Sessions?" [] false fresh in
  let second := Demo.queryGA4 w env r (final first) in
  let ga4Data := match result second with Ret data => data | Throw _ => VUndef end in
  result (Index.chat (Ai.processQuery w env) (Demo.queryGA4 w env) w env req_body fresh)
  = Ret (Index.json 200
           [("type", VStr "analytics");
            ("content", VStr reply);
            ("rawData", ga4Data);
            ("query", r)]).
Proof.
  intros reply env w req_body r first second ga4Data.
  apply (analytics_answer_carries_the_reply (Demo.queryGA4 w env) w env req_body
           "Sessions?" fresh (final first) (calls first) r
           (final second) (calls second) ga4Data reply).
  - reflexivity.
  - discriminate.
  - vm_compute. lia.
  - vm_compute. reflexivity.
  - exists {["metrics" := VArr [VStr "sessions"]]}. split; [reflexivity|].
    split; reflexivity.
  - vm_compute. reflexivity.
  - exists {| GroqApi.apiKey := Some "gsk-demo" |},
           {| GroqApi.choices := [Some (Some reply)] |}.
    split; [reflexivity|]. split; reflexivity.
Defined.

(** X26.  When the formatting call fails, the answer is still the
    analytics payload with status 200: [processQuery] has turned the
    failure into an Error result, which has no content, so the content of
    the answer is that whole Error object. *)
Theorem failed_formatting_is_sent_as_content
    queryGA4 w env req_body message g g1 t1 r g2 t2 ga4Data err :
  Index.message req_body = VStr message ->
  message <> EmptyString ->
  String.length message <= 2000 ->
  Ai.processQuery w env message (default [] (Index.history req_body)) false g
  = (g1, t1, Ret r) ->
  query_shaped r ->
  queryGA4 r g1 = (g2, t2, Ret ga4Data) ->
  model_fails w env g2 (Index.format_prompt w message r ga4Data) [] true err ->
  result (Index.chat (Ai.processQuery w env) queryGA4 w env req_body g)
  = Ret (Index.json 200
           [("type", VStr "analytics");
            ("content",
             error_result (if looks_like_key_problem env err then key_message env
                           else "AI processing failed: " +:+ message_of err));
            ("rawData", ga4Data);
            ("query", r)]).
Proof.
  intros Hm Hne Hlen Hpq Hr Hq Hf.
  apply processQuery_failed in Hf.
  by rewrite (chat_formatted queryGA4 w env req_body _ _ _ _ _ _ _ _ _
                Hm Hne Hlen Hpq Hr Hq Hf).
Qed.

Lemma failed_formatting_is_sent_as_content_witness :
  let reply := String.concat dquote ["{"; "metrics"; ":["; "sessions"; "]}"] in
  let env := Demo.env_with "groq" in
  let w := formatting_fails reply (mkError "503 Service Unavailable") (Ret empty_report) in
  let req_body := {| Index.message := VStr "Sessions?"; Index.history := None |} in
  let r := VObj {["metrics" := VArr [VStr "sessions"]]} in
  let first := Ai.processQuery w env "Sessions?" [] false fresh in
  let second := Demo.queryGA4 w env r (final first) in
  let ga4Data := match result second with Ret data => data | Throw _ => VUndef end in
  result (Index.chat (Ai.processQuery w env) (Demo.queryGA4 w env) w env req_body fresh)
  = Ret (Index.json 200
           [("type", VStr "analytics");
            ("content", error_result "AI processing failed: 503 Service Unavailable");
            ("rawData", ga4Data);
            ("query", r)]).
Proof.
  intros reply env w req_body r first second ga4Data.
  apply (failed_formatting_is_sent_as_content (Demo.queryGA4 w env) w env req_body
           "Sessions?" fresh (final first) (calls first) r
           (final second) (calls second) ga4Data (mkError "503 Service Unavailable")).
  - reflexivity.
  - discriminate.
  - vm_compute. lia.
  - vm_compute. reflexivity.
  - exists {["metrics" := VArr [VStr "sessions"]]}. split; [reflexivity|].
    split; reflexivity.
  - vm_compute. reflexivity.
  - exists {| GroqApi.apiKey := Some "gsk-demo" |}. split; reflexivity.
Defined.

(** ** The direct query route *)

(** X27.  A direct query whose metrics are missing, not an array or an
    empty array is refused with status 400, and the executor is not
    called. *)
Theorem query_requires_a_metric queryGA4 req_body g :
  (forall m ms, Index.metrics req_body <> VArr (m :: ms)) ->
  Index.query queryGA4 req_body g
  = (g, [], Ret (Index.json 400 [("error", VStr "At least one metric is required")])).
Proof.
  intros Hno. unfold Index.query.
  destruct (Index.metrics req_body) as [| | | | |[|m ms]|] eqn:Hm; try done.
  by destruct (Hno m ms).
Qed.

Lemma query_requires_a_metric_witness :
  let env := Demo.env_with "groq" in
  let w := Demo.world (Ret "hello") (Ret empty_report) in
  let req_body :=
    {| Index.dimensions := VUndef; Index.metrics := VStr "sessions";
       Index.startDate := VUndef; Index.endDate := VUndef;
       Index.limit := None; Index.dimensionFilter := VUndef |} in
  Index.query (Demo.queryGA4 w env) req_body fresh
  = (fresh, [], Ret (Index.json 400 [("error", VStr "At least one metric is required")])).
Proof.
  intros env w req_body.
  apply (query_requires_a_metric (Demo.queryGA4 w env) req_body fresh).
  intros m ms Hm. discriminate Hm.
Defined.

Lemma truthy_number_compares n b m e :
  truthy_number n = true -> num_compare n (Fin b m e) <> None.
Proof. by destruct n. Qed.

(** X28.  The limit a direct query hands to the executor is always a
    number that is at most 1000: a limit that is absent, zero or NaN
    becomes 100, a limit up to 1000 is passed as it is, and a larger one
    becomes 1000.  Nothing bounds it from below. *)
Theorem query_limit_is_capped req_body :
  exists n,
    field (Index.query_params req_body) "limit" = VNum n
    /\ num_le n (of_N 1000) = true
    /\ match Index.limit req_body with
       | None => n = of_N 100
       | Some l =>
           if truthy_number l
           then if num_le l (of_N 1000) then n = l else n = of_N 1000
           else n = of_N 100
       end.
Proof.
  eexists. split; [reflexivity|].
  destruct (Index.limit req_body) as [l|]; [|by vm_compute].
  destruct (truthy_number l) eqn:Ht; [|by vm_compute].
  pose proof (truthy_number_compares l false 1000 0 Ht) as Hc.
  unfold num_le, Math_min. fold (of_N 1000) in Hc.
  destruct (num_compare l (of_N 1000)) as [[| |]|] eqn:Hcmp; try done.
  - change (is_negative_zero (of_N 1000)) with false. cbv iota. by rewrite Hcmp.
  - by rewrite Hcmp.
Qed.

(** X29.  A direct query with at least one metric calls the executor once,
    with an object of six properties: the dimensions, or date alone when
    they are missing or falsy; the metrics as they came; the start and end
    date, or 7daysAgo and yesterday; the capped limit; and the dimension
    filter as it came.  What the executor returns is sent unchanged with
    status 200; when it throws, the answer is 500 with a fixed text, and
    the message of what was thrown is not sent, whatever NODE_ENV is. *)
Theorem query_sends_the_report_or_a_fixed_error queryGA4 req_body m ms g :
  Index.metrics req_body = VArr (m :: ms) ->
  let params :=
    VObj (list_to_map
      [("dimensions",
        if truthy (Index.dimensions req_body) then Index.dimensions req_body
        else VArr [VStr "date"]);
       ("metrics", VArr (m :: ms));
       ("startDate",
        if truthy (Index.startDate req_body) then Index.startDate req_body
        else VStr "7daysAgo");
       ("endDate",
        if truthy (Index.endDate req_body) then Index.endDate req_body
        else VStr "yesterday");
       ("limit",
        VNum (Math_min
                match Index.limit req_body with
                | Some l => if truthy_number l then l else of_N 100
                | None => of_N 100
                end
                (of_N 1000)));
       ("dimensionFilter", Index.dimensionFilter req_body)]) in
  Index.query queryGA4 req_body g
  = (final (queryGA4 params g),
     CallQueryGA4 params :: calls (queryGA4 params g),
     Ret match result (queryGA4 params g) with
         | Ret data => {| Index.status := 200; Index.body := data |}
         | Throw _ => Index.json 500 [("error", VStr "Failed to query GA4")]
         end).
Proof.
  intros Hm params. unfold Index.query. rewrite Hm.
  assert (Index.query_params req_body = params) as ->.
  { unfold Index.query_params, Index.or_value. by rewrite Hm. }
  step_run. unfold final, calls, result.
  destruct (queryGA4 params g) as [[g1 t1] [data|err]]; simpl; by rewrite ?app_nil_r.
Qed.

Lemma query_sends_the_report_or_a_fixed_error_witness :
  let env := Demo.env_with "groq" in
  let w := Demo.world (Ret "hello") Demo.no_report in
  let req_body :=
    {| Index.dimensions := VUndef; Index.metrics := VArr [VStr "sessions"];
       Index.startDate := VStr "30daysAgo"; Index.endDate := VUndef;
       Index.limit := Some (of_N 5000); Index.dimensionFilter := VUndef |} in
  let params :=
    VObj (list_to_map
      [("dimensions", VArr [VStr "date"]);
       ("metrics", VArr [VStr "sessions"]);
       ("startDate", VStr "30daysAgo");
       ("endDate", VStr "yesterday");
       ("limit", VNum (of_N 1000));
       ("dimensionFilter", VUndef)]) in
  Index.query (Demo.queryGA4 w env) req_body fresh
  = (final (Demo.queryGA4 w env params fresh),
     CallQueryGA4 params :: calls (Demo.queryGA4 w env params fresh),
     Ret (Index.json 500 [("error", VStr "Failed to query GA4")])).
Proof.
  intros env w req_body params.
  apply (query_sends_the_report_or_a_fixed_error (Demo.queryGA4 w env) req_body
           (VStr "sessions") [] fresh).
  reflexivity.
Defined.

(** ** The health route *)

(** X30.  Once the start-up check has passed, the health route reports the
    configured property id, which is not empty: the fallback text for a
    missing id is not used.  The route calls nothing. *)
Theorem health_reports_the_property processQuery queryGA4 w env timestamp g :
  Index.startup env = None ->
  exists propertyId,
    env !! "GA4_PROPERTY_ID" = Some propertyId
    /\ propertyId <> EmptyString
    /\ Index.handle processQuery queryGA4 w env (Index.GetHealth timestamp) g
       = (g, [],
          Ret (Index.json 200
                 [("status", VStr "ok");
                  ("property", VStr propertyId);
                  ("timestamp", VStr timestamp)])).
Proof.
  intros Hs.
  destruct (startup_is_set env "GA4_PROPERTY_ID" Hs) as (c & s & Hp);
    [unfold Index.requiredEnv; set_solver|].
  exists (String c s). split; [done|]. split; [done|].
  unfold Index.handle. by rewrite Hp.
Qed.

Lemma health_reports_the_property_witness :
  let env := Demo.env_with "gemini" in
  let w := Demo.world (Ret "hello") Demo.no_report in
  exists propertyId,
    env !! "GA4_PROPERTY_ID" = Some propertyId
    /\ propertyId <> EmptyString
    /\ Index.handle (Ai.processQuery w env) (Demo.queryGA4 w env) w env
         (Index.GetHealth "2026-01-15T09:30:00.000Z") fresh
       = (fresh, [],
          Ret (Index.json 200
                 [("status", VStr "ok");
                  ("property", VStr propertyId);
                  ("timestamp", VStr "2026-01-15T09:30:00.000Z")])).
Proof.
  intros env w.
  apply (health_reports_the_property (Ai.processQuery w env) (Demo.queryGA4 w env) w env
           "2026-01-15T09:30:00.000Z" fresh).
  vm_compute. reflexivity.
Defined.
